(** * Virtual nodes, block tracking and application mount of the Vue 3 runtime core

    A shallow embedding of
    - [packages/shared/src/shapeFlags.ts] (module [ShapeFlags]),
    - the class/style normalisers of [@vue/shared] (module [Shared]),
    - [packages/runtime-core/src/vnode.ts] (module [VNode]),
    - the [mount]/[unmount] methods of [packages/runtime-core/src/apiCreateApp.ts]
      (module [App]),
    together with the properties of these functions that the specification
    states.

    JavaScript values are trees carrying an identity tag wherever the language
    compares by reference; vnodes and the block lists, which the code mutates
    after sharing them, live in an explicit store. *)

From Stdlib Require Import ZArith String Ascii List Bool Lia.
From stdpp Require Import base tactics option list strings.

Local Open Scope string_scope.
Local Open Scope list_scope.
Local Open Scope Z_scope.

Set Warnings "-register-all".

(* ===================================================================== *)
(** * JavaScript values *)
(* ===================================================================== *)

Module Js.

(** A store address of a vnode object. *)
Definition loc := nat.

(** Values.  Numbers are the safe integers and [NaN]; symbols are the ones of
    the global registry ([Symbol.for]), equal when their keys are.  Functions,
    arrays and objects carry the identity [id] that [===] compares; their
    properties are listed in enumeration order.  [VVNode l] is a reference to
    the vnode object stored at [l]. *)
Inductive Value : Type :=
| VUndef
| VNull
| VBool (b : bool)
| VNum (z : Z)
| VNaN
| VStr (s : string)
| VSym (key : string)
| VFun (id : nat) (own : list (string * Value))
| VArr (id : nat) (items : list Value)
| VObj (id : nat) (own : list (string * Value))
| VVNode (l : loc).

Definition Fields := list (string * Value).

(** ToBoolean. *)
Definition truthy (v : Value) : bool :=
  match v with
  | VUndef | VNull | VNaN => false
  | VBool b => b
  | VNum z => negb (z =? 0)
  | VStr s => negb (String.eqb s "")
  | _ => true
  end.

(** [a && b] and [a || b] on values. *)
Definition js_and (a b : Value) : Value := if truthy a then b else a.
Definition js_or (a b : Value) : Value := if truthy a then a else b.

(** [a === b]. *)
Definition strict_eq (a b : Value) : bool :=
  match a, b with
  | VUndef, VUndef | VNull, VNull => true
  | VBool x, VBool y => Bool.eqb x y
  | VNum x, VNum y => x =? y
  | VStr x, VStr y => String.eqb x y
  | VSym x, VSym y => String.eqb x y
  | VFun x _, VFun y _ => Nat.eqb x y
  | VArr x _, VArr y _ => Nat.eqb x y
  | VObj x _, VObj y _ => Nat.eqb x y
  | VVNode x, VVNode y => Nat.eqb x y
  | _, _ => false
  end.

(** SameValueZero, the comparison of [Array.prototype.includes]. *)
Definition same_value_zero (a b : Value) : bool :=
  match a, b with
  | VNaN, VNaN => true
  | _, _ => strict_eq a b
  end.

(** [v == null]. *)
Definition is_nullish (v : Value) : bool :=
  match v with VUndef | VNull => true | _ => false end.

(** The type tests of [@vue/shared]. *)
Definition isString (v : Value) : bool :=
  match v with VStr _ => true | _ => false end.
Definition isArray (v : Value) : bool :=
  match v with VArr _ _ => true | _ => false end.
Definition isFunction (v : Value) : bool :=
  match v with VFun _ _ => true | _ => false end.
(** [val !== null && typeof val === 'object'] *)
Definition isObject (v : Value) : bool :=
  match v with VArr _ _ | VObj _ _ | VVNode _ => true | _ => false end.
Definition isNumber (v : Value) : bool :=
  match v with VNum _ | VNaN => true | _ => false end.
Definition isBoolean (v : Value) : bool :=
  match v with VBool _ => true | _ => false end.

(** ** Properties *)

Fixpoint get_field (k : string) (fs : Fields) : option Value :=
  match fs with
  | [] => None
  | (k', v) :: fs' => if String.eqb k k' then Some v else get_field k fs'
  end.

(** A canonical array index: the decimal numeral, without leading zero, of a
    number below [2^32 - 1].  JavaScript enumerates such keys first, in
    ascending order. *)
Definition digit_of (a : ascii) : option N :=
  let n := N_of_ascii a in
  if ((48 <=? n) && (n <=? 57))%N then Some (n - 48)%N else None.

Fixpoint digits_value (acc : N) (s : string) : option N :=
  match s with
  | EmptyString => Some acc
  | String a s' =>
      match digit_of a with
      | Some d => digits_value (acc * 10 + d)%N s'
      | None => None
      end
  end.

Definition array_index (k : string) : option N :=
  match k with
  | EmptyString => None
  | String a rest =>
      if (Ascii.eqb a "0" && negb (String.eqb rest ""))%bool then None
      else match digits_value 0%N k with
           | Some n => if (n <? 4294967295)%N then Some n else None
           | None => None
           end
  end.

Fixpoint replace_field (k : string) (v : Value) (fs : Fields) : Fields :=
  match fs with
  | [] => []
  | (k', v') :: fs' =>
      if String.eqb k k' then (k, v) :: fs' else (k', v') :: replace_field k v fs'
  end.

(** Where a new array-index key goes: before the first key that is not an
    index or is a larger one. *)
Fixpoint insert_index (n : N) (k : string) (v : Value) (fs : Fields) : Fields :=
  match fs with
  | [] => [(k, v)]
  | (k', v') :: fs' =>
      match array_index k' with
      | Some n' =>
          if (n' <? n)%N then (k', v') :: insert_index n k v fs'
          else (k, v) :: fs
      | None => (k, v) :: fs
      end
  end.

(** [o[k] = v] on the property list of a plain object. *)
Definition set_field (k : string) (v : Value) (fs : Fields) : Fields :=
  match get_field k fs with
  | Some _ => replace_field k v fs
  | None =>
      match array_index k with
      | Some n => insert_index n k v fs
      | None => fs ++ [(k, v)]
      end
  end.

(** The enumerable properties [for ... in] visits.  Only plain objects and
    functions have modelled properties. *)
Definition fields_of (v : Value) : Fields :=
  match v with
  | VObj _ fs | VFun _ fs => fs
  | _ => []
  end.

(** [v[k]] (a read); [undefined] when absent. *)
Definition get (v : Value) (k : string) : Value :=
  match get_field k (fields_of v) with
  | Some x => x
  | None => VUndef
  end.

(** [k in v]. *)
Definition has (k : string) (v : Value) : bool :=
  match get_field k (fields_of v) with Some _ => true | None => false end.

(** [v[k] = x]: the object keeps its identity. *)
Definition set (v : Value) (k : string) (x : Value) : Value :=
  match v with
  | VObj id fs => VObj id (set_field k x fs)
  | VFun id fs => VFun id (set_field k x fs)
  | _ => v
  end.

(** ** Bit operations: operands and result pass through ToInt32. *)

Definition to_int32 (z : Z) : Z :=
  let m := z mod 4294967296 in
  if m <? 2147483648 then m else m - 4294967296.

Definition bit_or (a b : Z) : Z := to_int32 (Z.lor (to_int32 a) (to_int32 b)).
Definition bit_and (a b : Z) : Z := to_int32 (Z.land (to_int32 a) (to_int32 b)).
Definition bit_not (a : Z) : Z := to_int32 (Z.lnot (to_int32 a)).

(** ** Strings *)

(** Decimal numeral of an integer, as [String(n)] prints a safe integer. *)
Definition digit_char (n : N) : ascii := ascii_of_N (48 + n).

Fixpoint pos_digits (fuel : nat) (n : N) (acc : string) : string :=
  match fuel with
  | O => acc
  | S fuel' =>
      let acc' := String (digit_char (n mod 10)) acc in
      if (n / 10 =? 0)%N then acc' else pos_digits fuel' (n / 10)%N acc'
  end.

Definition string_of_N (n : N) : string :=
  pos_digits (S (N.to_nat (N.log2 n))) n "".

Definition string_of_Z (z : Z) : string :=
  if z <? 0 then "-" +:+ string_of_N (Z.to_N (- z)) else string_of_N (Z.to_N z).

(** [String(v)] for the primitives; objects print as JavaScript prints a plain
    object. *)
Definition to_String (v : Value) : string :=
  match v with
  | VUndef => "undefined"
  | VNull => "null"
  | VBool true => "true"
  | VBool false => "false"
  | VNum z => string_of_Z z
  | VNaN => "NaN"
  | VStr s => s
  | VSym k => "Symbol(" +:+ k +:+ ")"
  | _ => "[object Object]"
  end.

(** White space as [String.prototype.trim] sees it, among the code units below
    256. *)
Definition is_ws (a : ascii) : bool :=
  let n := N_of_ascii a in
  ((9 <=? n) && (n <=? 13) || (n =? 32) || (n =? 160))%N.

Fixpoint trim_start (s : string) : string :=
  match s with
  | EmptyString => EmptyString
  | String a s' => if is_ws a then trim_start s' else s
  end.

Definition trim (s : string) : string :=
  String.rev (trim_start (String.rev (trim_start s))).

End Js.

(* ===================================================================== *)
(** * Shape flags ([packages/shared/src/shapeFlags.ts]) *)
(* ===================================================================== *)

Module ShapeFlags.

Definition ELEMENT : Z := 1.
Definition FUNCTIONAL_COMPONENT : Z := Z.shiftl 1 1.
Definition STATEFUL_COMPONENT : Z := Z.shiftl 1 2.
Definition TEXT_CHILDREN : Z := Z.shiftl 1 3.
Definition ARRAY_CHILDREN : Z := Z.shiftl 1 4.
Definition SLOTS_CHILDREN : Z := Z.shiftl 1 5.
Definition TELEPORT : Z := Z.shiftl 1 6.
Definition SUSPENSE : Z := Z.shiftl 1 7.
Definition COMPONENT_SHOULD_KEEP_ALIVE : Z := Z.shiftl 1 8.
Definition COMPONENT_KEPT_ALIVE : Z := Z.shiftl 1 9.
Definition COMPONENT : Z := Z.lor STATEFUL_COMPONENT FUNCTIONAL_COMPONENT.

End ShapeFlags.

(* ===================================================================== *)
(** * Class and style normalisation ([@vue/shared]) *)
(* ===================================================================== *)

Module Shared.
Import Js.

(** Objects the code creates take their identity from a counter, threaded
    through every function that allocates. *)
Definition Alloc (A : Type) : Type := nat -> A * nat.

(** ** [parseStringStyle] *)

(** The text after the first [*/] of [s]. *)
Fixpoint after_comment_end (s : string) : option string :=
  match s with
  | EmptyString => None
  | String a s' =>
      match s' with
      | String b r =>
          if (Ascii.eqb a "*" && Ascii.eqb b "/")%bool then Some r
          else after_comment_end s'
      | EmptyString => None
      end
  end.

(** [.replace(styleCommentRE, '')] with [styleCommentRE = /\/\*[^]*?\*\//g]:
    every [/* ... */] is removed, the scan resuming after it; [fuel] bounds the
    number of characters still to scan. *)
Fixpoint strip_comments (fuel : nat) (s : string) : string :=
  match fuel with
  | O => s
  | S fuel' =>
      match s with
      | EmptyString => EmptyString
      | String a s' =>
          match s' with
          | String b r =>
              if (Ascii.eqb a "/" && Ascii.eqb b "*")%bool then
                match after_comment_end r with
                | Some rest => strip_comments fuel' rest
                | None => String a (strip_comments fuel' s')
                end
              else String a (strip_comments fuel' s')
          | EmptyString => s
          end
      end
  end.

(** Does [s] match [[^(]*\)] at its start: the look-ahead of
    [listDelimiterRE = /;(?![^(]*\))/g]. *)
Fixpoint closes_paren (s : string) : bool :=
  match s with
  | EmptyString => false
  | String a r =>
      if Ascii.eqb a ")" then true
      else if Ascii.eqb a "(" then false
      else closes_paren r
  end.

(** [.split(listDelimiterRE)]; [cur] is the current piece, reversed. *)
Fixpoint split_list (s : string) (cur : string) : list string :=
  match s with
  | EmptyString => [String.rev cur]
  | String a r =>
      if (Ascii.eqb a ";" && negb (closes_paren r))%bool
      then String.rev cur :: split_list r EmptyString
      else split_list r (String a cur)
  end.

(** [item.split(propertyDelimiterRE)] with [propertyDelimiterRE = /:([^]+)/]:
    the pieces are [before; rest; ""] at the first colon that has text after
    it, and [item] alone when there is none.  [Some (before, rest)] stands for
    the former. *)
Fixpoint split_property (s : string) (cur : string) : option (string * string) :=
  match s with
  | EmptyString => None
  | String a r =>
      if Ascii.eqb a ":" then
        match r with
        | EmptyString => None
        | _ => Some (String.rev cur, r)
        end
      else split_property r (String a cur)
  end.

Definition parseStringStyle (cssText : string) : Alloc Value := fun next =>
  let ret : Fields :=
    fold_left
      (fun (ret : Fields) (item : string) =>
         if truthy (VStr item) then
           match split_property item EmptyString with
           | Some (tmp0, tmp1) => set_field (trim tmp0) (VStr (trim tmp1)) ret
           | None => ret
           end
         else ret)
      (split_list (strip_comments (String.length cssText) cssText) EmptyString)
      [] in
  (VObj next ret, S next).

(** ** [normalizeStyle] *)

(** [for (const key in normalized) res[key] = normalized[key]] *)
Definition copy_into (normalized : Value) (res : Fields) : Fields :=
  fold_left (fun (res : Fields) (kv : string * Value) =>
               set_field (fst kv) (get normalized (fst kv)) res)
            (fields_of normalized) res.

Fixpoint normalizeStyle (value : Value) : Alloc Value := fun next =>
  match value with
  | VArr _ items =>
      let res_id := next in
      let '(res, next') :=
        (fix loop (items : list Value) (res : Fields) (next : nat) : Fields * nat :=
           match items with
           | [] => (res, next)
           | item :: items' =>
               let '(normalized, next1) :=
                 match item with
                 | VStr s => parseStringStyle s next
                 | _ => normalizeStyle item next
                 end in
               loop items'
                    (if truthy normalized then copy_into normalized res else res)
                    next1
           end) items [] (S next) in
      (VObj res_id res, next')
  | VStr _ | VObj _ _ | VVNode _ => (value, next)
  | _ => (VUndef, next)
  end.

(** ** [normalizeClass] *)

Fixpoint normalizeClass (value : Value) : string :=
  let res :=
    match value with
    | VStr s => s
    | VArr _ items =>
        (fix loop (items : list Value) (res : string) : string :=
           match items with
           | [] => res
           | item :: items' =>
               let normalized := normalizeClass item in
               loop items'
                    (if truthy (VStr normalized) then res +:+ normalized +:+ " "
                     else res)
           end) items EmptyString
    | VObj _ fs =>
        fold_left (fun (res : string) (kv : string * Value) =>
                     if truthy (get value (fst kv)) then res +:+ fst kv +:+ " "
                     else res)
                  fs EmptyString
    | _ => EmptyString
    end in
  trim res.

End Shared.

(* ===================================================================== *)
(** * The diagnostic channel ([warn] of [./warning]) *)
(* ===================================================================== *)

(** One constructor per message the modelled code can emit, with the
    arguments it passes along. *)
Inductive Warning : Type :=
| InvalidVNodeType (type : Js.Value)
| InvalidKeyNaN (type : Js.Value)
| ReactiveComponent (type : Js.Value)
| ContainerAlreadyHasApp
| AppAlreadyMounted
| CannotUnmountUnmounted.

(* ===================================================================== *)
(** * Virtual nodes ([packages/runtime-core/src/vnode.ts]) *)
(* ===================================================================== *)

Module VNode.
Import Js Shared.

Definition Fragment : Value := VSym "v-fgt".
Definition Text : Value := VSym "v-txt".
Definition Comment : Value := VSym "v-cmt".
Definition Static : Value := VSym "v-stc".

Definition InternalObjectKey : string := "__vInternal".

(** [vnode.dynamicChildren]: [null], the shared frozen [EMPTY_ARR] of
    [@vue/shared], or one of the arrays [openBlock] created, by address. *)
Inductive DynamicChildren : Type :=
| DCNull
| DCEmptyArr
| DCBlock (a : nat).

(** The [VNode] interface.  Host handles, instances and the other values this
    file only stores and copies are plain values; [ssContent] and [ssFallback]
    are vnode addresses.  [_ctx] is the property [normalizeChildren] adds to an
    object given as slots, which can be a vnode. *)
Record VNode : Type := mkVNode {
  type : Value;
  props : Value;
  key : Value;
  ref : Value;
  scopeId : Value;
  slotScopeIds : Value;
  children : Value;
  component : Value;
  suspense : Value;
  ssContent : option loc;
  ssFallback : option loc;
  dirs : Value;
  transition : Value;
  el : Value;
  anchor : Value;
  target : Value;
  targetAnchor : Value;
  staticCount : Z;
  shapeFlag : Z;
  patchFlag : Z;
  dynamicProps : Value;
  dynamicChildren : DynamicChildren;
  appContext : Value;
  ctx : Value;
  memo : Value;
  ce : Value;
  _ctx : Value
}.

(** A block list: an array of vnodes.  [minus_one] is the property ["-1"] that
    [block[block.indexOf(x)] = y] creates when [x] is not an element; it is not
    an element of the array. *)
Record Block : Type := mkBlock {
  elems : list loc;
  minus_one : option loc
}.

(** The module state: the vnode objects and block lists allocated so far, the
    module variables [blockStack], [currentBlock], [isBlockTreeEnabled] and
    [vnodeArgsTransformer], the variables imported from
    [./componentRenderContext] and [./hmr], the last value written to the [_d]
    property of each slot function, the identity counter and the diagnostics
    emitted. *)
Record State : Type := mkState {
  heap : list VNode;
  blocks : list Block;
  blockStack : list (option nat);
  currentBlock : option nat;
  isBlockTreeEnabled : Z;
  vnodeArgsTransformer : option Value;
  currentRenderingInstance : Value;
  currentScopeId : Value;
  hmrDirtyComponents : list Value;
  slot_d : list (nat * bool);
  next_id : nat;
  warnings : list Warning
}.

(** The state in which the module is loaded. *)
Definition initial : State :=
  {| heap := []; blocks := []; blockStack := []; currentBlock := None;
     isBlockTreeEnabled := 1; vnodeArgsTransformer := None;
     currentRenderingInstance := VNull; currentScopeId := VNull;
     hmrDirtyComponents := []; slot_d := []; next_id := 0; warnings := [] |}.

(** The arguments of [_createVNode]. *)
Record CreateArgs : Type := mkArgs {
  a_type : Value;
  a_props : Value;
  a_children : Value;
  a_patchFlag : Z;
  a_dynamicProps : Value;
  a_isBlockNode : bool
}.

(** ** What the file imports and [src/] does not hold *)

(** The [PatchFlags] enumeration of [@vue/shared]. *)
Class PatchFlags : Type := {
  TEXT : Z;
  CLASS : Z;
  FULL_PROPS : Z;
  HYDRATE_EVENTS : Z;
  DYNAMIC_SLOTS : Z;
  HOISTED : Z;
  BAIL : Z
}.

(** The [SlotFlags] enumeration of [@vue/shared]. *)
Class SlotFlags : Type := {
  STABLE : Z;
  DYNAMIC : Z;
  FORWARDED : Z
}.

(** The build flags, the predicates of [@vue/reactivity], [@vue/shared] and
    the component modules, and the foreign code the file calls: a slot
    function ([slot()]), [SuspenseImpl.normalize] and the registered arguments
    transformer.  The compatibility build ([__COMPAT__]) is not modelled. *)
Class Externals : Type := {
  __DEV__ : bool;
  __FEATURE_SUSPENSE__ : bool;
  NULL_DYNAMIC_COMPONENT : Value;
  isProxy : Value -> bool;
  toRaw : Value -> Value;
  isRef : Value -> bool;
  isOn : string -> bool;
  isClassComponent : Value -> bool;
  isSuspense : Value -> bool;
  isTeleport : Value -> bool;
  call_slot : Value -> State -> option (Value * State);
  suspense_normalize : Value -> loc -> State -> option (unit * State);
  call_transformer : Value -> CreateArgs -> Value -> State -> option (CreateArgs * State)
}.

(** ** State passing *)

(** A computation on the module state.  [None]: the model gives no result,
    because the recursion bound was reached, an address is dangling, a value
    is outside its declared type, or foreign code gave none. *)
Definition M (A : Type) : Type := State -> option (A * State).

Definition ret {A : Type} (a : A) : M A := fun s => Some (a, s).

Definition bind {A B : Type} (m : M A) (k : A -> M B) : M B :=
  fun s => match m s with
           | Some (a, s') => k a s'
           | None => None
           end.

Definition fail {A : Type} : M A := fun _ => None.

Local Notation "'let*' x ':=' m 'in' k" := (bind m (fun x => k))
  (at level 10, x binder, m at level 100, k at level 200,
   format "'[v' 'let*'  x  ':='  m  'in' '/' k ']'").
Local Notation "m ';;' k" := (bind m (fun _ => k))
  (at level 100, k at level 200, right associativity).

Definition when (b : bool) (m : M unit) : M unit := if b then m else ret tt.

Definition with_heap (s : State) (h : list VNode) : State :=
  {| heap := h; blocks := blocks s; blockStack := blockStack s;
     currentBlock := currentBlock s; isBlockTreeEnabled := isBlockTreeEnabled s;
     vnodeArgsTransformer := vnodeArgsTransformer s;
     currentRenderingInstance := currentRenderingInstance s;
     currentScopeId := currentScopeId s;
     hmrDirtyComponents := hmrDirtyComponents s; slot_d := slot_d s;
     next_id := next_id s; warnings := warnings s |}.

Definition with_blocks (s : State) (b : list Block) : State :=
  {| heap := heap s; blocks := b; blockStack := blockStack s;
     currentBlock := currentBlock s; isBlockTreeEnabled := isBlockTreeEnabled s;
     vnodeArgsTransformer := vnodeArgsTransformer s;
     currentRenderingInstance := currentRenderingInstance s;
     currentScopeId := currentScopeId s;
     hmrDirtyComponents := hmrDirtyComponents s; slot_d := slot_d s;
     next_id := next_id s; warnings := warnings s |}.

Definition with_stack (s : State) (st : list (option nat)) (cur : option nat) : State :=
  {| heap := heap s; blocks := blocks s; blockStack := st;
     currentBlock := cur; isBlockTreeEnabled := isBlockTreeEnabled s;
     vnodeArgsTransformer := vnodeArgsTransformer s;
     currentRenderingInstance := currentRenderingInstance s;
     currentScopeId := currentScopeId s;
     hmrDirtyComponents := hmrDirtyComponents s; slot_d := slot_d s;
     next_id := next_id s; warnings := warnings s |}.

Definition with_enabled (s : State) (n : Z) : State :=
  {| heap := heap s; blocks := blocks s; blockStack := blockStack s;
     currentBlock := currentBlock s; isBlockTreeEnabled := n;
     vnodeArgsTransformer := vnodeArgsTransformer s;
     currentRenderingInstance := currentRenderingInstance s;
     currentScopeId := currentScopeId s;
     hmrDirtyComponents := hmrDirtyComponents s; slot_d := slot_d s;
     next_id := next_id s; warnings := warnings s |}.

Definition with_transformer (s : State) (t : option Value) : State :=
  {| heap := heap s; blocks := blocks s; blockStack := blockStack s;
     currentBlock := currentBlock s; isBlockTreeEnabled := isBlockTreeEnabled s;
     vnodeArgsTransformer := t;
     currentRenderingInstance := currentRenderingInstance s;
     currentScopeId := currentScopeId s;
     hmrDirtyComponents := hmrDirtyComponents s; slot_d := slot_d s;
     next_id := next_id s; warnings := warnings s |}.

Definition with_slot_d (s : State) (d : list (nat * bool)) : State :=
  {| heap := heap s; blocks := blocks s; blockStack := blockStack s;
     currentBlock := currentBlock s; isBlockTreeEnabled := isBlockTreeEnabled s;
     vnodeArgsTransformer := vnodeArgsTransformer s;
     currentRenderingInstance := currentRenderingInstance s;
     currentScopeId := currentScopeId s;
     hmrDirtyComponents := hmrDirtyComponents s; slot_d := d;
     next_id := next_id s; warnings := warnings s |}.

Definition with_next_id (s : State) (n : nat) : State :=
  {| heap := heap s; blocks := blocks s; blockStack := blockStack s;
     currentBlock := currentBlock s; isBlockTreeEnabled := isBlockTreeEnabled s;
     vnodeArgsTransformer := vnodeArgsTransformer s;
     currentRenderingInstance := currentRenderingInstance s;
     currentScopeId := currentScopeId s;
     hmrDirtyComponents := hmrDirtyComponents s; slot_d := slot_d s;
     next_id := n; warnings := warnings s |}.

Definition with_warnings (s : State) (w : list Warning) : State :=
  {| heap := heap s; blocks := blocks s; blockStack := blockStack s;
     currentBlock := currentBlock s; isBlockTreeEnabled := isBlockTreeEnabled s;
     vnodeArgsTransformer := vnodeArgsTransformer s;
     currentRenderingInstance := currentRenderingInstance s;
     currentScopeId := currentScopeId s;
     hmrDirtyComponents := hmrDirtyComponents s; slot_d := slot_d s;
     next_id := next_id s; warnings := w |}.

Definition get_state : M State := fun s => Some (s, s).

(** [warn(...)] *)
Definition warn (w : Warning) : M unit :=
  fun s => Some (tt, with_warnings s (warnings s ++ [w])).

(** An allocating computation of [Shared], run on the state's counter. *)
Definition alloc {A : Type} (m : Alloc A) : M A :=
  fun s => let '(a, n) := m (next_id s) in Some (a, with_next_id s n).

Definition fresh_id : M nat := alloc (fun n => (n, S n)).

(** Reading, writing and creating vnode objects. *)
Definition read (l : loc) : M VNode :=
  fun s => match heap s !! l with
           | Some v => Some (v, s)
           | None => None
           end.

Definition modify (l : loc) (f : VNode -> VNode) : M unit :=
  fun s => match heap s !! l with
           | Some v => Some (tt, with_heap s (<[l := f v]> (heap s)))
           | None => None
           end.

Definition new_vnode (v : VNode) : M loc :=
  fun s => Some (length (heap s), with_heap s (heap s ++ [v])).

Definition set_children (c : Value) (v : VNode) : VNode :=
  mkVNode (type v) (props v) (key v) (ref v) (scopeId v) (slotScopeIds v) c
    (component v) (suspense v) (ssContent v) (ssFallback v) (dirs v)
    (transition v) (el v) (anchor v) (target v) (targetAnchor v)
    (staticCount v) (shapeFlag v) (patchFlag v) (dynamicProps v)
    (dynamicChildren v) (appContext v) (ctx v) (memo v) (ce v) (_ctx v).

Definition set_shapeFlag (f : Z) (v : VNode) : VNode :=
  mkVNode (type v) (props v) (key v) (ref v) (scopeId v) (slotScopeIds v)
    (children v) (component v) (suspense v) (ssContent v) (ssFallback v)
    (dirs v) (transition v) (el v) (anchor v) (target v) (targetAnchor v)
    (staticCount v) f (patchFlag v) (dynamicProps v)
    (dynamicChildren v) (appContext v) (ctx v) (memo v) (ce v) (_ctx v).

Definition set_patchFlag (f : Z) (v : VNode) : VNode :=
  mkVNode (type v) (props v) (key v) (ref v) (scopeId v) (slotScopeIds v)
    (children v) (component v) (suspense v) (ssContent v) (ssFallback v)
    (dirs v) (transition v) (el v) (anchor v) (target v) (targetAnchor v)
    (staticCount v) (shapeFlag v) f (dynamicProps v)
    (dynamicChildren v) (appContext v) (ctx v) (memo v) (ce v) (_ctx v).

Definition set_dynamicChildren (d : DynamicChildren) (v : VNode) : VNode :=
  mkVNode (type v) (props v) (key v) (ref v) (scopeId v) (slotScopeIds v)
    (children v) (component v) (suspense v) (ssContent v) (ssFallback v)
    (dirs v) (transition v) (el v) (anchor v) (target v) (targetAnchor v)
    (staticCount v) (shapeFlag v) (patchFlag v) (dynamicProps v)
    d (appContext v) (ctx v) (memo v) (ce v) (_ctx v).

Definition set_staticCount (n : Z) (v : VNode) : VNode :=
  mkVNode (type v) (props v) (key v) (ref v) (scopeId v) (slotScopeIds v)
    (children v) (component v) (suspense v) (ssContent v) (ssFallback v)
    (dirs v) (transition v) (el v) (anchor v) (target v) (targetAnchor v)
    n (shapeFlag v) (patchFlag v) (dynamicProps v)
    (dynamicChildren v) (appContext v) (ctx v) (memo v) (ce v) (_ctx v).

Definition set_appContext (c : Value) (v : VNode) : VNode :=
  mkVNode (type v) (props v) (key v) (ref v) (scopeId v) (slotScopeIds v)
    (children v) (component v) (suspense v) (ssContent v) (ssFallback v)
    (dirs v) (transition v) (el v) (anchor v) (target v) (targetAnchor v)
    (staticCount v) (shapeFlag v) (patchFlag v) (dynamicProps v)
    (dynamicChildren v) c (ctx v) (memo v) (ce v) (_ctx v).

Definition set__ctx (c : Value) (v : VNode) : VNode :=
  mkVNode (type v) (props v) (key v) (ref v) (scopeId v) (slotScopeIds v)
    (children v) (component v) (suspense v) (ssContent v) (ssFallback v)
    (dirs v) (transition v) (el v) (anchor v) (target v) (targetAnchor v)
    (staticCount v) (shapeFlag v) (patchFlag v) (dynamicProps v)
    (dynamicChildren v) (appContext v) (ctx v) (memo v) (ce v) c.

(** ** Block lists *)

(** [block.push(vnode)] *)
Definition block_push (a : nat) (vnode : loc) : M unit :=
  fun s => match blocks s !! a with
           | Some b =>
               Some (tt, with_blocks s
                           (<[a := mkBlock (elems b ++ [vnode]) (minus_one b)]>
                              (blocks s)))
           | None => None
           end.

(** [block.indexOf(x)]: the first position holding [x]. *)
Fixpoint indexOf (x : loc) (l : list loc) : option nat :=
  match l with
  | [] => None
  | y :: l' => if Nat.eqb y x then Some O
               else match indexOf x l' with
                    | Some i => Some (S i)
                    | None => None
                    end
  end.

(** [block[block.indexOf(x)] = y] *)
Definition block_replace (a : nat) (x y : loc) : M unit :=
  fun s => match blocks s !! a with
           | Some b =>
               let b' := match indexOf x (elems b) with
                         | Some i => mkBlock (<[i := y]> (elems b)) (minus_one b)
                         | None => mkBlock (elems b) (Some y)
                         end in
               Some (tt, with_blocks s (<[a := b']> (blocks s)))
           | None => None
           end.

(** [blockStack.push((currentBlock = disableTracking ? null : []))] *)
Definition openBlock (disableTracking : bool) (s : State) : State :=
  if disableTracking then with_stack s (blockStack s ++ [None]) None
  else
    let a := length (blocks s) in
    with_stack (with_blocks s (blocks s ++ [mkBlock [] None]))
               (blockStack s ++ [Some a]) (Some a).

(** [blockStack[blockStack.length - 1] || null] *)
Definition stack_top (st : list (option nat)) : option nat :=
  match last st with
  | Some (Some a) => Some a
  | _ => None
  end.

Definition closeBlock (s : State) : State :=
  let st := removelast (blockStack s) in
  with_stack s st (stack_top st).

Definition setBlockTracking (value : Z) (s : State) : State :=
  with_enabled s (isBlockTreeEnabled s + value).

Definition setupBlock (vnode : loc) : M loc :=
  let* s := get_state in
  modify vnode
    (set_dynamicChildren
       (if 0 <? isBlockTreeEnabled s then
          match currentBlock s with
          | Some a => DCBlock a
          | None => DCEmptyArr
          end
        else DCNull));;
  (fun s => Some (tt, closeBlock s));;
  let* s := get_state in
  match currentBlock s with
  | Some a => when (0 <? isBlockTreeEnabled s) (block_push a vnode)
  | None => ret tt
  end;;
  ret vnode.

Definition isVNode (value : Value) : bool :=
  match value with VVNode _ => true | _ => false end.

Section Code.
Context {PF : PatchFlags} {SF : SlotFlags} {E : Externals}.

(** [set.has(x)] *)
Definition set_has (x : Value) (set : list Value) : bool :=
  existsb (same_value_zero x) set.

Definition isSameVNodeType (n1 n2 : loc) : M bool :=
  let* v2 := read n2 in
  let* s := get_state in
  if (__DEV__
      && negb (bit_and (shapeFlag v2) ShapeFlags.COMPONENT =? 0)
      && set_has (type v2) (hmrDirtyComponents s))%bool
  then
    modify n1 (fun v => set_shapeFlag
      (bit_and (shapeFlag v) (bit_not ShapeFlags.COMPONENT_SHOULD_KEEP_ALIVE)) v);;
    modify n2 (fun v => set_shapeFlag
      (bit_and (shapeFlag v) (bit_not ShapeFlags.COMPONENT_KEPT_ALIVE)) v);;
    ret false
  else
    let* v1 := read n1 in
    ret (strict_eq (type v1) (type v2) && strict_eq (key v1) (key v2))%bool.

Definition transformVNodeArgs (transformer : option Value) (s : State) : State :=
  with_transformer s transformer.

Definition normalizeKey (props : Value) : Value :=
  let key := get props "key" in
  if negb (is_nullish key) then key else VNull.

Definition normalizeRef (props : Value) : M Value :=
  let ref := get props "ref" in
  let ref_key := get props "ref_key" in
  let ref_for := get props "ref_for" in
  let ref := if isNumber ref then VStr ("" +:+ to_String ref) else ref in
  if negb (is_nullish ref) then
    if (isString ref || isRef ref || isFunction ref)%bool then
      let* s := get_state in
      let* id := fresh_id in
      ret (VObj id [("i", currentRenderingInstance s); ("r", ref);
                    ("k", ref_key); ("f", VBool (truthy ref_for))])
    else ret ref
  else ret VNull.

(** A parameter left [undefined] takes its default [null]. *)
Definition default_null (v : Value) : Value :=
  match v with VUndef => VNull | _ => v end.

(** The [// validate key] step of [createBaseVNode]. *)
Definition validate_key (vnode : loc) : M unit :=
  let* v := read vnode in
  when (__DEV__ && negb (strict_eq (key v) (key v)))%bool
       (warn (InvalidKeyNaN (VNode.type v))).

(** The [// track vnode for block tree] step of [createBaseVNode];
    [shapeFlag] is the function's parameter. *)
Definition track_vnode (shapeFlag : Z) (isBlockNode : bool) (vnode : loc)
    : M unit :=
  let* s := get_state in
  let* v := read vnode in
  match currentBlock s with
  | Some a =>
      when ((0 <? isBlockTreeEnabled s)
            && negb isBlockNode
            && ((0 <? VNode.patchFlag v)
                || negb (bit_and shapeFlag ShapeFlags.COMPONENT =? 0))
            && negb (VNode.patchFlag v =? HYDRATE_EVENTS))%bool
           (block_push a vnode)
  | None => ret tt
  end.

(** [createBaseVNode], over the [normalizeChildren] it calls.  [shapeFlag] is
    [None] when the caller leaves the parameter out. *)
Definition createBaseVNode_with (normalizeChildren : loc -> Value -> M unit)
    (type props children : Value) (patchFlag : Z) (dynamicProps : Value)
    (shapeFlag : option Z) (isBlockNode needFullChildrenNormalization : bool)
    : M loc :=
  let props := default_null props in
  let children := default_null children in
  let dynamicProps := default_null dynamicProps in
  let shapeFlag := match shapeFlag with
                   | Some f => f
                   | None => if strict_eq type Fragment then 0
                             else ShapeFlags.ELEMENT
                   end in
  let* ref := (if truthy props then normalizeRef props else ret props) in
  let* s := get_state in
  let* vnode := new_vnode
    {| type := type;
       props := props;
       key := js_and props (normalizeKey props);
       ref := ref;
       scopeId := currentScopeId s;
       slotScopeIds := VNull;
       children := children;
       component := VNull;
       suspense := VNull;
       ssContent := None;
       ssFallback := None;
       dirs := VNull;
       transition := VNull;
       el := VNull;
       anchor := VNull;
       target := VNull;
       targetAnchor := VNull;
       staticCount := 0;
       shapeFlag := shapeFlag;
       patchFlag := patchFlag;
       dynamicProps := dynamicProps;
       dynamicChildren := DCNull;
       appContext := VNull;
       ctx := currentRenderingInstance s;
       memo := VUndef;
       ce := VUndef;
       _ctx := VUndef |} in
  (if needFullChildrenNormalization then
     normalizeChildren vnode children;;
     when (__FEATURE_SUSPENSE__
           && negb (bit_and shapeFlag ShapeFlags.SUSPENSE =? 0))%bool
          (suspense_normalize type vnode)
   else if truthy children then
     modify vnode (fun v => set_shapeFlag
       (bit_or (VNode.shapeFlag v)
               (if isString children then ShapeFlags.TEXT_CHILDREN
                else ShapeFlags.ARRAY_CHILDREN)) v)
   else ret tt);;
  validate_key vnode;;
  track_vnode shapeFlag isBlockNode vnode;;
  ret vnode.

(** ** [mergeProps] *)

(** [o[k]] on a property list. *)
Definition field (fs : Fields) (k : string) : Value :=
  match get_field k fs with
  | Some x => x
  | None => VUndef
  end.

(** What [[].concat(..., v)] appends for [v]: an array argument is spread. *)
Definition concat_items (v : Value) : list Value :=
  match v with
  | VArr _ items => items
  | _ => [v]
  end.

(** [isArray(existing) && existing.includes(incoming)] *)
Definition array_includes (existing incoming : Value) : bool :=
  match existing with
  | VArr _ items => existsb (fun x => same_value_zero x incoming) items
  | _ => false
  end.

(** The body of [for (const key in toMerge)]. *)
Definition merge_key (toMerge : Value) (ret : Fields) (key : string)
    : Alloc Fields := fun next =>
  if String.eqb key "class" then
    if negb (strict_eq (field ret "class") (get toMerge "class")) then
      (set_field "class"
         (VStr (normalizeClass
                  (VArr next [field ret "class"; get toMerge "class"])))
         ret,
       S next)
    else (ret, next)
  else if String.eqb key "style" then
    let '(style, next') :=
      normalizeStyle (VArr next [field ret "style"; get toMerge "style"])
                     (S next) in
    (set_field "style" style ret, next')
  else if isOn key then
    let existing := field ret key in
    let incoming := get toMerge key in
    if (truthy incoming
        && negb (strict_eq existing incoming)
        && negb (array_includes existing incoming))%bool
    then
      if truthy existing then
        (set_field key
           (VArr (S next) (concat_items existing ++ concat_items incoming)) ret,
         S (S next))
      else (set_field key incoming ret, next)
    else (ret, next)
  else if negb (String.eqb key "") then
    (set_field key (get toMerge key) ret, next)
  else (ret, next).

Definition merge_one (acc : Fields * nat) (toMerge : Value) : Fields * nat :=
  fold_left (fun (acc : Fields * nat) (kv : string * Value) =>
               merge_key toMerge (fst acc) (fst kv) (snd acc))
            (fields_of toMerge) acc.

Definition mergeProps (args : list Value) : Alloc Value := fun next =>
  let '(ret, next') := fold_left merge_one args ([], S next) in
  (VObj next ret, next').

(** ** [cloneVNode] *)

(** [items.map(f)] on an array of vnodes. *)
Fixpoint map_vnodes (f : loc -> M loc) (items : list Value) : M (list Value) :=
  match items with
  | [] => ret []
  | VVNode l :: items' =>
      let* l' := f l in
      let* r := map_vnodes f items' in
      ret (VVNode l' :: r)
  | _ :: _ => fail
  end.

(** [fuel] bounds the depth of the vnodes cloned below the given one. *)
Fixpoint cloneVNode (fuel : nat) (vnode : loc) (extraProps : Value)
    (mergeRef : bool) {struct fuel} : M loc :=
  let* v := read vnode in
  let props := VNode.props v in
  let ref := VNode.ref v in
  let patchFlag := VNode.patchFlag v in
  let children := VNode.children v in
  let* mergedProps :=
    (if truthy extraProps then
       let* base := (if truthy props then ret props
                     else let* id := fresh_id in ret (VObj id [])) in
       alloc (mergeProps [base; extraProps])
     else ret props) in
  let* ref' :=
    (if truthy (js_and extraProps (get extraProps "ref")) then
       if (mergeRef && truthy ref)%bool then
         let* r := normalizeRef extraProps in
         let* id := fresh_id in
         match ref with
         | VArr _ items => ret (VArr id (items ++ concat_items r))
         | _ => ret (VArr id [ref; r])
         end
       else normalizeRef extraProps
     else ret ref) in
  let* children' :=
    (match children with
     | VArr _ items =>
         if (__DEV__ && (patchFlag =? HOISTED))%bool then
           match fuel with
           | O => fail
           | S fuel' =>
               let* r := map_vnodes (deepCloneVNode fuel') items in
               let* id := fresh_id in
               ret (VArr id r)
           end
         else ret children
     | _ => ret children
     end) in
  let* ssContent' :=
    (match ssContent v with
     | Some c =>
         match fuel with
         | O => fail
         | S fuel' => let* c' := cloneVNode fuel' c VUndef false in ret (Some c')
         end
     | None => ret None
     end) in
  let* ssFallback' :=
    (match ssFallback v with
     | Some c =>
         match fuel with
         | O => fail
         | S fuel' => let* c' := cloneVNode fuel' c VUndef false in ret (Some c')
         end
     | None => ret None
     end) in
  new_vnode
    {| type := VNode.type v;
       props := mergedProps;
       key := js_and mergedProps (normalizeKey mergedProps);
       ref := ref';
       scopeId := scopeId v;
       slotScopeIds := slotScopeIds v;
       children := children';
       target := target v;
       targetAnchor := targetAnchor v;
       staticCount := staticCount v;
       shapeFlag := shapeFlag v;
       patchFlag :=
         if (truthy extraProps && negb (strict_eq (VNode.type v) Fragment))%bool
         then if patchFlag =? -1 then FULL_PROPS
              else bit_or patchFlag FULL_PROPS
         else patchFlag;
       dynamicProps := dynamicProps v;
       dynamicChildren := dynamicChildren v;
       appContext := appContext v;
       dirs := dirs v;
       transition := transition v;
       component := component v;
       suspense := suspense v;
       ssContent := ssContent';
       ssFallback := ssFallback';
       el := el v;
       anchor := anchor v;
       ctx := ctx v;
       ce := ce v;
       memo := VUndef;
       _ctx := VUndef |}
with deepCloneVNode (fuel : nat) (vnode : loc) {struct fuel} : M loc :=
  match fuel with
  | O => fail
  | S fuel' =>
      let* cloned := cloneVNode fuel' vnode VUndef false in
      let* v := read vnode in
      match children v with
      | VArr _ items =>
          let* r := map_vnodes (deepCloneVNode fuel') items in
          let* id := fresh_id in
          modify cloned (set_children (VArr id r))
      | _ => ret tt
      end;;
      ret cloned
  end.

(** ** [_createVNode], over the [normalizeChildren] it calls *)

(** [extend({}, o)] *)
Definition extend_empty (o : Value) : M Value :=
  let* id := fresh_id in ret (VObj id (fields_of o)).

Definition guardReactiveProps (props : Value) : M Value :=
  if negb (truthy props) then ret VNull
  else if (isProxy props || has InternalObjectKey props)%bool
       then extend_empty props
       else ret props.

(** How [_createVNode] registers the clone of a vnode given as [type]. *)
Definition track_clone (isBlockNode : bool) (original cloned : loc) : M unit :=
  let* s := get_state in
  match currentBlock s with
  | Some a =>
      if ((0 <? isBlockTreeEnabled s) && negb isBlockNode)%bool then
        let* c := read cloned in
        if negb (bit_and (shapeFlag c) ShapeFlags.COMPONENT =? 0)
        then block_replace a original cloned
        else block_push a cloned
      else ret tt
  | None => ret tt
  end.

Definition _createVNode_with (fuel : nat)
    (normalizeChildren : loc -> Value -> M unit) (args : CreateArgs) : M loc :=
  let type := a_type args in
  let props := default_null (a_props args) in
  let children := default_null (a_children args) in
  let patchFlag := a_patchFlag args in
  let dynamicProps := default_null (a_dynamicProps args) in
  let isBlockNode := a_isBlockNode args in
  let* type :=
    (if (negb (truthy type) || strict_eq type NULL_DYNAMIC_COMPONENT)%bool then
       when (__DEV__ && negb (truthy type))%bool (warn (InvalidVNodeType type));;
       ret Comment
     else ret type) in
  match type with
  | VVNode original =>
      let* cloned := cloneVNode fuel original props true in
      when (truthy children) (normalizeChildren cloned children);;
      track_clone isBlockNode original cloned;;
      modify cloned (fun v => set_patchFlag (bit_or (VNode.patchFlag v) BAIL) v);;
      ret cloned
  | _ =>
      let type := if isClassComponent type then get type "__vccOpts" else type in
      let* props :=
        (if truthy props then
           let* props := guardReactiveProps props in
           let klass := get props "class" in
           let style := get props "style" in
           let props :=
             if (truthy klass && negb (isString klass))%bool
             then set props "class" (VStr (normalizeClass klass))
             else props in
           if isObject style then
             let* style := (if (isProxy style && negb (isArray style))%bool
                            then extend_empty style else ret style) in
             let* normalized := alloc (normalizeStyle style) in
             ret (set props "style" normalized)
           else ret props
         else ret props) in
      let shapeFlag :=
        if isString type then ShapeFlags.ELEMENT
        else if (__FEATURE_SUSPENSE__ && isSuspense type)%bool
             then ShapeFlags.SUSPENSE
        else if isTeleport type then ShapeFlags.TELEPORT
        else if isObject type then ShapeFlags.STATEFUL_COMPONENT
        else if isFunction type then ShapeFlags.FUNCTIONAL_COMPONENT
        else 0 in
      let* type :=
        (if (__DEV__
             && negb (bit_and shapeFlag ShapeFlags.STATEFUL_COMPONENT =? 0)
             && isProxy type)%bool
         then warn (ReactiveComponent (toRaw type));; ret (toRaw type)
         else ret type) in
      createBaseVNode_with normalizeChildren type props children patchFlag
        dynamicProps (Some shapeFlag) isBlockNode true
  end.

(** [createVNode]: in a development build the registered transformer, if any,
    rewrites the arguments. *)
Definition createVNode_with (fuel : nat)
    (normalizeChildren : loc -> Value -> M unit) (args : CreateArgs) : M loc :=
  if __DEV__ then
    let* s := get_state in
    match vnodeArgsTransformer s with
    | Some transformer =>
        let* args' := call_transformer transformer args
                        (currentRenderingInstance s) in
        _createVNode_with fuel normalizeChildren args'
    | None => _createVNode_with fuel normalizeChildren args
    end
  else _createVNode_with fuel normalizeChildren args.

(** ** [normalizeChildren] *)

(** [slot._c && (slot._d = b)] *)
Definition mark_slot (slot : Value) (b : bool) : M unit :=
  when (truthy (get slot "_c"))
    (match slot with
     | VFun id _ => fun s => Some (tt, with_slot_d s ((id, b) :: slot_d s))
     | _ => ret tt
     end).

(** [fuel] bounds the nesting of slot results that are slot objects again. *)
Fixpoint normalizeChildren (fuel : nat) (vnode : loc) (children : Value)
    {struct fuel} : M unit :=
  let* v := read vnode in
  let shapeFlag := VNode.shapeFlag v in
  let finish (children : Value) (type : Z) : M unit :=
    modify vnode (set_children children);;
    modify vnode (fun v => set_shapeFlag (bit_or (VNode.shapeFlag v) type) v) in
  if is_nullish children then finish VNull 0
  else if isArray children then finish children ShapeFlags.ARRAY_CHILDREN
  else
    match children with
    | VObj _ _ | VVNode _ =>
        if negb (bit_and shapeFlag
                   (Z.lor ShapeFlags.ELEMENT ShapeFlags.TELEPORT) =? 0)
        then
          let slot := get children "default" in
          if truthy slot then
            mark_slot slot false;;
            let* r := call_slot slot in
            match fuel with
            | O => fail
            | S fuel' => normalizeChildren fuel' vnode r
            end;;
            mark_slot slot true
          else ret tt
        else
          let slotFlag := get children "_" in
          let* s := get_state in
          let instance := currentRenderingInstance s in
          let* children :=
            (if (negb (truthy slotFlag)
                 && negb (has InternalObjectKey children))%bool then
               match children with
               | VVNode c => modify c (set__ctx instance);; ret children
               | _ => ret (set children "_ctx" instance)
               end
             else if (strict_eq slotFlag (VNum FORWARDED)
                      && truthy instance)%bool then
               if strict_eq (get (get instance "slots") "_") (VNum STABLE)
               then ret (set children "_" (VNum STABLE))
               else
                 modify vnode (fun v =>
                   set_patchFlag (bit_or (VNode.patchFlag v) DYNAMIC_SLOTS) v);;
                 ret (set children "_" (VNum DYNAMIC))
             else ret children) in
          finish children ShapeFlags.SLOTS_CHILDREN
    | VFun _ _ =>
        let* s := get_state in
        let* id := fresh_id in
        finish (VObj id [("default", children);
                         ("_ctx", currentRenderingInstance s)])
               ShapeFlags.SLOTS_CHILDREN
    | _ =>
        let text := to_String children in
        if negb (bit_and shapeFlag ShapeFlags.TELEPORT =? 0) then
          match fuel with
          | O => fail
          | S fuel' =>
              let* t := createVNode_with fuel' (normalizeChildren fuel')
                          (mkArgs Text VNull (VStr text) 0 VNull false) in
              let* id := fresh_id in
              finish (VArr id [VVNode t]) ShapeFlags.ARRAY_CHILDREN
          end
        else finish (VStr text) ShapeFlags.TEXT_CHILDREN
    end.

(** ** The exported constructors *)

Definition createBaseVNode (fuel : nat) :=
  createBaseVNode_with (normalizeChildren fuel).

Definition _createVNode (fuel : nat) : CreateArgs -> M loc :=
  _createVNode_with fuel (normalizeChildren fuel).

Definition createVNode (fuel : nat) : CreateArgs -> M loc :=
  createVNode_with fuel (normalizeChildren fuel).

Definition createElementBlock (fuel : nat) (type props children : Value)
    (patchFlag : Z) (dynamicProps : Value) (shapeFlag : option Z) : M loc :=
  let* vnode := createBaseVNode fuel type props children patchFlag
                  dynamicProps shapeFlag true false in
  setupBlock vnode.

Definition createBlock (fuel : nat) (type props children : Value)
    (patchFlag : Z) (dynamicProps : Value) : M loc :=
  let* vnode := createVNode fuel
                  (mkArgs type props children patchFlag dynamicProps true) in
  setupBlock vnode.

Definition createTextVNode (fuel : nat) (text : string) (flag : Z) : M loc :=
  createVNode fuel (mkArgs Text VNull (VStr text) flag VNull false).

Definition createStaticVNode (fuel : nat) (content : string)
    (numberOfNodes : Z) : M loc :=
  let* vnode := createVNode fuel
                  (mkArgs Static VNull (VStr content) 0 VNull false) in
  modify vnode (set_staticCount numberOfNodes);;
  ret vnode.

Definition createCommentVNode (fuel : nat) (text : string) (asBlock : bool)
    : M loc :=
  if asBlock then
    (fun s => Some (tt, openBlock false s));;
    createBlock fuel Comment VNull (VStr text) 0 VNull
  else createVNode fuel (mkArgs Comment VNull (VStr text) 0 VNull false).

Definition cloneIfMounted (fuel : nat) (child : loc) : M loc :=
  let* v := read child in
  if (strict_eq (el v) VNull && negb (patchFlag v =? HOISTED)
      || truthy (memo v))%bool
  then ret child
  else cloneVNode fuel child VUndef false.

Definition normalizeVNode (fuel : nat) (child : Value) : M loc :=
  if (is_nullish child || isBoolean child)%bool then
    createVNode fuel (mkArgs Comment VNull VNull 0 VNull false)
  else
    match child with
    | VArr _ items =>
        let* id := fresh_id in
        createVNode fuel (mkArgs Fragment VNull (VArr id items) 0 VNull false)
    | VVNode l => cloneIfMounted fuel l
    | VObj _ _ | VFun _ _ => fail
    | _ =>
        createVNode fuel (mkArgs Text VNull (VStr (to_String child)) 0 VNull false)
    end.

End Code.

End VNode.

(* ===================================================================== *)
(** * Mounting an application ([packages/runtime-core/src/apiCreateApp.ts]) *)
(* ===================================================================== *)

Module App.
Import Js VNode.

(** The notifications sent to the devtools hook. *)
Inductive DevtoolsEvent : Type :=
| InitApp (app : nat)
| UnmountApp (app : nat).

(** What one [createApp] call closes over ([rootComponent], [rootProps],
    [context], [isMounted]) and the two properties of the [app] object that
    [mount] and [unmount] write.  A host container is named by its address. *)
Record Application : Type := mkApplication {
  rootComponent : Value;
  rootProps : Value;
  context : Value;
  isMounted : bool;
  _container : option nat;
  _instance : Value
}.

(** The applications created so far (an application is named by its position),
    the [__vue_app__] property of every host container ([None]: absent), the
    devtools notifications, and the state of the vnode module. *)
Record World : Type := mkWorld {
  vnodes : VNode.State;
  apps : list Application;
  containers : list (option nat);
  devtools : list DevtoolsEvent
}.

Definition W (A : Type) : Type := World -> option (A * World).

Definition wret {A : Type} (a : A) : W A := fun w => Some (a, w).

Definition wbind {A B : Type} (m : W A) (k : A -> W B) : W B :=
  fun w => match m w with
           | Some (a, w') => k a w'
           | None => None
           end.

Local Notation "'let*' x ':=' m 'in' k" := (wbind m (fun x => k))
  (at level 10, x binder, m at level 100, k at level 200,
   format "'[v' 'let*'  x  ':='  m  'in' '/' k ']'").
Local Notation "m ';;' k" := (wbind m (fun _ => k))
  (at level 100, k at level 200, right associativity).

Definition wwhen (b : bool) (m : W unit) : W unit := if b then m else wret tt.

Definition get_world : W World := fun w => Some (w, w).

(** A computation of the vnode module, run inside the world. *)
Definition lift {A : Type} (m : VNode.M A) : W A :=
  fun w => match m (vnodes w) with
           | Some (a, s) =>
               Some (a, mkWorld s (apps w) (containers w) (devtools w))
           | None => None
           end.

Definition read_app (app : nat) : W Application :=
  fun w => match apps w !! app with
           | Some a => Some (a, w)
           | None => None
           end.

Definition modify_app (app : nat) (f : Application -> Application) : W unit :=
  fun w => match apps w !! app with
           | Some a =>
               Some (tt, mkWorld (vnodes w) (<[app := f a]> (apps w))
                           (containers w) (devtools w))
           | None => None
           end.

(** [container.__vue_app__] *)
Definition read_container (c : nat) : W (option nat) :=
  fun w => match containers w !! c with
           | Some x => Some (x, w)
           | None => None
           end.

(** [container.__vue_app__ = app] and [delete container.__vue_app__] *)
Definition write_container (c : nat) (x : option nat) : W unit :=
  fun w => match containers w !! c with
           | Some _ =>
               Some (tt, mkWorld (vnodes w) (apps w) (<[c := x]> (containers w))
                           (devtools w))
           | None => None
           end.

(** Is [container.__vue_app__] set? *)
Definition has_app (occupant : option nat) : bool :=
  match occupant with Some _ => true | None => false end.

Definition notify (e : DevtoolsEvent) : W unit :=
  fun w => Some (tt, mkWorld (vnodes w) (apps w) (containers w)
                       (devtools w ++ [e])).

Definition set_isMounted (b : bool) (a : Application) : Application :=
  mkApplication (rootComponent a) (rootProps a) (context a) b
    (_container a) (_instance a).

Definition set__container (c : option nat) (a : Application) : Application :=
  mkApplication (rootComponent a) (rootProps a) (context a) (isMounted a)
    c (_instance a).

Definition set__instance (i : Value) (a : Application) : Application :=
  mkApplication (rootComponent a) (rootProps a) (context a) (isMounted a)
    (_container a) i.

Definition set_context (c : Value) (a : Application) : Application :=
  mkApplication (rootComponent a) (rootProps a) c (isMounted a)
    (_container a) (_instance a).

(** The renderer given to [createAppAPI] ([hydrate] is optional), the build
    flag of the devtools, and [getExposeProxy] of [./component]. *)
Class Host : Type := {
  __FEATURE_PROD_DEVTOOLS__ : bool;
  render : option loc -> nat -> Value -> World -> option (unit * World);
  hydrate : option (loc -> nat -> World -> option (unit * World));
  getExposeProxy : Value -> Value
}.

Section Code.
Context {PF : PatchFlags} {SF : SlotFlags} {E : Externals} {H : Host}.

(** The application [createApp] returns, as far as [mount] and [unmount] read
    it: not mounted, no container, no instance. *)
Definition new_app (rootComponent rootProps context : Value) : W nat :=
  fun w =>
    Some (length (apps w),
          mkWorld (vnodes w)
            (apps w ++ [mkApplication rootComponent rootProps context
                          false None VNull])
            (containers w) (devtools w)).

(** [app.mount(rootContainer, isHydrate, isSVG)].  [fuel] is the bound handed
    to [createVNode]. *)
Definition mount (fuel : nat) (app : nat) (rootContainer : nat)
    (isHydrate isSVG : Value) : W Value :=
  let* a := read_app app in
  if negb (isMounted a) then
    let* occupant := read_container rootContainer in
    wwhen (__DEV__ && has_app occupant)%bool
          (lift (warn ContainerAlreadyHasApp));;
    let* vnode := lift (createVNode fuel
                          (mkArgs (rootComponent a) (rootProps a)
                                  VUndef 0 VUndef false)) in
    lift (modify vnode (set_appContext (context a)));;
    wwhen __DEV__
      (let* id := lift fresh_id in
       modify_app app (fun a => set_context (set (context a) "reload" (VFun id [])) a));;
    match hydrate with
    | Some hydrate' =>
        if truthy isHydrate then hydrate' vnode rootContainer
        else render (Some vnode) rootContainer isSVG
    | None => render (Some vnode) rootContainer isSVG
    end;;
    modify_app app (set_isMounted true);;
    modify_app app (set__container (Some rootContainer));;
    write_container rootContainer (Some app);;
    let* v := lift (read vnode) in
    wwhen (__DEV__ || __FEATURE_PROD_DEVTOOLS__)%bool
      (modify_app app (set__instance (component v));;
       notify (InitApp app));;
    let* v := lift (read vnode) in
    if is_nullish (component v) then (fun _ => None)
    else wret (js_or (getExposeProxy (component v)) (get (component v) "proxy"))
  else
    wwhen __DEV__ (lift (warn AppAlreadyMounted));;
    wret VUndef.

(** [app.unmount()] *)
Definition unmount (app : nat) : W unit :=
  let* a := read_app app in
  if isMounted a then
    match _container a with
    | Some c => render None c VUndef
    | None => fun _ => None
    end;;
    wwhen (__DEV__ || __FEATURE_PROD_DEVTOOLS__)%bool
      (modify_app app (set__instance VNull);;
       notify (UnmountApp app));;
    let* a := read_app app in
    match _container a with
    | Some c => write_container c None
    | None => fun _ => None
    end
  else
    wwhen __DEV__ (lift (warn CannotUnmountUnmounted)).

End Code.

End App.

(* ===================================================================== *)
(** * The values of the imported constants in the released package *)
(* ===================================================================== *)

(** An instance of the imported parts, used to run the code on concrete
    inputs: the flag values of [@vue/shared], [isOn] as the test of
    [/^on[^a-z]/], the component predicates as property look-ups, an
    unreactive world, slots that return nothing and a renderer that mounts an
    instance on the vnode it is given. *)
Module Upstream.
Import Js VNode App.

Definition patch_flags : PatchFlags :=
  {| TEXT := 1; CLASS := Z.shiftl 1 1; FULL_PROPS := Z.shiftl 1 4;
     HYDRATE_EVENTS := Z.shiftl 1 5; DYNAMIC_SLOTS := Z.shiftl 1 10;
     HOISTED := -1; BAIL := -2 |}.

Definition slot_flags : SlotFlags :=
  {| STABLE := 1; DYNAMIC := 2; FORWARDED := 3 |}.

Definition isOn (key : string) : bool :=
  match key with
  | String "o" (String "n" (String c _)) =>
      let n := N_of_ascii c in negb ((97 <=? n) && (n <=? 122))%N
  | _ => false
  end.

Definition externals (dev : bool) : Externals :=
  {| __DEV__ := dev;
     __FEATURE_SUSPENSE__ := true;
     NULL_DYNAMIC_COMPONENT := VSym "v-ndc";
     isProxy := fun _ => false;
     toRaw := fun v => v;
     isRef := fun _ => false;
     VNode.isOn := isOn;
     isClassComponent := fun v => (isFunction v && has "__vccOpts" v)%bool;
     isSuspense := fun v => truthy (get v "__isSuspense");
     isTeleport := fun v => truthy (get v "__isTeleport");
     call_slot := fun _ s => Some (VUndef, s);
     suspense_normalize := fun _ _ s => Some (tt, s);
     call_transformer := fun _ args _ s => Some (args, s) |}.

Definition set_component (c : Value) (v : VNode) : VNode :=
  mkVNode (type v) (props v) (key v) (ref v) (scopeId v) (slotScopeIds v)
    (children v) c (suspense v) (ssContent v) (ssFallback v)
    (dirs v) (transition v) (el v) (anchor v) (target v) (targetAnchor v)
    (staticCount v) (shapeFlag v) (patchFlag v) (dynamicProps v)
    (dynamicChildren v) (appContext v) (ctx v) (memo v) (ce v) (_ctx v).

(** A renderer that gives the vnode an instance and touches nothing else. *)
Definition host : Host :=
  {| __FEATURE_PROD_DEVTOOLS__ := false;
     render := fun vnode _ _ w =>
       match vnode with
       | Some l =>
           lift (modify l (set_component
                             (VObj 0 [("proxy", VObj 1 [])]))) w
       | None => Some (tt, w)
       end;
     hydrate := None;
     getExposeProxy := fun _ => VUndef |}.

(** An unmounted [div] element vnode without properties or children. *)
Definition plain_div : VNode :=
  mkVNode (VStr "div") VNull VNull VNull VNull VNull VNull VNull VNull None
    None VNull VNull VNull VNull VNull VNull 0 ShapeFlags.ELEMENT 0 VNull
    DCNull VNull VNull VUndef VUndef VUndef.

(** A [div] element vnode with the properties [p], the key [k], the patch
    flag [pf], the host element [e] and the [memo] array [m]. *)
Definition div_with (p k : Value) (pf : Z) (e m : Value) : VNode :=
  mkVNode (VStr "div") p k VNull VNull VNull VNull VNull VNull None
    None VNull VNull e VNull VNull VNull 0 ShapeFlags.ELEMENT pf VNull
    DCNull VNull VNull m VUndef VUndef.

(** The unmounted vnode of a stateful component [c]. *)
Definition component_vnode (c : Value) : VNode :=
  mkVNode c VNull VNull VNull VNull VNull VNull VNull VNull None
    None VNull VNull VNull VNull VNull VNull 0 ShapeFlags.STATEFUL_COMPONENT 0
    VNull DCNull VNull VNull VUndef VUndef VUndef.

(** Two applications and one container: the first application is mounted
    in the container, the second is not mounted. *)
Definition two_apps : World :=
  mkWorld initial
    [mkApplication (VObj 20 []) VNull (VObj 21 []) true (Some 0%nat)
       (VObj 24 []);
     mkApplication (VObj 22 []) VNull (VObj 23 []) false None VNull]
    [Some 0%nat] [].

Definition development : Externals := externals true.
Definition production : Externals := externals false.

End Upstream.

(* ===================================================================== *)
(** * Stating properties of the code *)
(* ===================================================================== *)

Module Spec.
Import Js VNode.

(** [runs m s Q]: from [s] the computation [m] gives a result, and the result
    and final state satisfy [Q]. *)
Definition runs {A : Type} (m : M A) (s : State) (Q : A -> State -> Prop) : Prop :=
  match m s with
  | Some (a, s') => Q a s'
  | None => False
  end.

(** [ensures m s Q]: whenever [m] gives a result from [s], the result and the
    final state satisfy [Q]. *)
Definition ensures {A : Type} (m : M A) (s : State) (Q : A -> State -> Prop) : Prop :=
  match m s with
  | Some (a, s') => Q a s'
  | None => True
  end.

(** The module variables of block tracking agree in two states. *)
Definition same_tracking (s s' : State) : Prop :=
  blockStack s' = blockStack s /\
  currentBlock s' = currentBlock s /\
  isBlockTreeEnabled s' = isBlockTreeEnabled s.

(** What the code neither reads from its caller nor writes when it builds
    vnodes: the render context, the transformer, the HMR set. *)
Definition same_context (s s' : State) : Prop :=
  vnodeArgsTransformer s' = vnodeArgsTransformer s /\
  currentRenderingInstance s' = currentRenderingInstance s /\
  currentScopeId s' = currentScopeId s /\
  hmrDirtyComponents s' = hmrDirtyComponents s.

(** [currentBlock] is the list on top of [blockStack], or [null]. *)
Definition current_is_top (s : State) : Prop :=
  currentBlock s = stack_top (blockStack s).

(** [o] is [null] or names one of the lists [bs]. *)
Definition exists_in (bs : list Block) (o : option nat) : bool :=
  match o with
  | Some a => Nat.ltb a (length bs)
  | None => true
  end.

(** Every list named by [blockStack] or [currentBlock] exists. *)
Definition lists_exist (s : State) : Prop :=
  forallb (exists_in (blocks s)) (blockStack s) = true /\
  exists_in (blocks s) (currentBlock s) = true.

(** The block lists after [v] is appended to the one at [a]. *)
Definition push_elem (a : nat) (v : loc) (bs : list Block) : list Block :=
  match bs !! a with
  | Some b => <[a := mkBlock (elems b ++ [v]) (minus_one b)]> bs
  | None => bs
  end.

(** From [s] to [s'] vnodes were created and identities drawn, and nothing
    else happened: the vnodes of [s] are as they were, and so are the block
    lists, the tracking variables, the context and the diagnostics. *)
Definition only_allocates (s s' : State) : Prop :=
  (exists new, heap s' = heap s ++ new) /\
  blocks s' = blocks s /\
  same_tracking s s' /\
  same_context s s' /\
  slot_d s' = slot_d s /\
  warnings s' = warnings s.

(** ** Vocabulary for [mergeProps] *)

(** No key is listed twice, as in every object. *)
Fixpoint unique_keys (fs : Fields) : bool :=
  match fs with
  | [] => true
  | (k, _) :: fs' =>
      (negb (existsb (fun kv => String.eqb k (fst kv)) fs') && unique_keys fs')%bool
  end.

(** The values of [vs] without repetition of an identity, by first
    occurrence. *)
Definition first_occurrences (vs : list Value) : list Value :=
  fold_left (fun acc v => if existsb (fun x => strict_eq x v) acc then acc
                          else acc ++ [v]) vs [].

(** The values the objects [args] give the property [k], in order. *)
Definition values_at (k : string) (args : list Value) : list Value :=
  flat_map (fun arg => if has k arg then [get arg k] else []) args.

(** The handlers a merged property holds: none when absent, the elements of
    an array, the value itself otherwise. *)
Definition handler_list (v : Value) : list Value :=
  match v with
  | VUndef => []
  | VArr _ items => items
  | _ => [v]
  end.

(** A non-empty class name without white space at either end. *)
Definition starts_clean (s : string) : bool :=
  match s with
  | String c _ => negb (is_ws c)
  | EmptyString => false
  end.

Definition clean_name (s : string) : bool :=
  (starts_clean s && starts_clean (String.rev s))%bool.

(** The fields [cloneVNode] copies from [v] to the clone [v'] whatever its
    other arguments are. *)
Definition copied_fields (v v' : VNode) : Prop :=
  type v' = type v /\ scopeId v' = scopeId v /\
  slotScopeIds v' = slotScopeIds v /\ target v' = target v /\
  targetAnchor v' = targetAnchor v /\ staticCount v' = staticCount v /\
  shapeFlag v' = shapeFlag v /\ dynamicProps v' = dynamicProps v /\
  dynamicChildren v' = dynamicChildren v /\ appContext v' = appContext v /\
  dirs v' = dirs v /\ transition v' = transition v /\
  component v' = component v /\ suspense v' = suspense v /\
  el v' = el v /\ anchor v' = anchor v /\ ctx v' = ctx v /\ ce v' = ce v.

Section Flags.
Context {PF : PatchFlags} {E : Externals}.

(** A key [mergeProps] overwrites: not [class], [style], a handler name or
    the empty string. *)
Definition ordinary_key (k : string) : bool :=
  (negb (String.eqb k "class") && negb (String.eqb k "style")
   && negb (isOn k) && negb (String.eqb k ""))%bool.

(** A key [mergeProps] accumulates handlers under. *)
Definition handler_key (k : string) : bool :=
  (negb (String.eqb k "class") && negb (String.eqb k "style") && isOn k)%bool.

(** [cloneVNode] clones nothing below [v]: no suspense branch, and no
    array of children that the development build clones for a hoisted
    vnode. *)
Definition clones_alone (v : VNode) : Prop :=
  ssContent v = None /\ ssFallback v = None /\
  (__DEV__ && (patchFlag v =? HOISTED) && isArray (children v))%bool = false.

(** The registration test in the specification's words: the node is not a
    block node, it carries a positive patch flag or a component shape flag,
    and its patch flag is not the hydration-events flag alone. *)
Definition is_dynamic (isBlockNode : bool) (v : VNode) : bool :=
  (negb isBlockNode
   && ((0 <? patchFlag v)
       || negb (Z.land (shapeFlag v) ShapeFlags.COMPONENT =? 0))
   && negb (patchFlag v =? HYDRATE_EVENTS))%bool.

(** The type [_createVNode] builds the vnode with: [Comment] for a missing
    type, the options object of a class component. *)
Definition resolve_type (type : Value) : Value :=
  let type := if (negb (truthy type)
                  || strict_eq type NULL_DYNAMIC_COMPONENT)%bool
              then Comment else type in
  if isClassComponent type then get type "__vccOpts" else type.

(** The shape flag [_createVNode] encodes for a type. *)
Definition shape_of (type : Value) : Z :=
  if isString type then ShapeFlags.ELEMENT
  else if (__FEATURE_SUSPENSE__ && isSuspense type)%bool
       then ShapeFlags.SUSPENSE
  else if isTeleport type then ShapeFlags.TELEPORT
  else if isObject type then ShapeFlags.STATEFUL_COMPONENT
  else if isFunction type then ShapeFlags.FUNCTIONAL_COMPONENT
  else 0.

(** Children that [normalizeChildren] settles by itself for a vnode of the
    given shape flag: it has no slot function to call, no text vnode to
    create for a teleport and no other vnode to write to. *)
Definition plain_children (shapeFlag : Z) (children : Value) : bool :=
  match children with
  | VUndef | VNull | VArr _ _ | VFun _ _ => true
  | VObj _ _ =>
      (bit_and shapeFlag (Z.lor ShapeFlags.ELEMENT ShapeFlags.TELEPORT) =? 0)
      || negb (truthy (get children "default"))
  | VVNode _ =>
      negb (bit_and shapeFlag (Z.lor ShapeFlags.ELEMENT ShapeFlags.TELEPORT) =? 0)
  | _ => bit_and shapeFlag ShapeFlags.TELEPORT =? 0
  end.

(** The full children normalisation of [createBaseVNode] runs no foreign
    code: the children are plain and [SuspenseImpl.normalize] is not
    called. *)
Definition settles_children (shapeFlag : Z) (children : Value) : bool :=
  (plain_children shapeFlag children
   && negb (__FEATURE_SUSPENSE__
            && negb (bit_and shapeFlag ShapeFlags.SUSPENSE =? 0)))%bool.

(** Arguments with which [_createVNode] builds a new vnode without running
    foreign code: the type is not a vnode to clone, and the children settle. *)
Definition plain_args (args : CreateArgs) : bool :=
  (negb (isVNode (a_type args))
   && settles_children (shape_of (resolve_type (a_type args)))
        (default_null (a_children args)))%bool.

End Flags.

(** ** Block-structured construction

    The shape of the code a compiled template runs: element vnodes
    ([createBaseVNode]), vnodes of any type ([createVNode]), changes of the
    tracking counter, and blocks, each an [openBlock] call, the construction
    of the block's content and the call that builds its root,
    [createElementBlock] or [createBlock]. *)
Inductive Step : Type :=
| Element (type props children : Value) (patchFlag : Z) (dynamicProps : Value)
          (shapeFlag : option Z)
| Tracking (value : Z)
| BlockOf (disableTracking : bool) (content : list Step)
          (type props children : Value) (patchFlag : Z) (dynamicProps : Value)
          (shapeFlag : option Z)
| Node (args : CreateArgs)
| NodeBlockOf (disableTracking : bool) (content : list Step)
              (type props children : Value) (patchFlag : Z)
              (dynamicProps : Value).

Section Steps.
Context {PF : PatchFlags} {SF : SlotFlags} {E : Externals}.

Fixpoint run_step (fuel : nat) (st : Step) : M unit :=
  match st with
  | Element type props children patchFlag dynamicProps shapeFlag =>
      bind (createBaseVNode fuel type props children patchFlag dynamicProps
              shapeFlag false false)
           (fun _ => ret tt)
  | Tracking value => fun s => Some (tt, setBlockTracking value s)
  | BlockOf disableTracking content type props children patchFlag dynamicProps
            shapeFlag =>
      bind (fun s => Some (tt, openBlock disableTracking s)) (fun _ =>
      bind ((fix run_all (l : list Step) : M unit :=
               match l with
               | [] => ret tt
               | x :: l' => bind (run_step fuel x) (fun _ => run_all l')
               end) content) (fun _ =>
      bind (createElementBlock fuel type props children patchFlag dynamicProps
              shapeFlag)
           (fun _ => ret tt)))
  | Node args => bind (createVNode fuel args) (fun _ => ret tt)
  | NodeBlockOf disableTracking content type props children patchFlag
                dynamicProps =>
      bind (fun s => Some (tt, openBlock disableTracking s)) (fun _ =>
      bind ((fix run_all (l : list Step) : M unit :=
               match l with
               | [] => ret tt
               | x :: l' => bind (run_step fuel x) (fun _ => run_all l')
               end) content) (fun _ =>
      bind (createBlock fuel type props children patchFlag dynamicProps)
           (fun _ => ret tt)))
  end.

(** The steps whose [createVNode] and [createBlock] calls have plain
    arguments. *)
Fixpoint plain_step (st : Step) : bool :=
  match st with
  | Element _ _ _ _ _ _ | Tracking _ => true
  | BlockOf _ content _ _ _ _ _ _ => forallb plain_step content
  | Node args => plain_args args
  | NodeBlockOf _ content type props children patchFlag dynamicProps =>
      (forallb plain_step content
       && plain_args (mkArgs type props children patchFlag dynamicProps true))%bool
  end.

Fixpoint run_steps (fuel : nat) (l : list Step) : M unit :=
  match l with
  | [] => ret tt
  | x :: l' => bind (run_step fuel x) (fun _ => run_steps fuel l')
  end.

End Steps.

End Spec.

(* ===================================================================== *)
(** * Reasoning rules for the state-passing code *)
(* ===================================================================== *)

Module Rules.
Import Js VNode Spec.

Lemma lookup_snoc {A} (h : list A) (x : A) : (h ++ [x]) !! length h = Some x.
Proof. by rewrite list_lookup_middle. Qed.

Lemma insert_snoc {A} (h : list A) (x y : A) :
  <[length h := y]> (h ++ [x]) = h ++ [y].
Proof. induction h as [|z h IH]; simpl; [done|]. by rewrite IH. Qed.

Lemma runs_elim {A} (m : M A) s Q :
  runs m s Q -> exists a s', m s = Some (a, s') /\ Q a s'.
Proof. unfold runs. destruct (m s) as [[a s']|]; [eauto|done]. Qed.

Lemma runs_intro {A} (m : M A) s (Q : A -> State -> Prop) a s' :
  m s = Some (a, s') -> Q a s' -> runs m s Q.
Proof. unfold runs. by intros ->. Qed.

Lemma runs_conseq {A} (m : M A) s (Q Q' : A -> State -> Prop) :
  runs m s Q -> (forall a s', Q a s' -> Q' a s') -> runs m s Q'.
Proof. unfold runs. destruct (m s) as [[a s']|]; [eauto|done]. Qed.

Lemma runs_ret {A} (a : A) s (Q : A -> State -> Prop) : Q a s -> runs (ret a) s Q.
Proof. done. Qed.

Lemma runs_bind {A B} (m : M A) (k : A -> M B) s (Q : B -> State -> Prop) :
  runs m s (fun a s' => runs (k a) s' Q) -> runs (bind m k) s Q.
Proof. unfold runs, bind. destruct (m s) as [[a s']|]; done. Qed.

Lemma runs_bind_inv {A B} (m : M A) (k : A -> M B) s (Q : B -> State -> Prop) :
  runs (bind m k) s Q -> runs m s (fun a s' => runs (k a) s' Q).
Proof. unfold runs, bind. destruct (m s) as [[a s']|]; done. Qed.

Lemma runs_get_state s (Q : State -> State -> Prop) : Q s s -> runs get_state s Q.
Proof. done. Qed.

Lemma runs_pure (f : State -> State) s (Q : unit -> State -> Prop) :
  Q tt (f s) -> runs (fun s => Some (tt, f s)) s Q.
Proof. done. Qed.

Lemma runs_when b (m : M unit) s (Q : unit -> State -> Prop) :
  (b = true -> runs m s Q) -> (b = false -> Q tt s) -> runs (when b m) s Q.
Proof. destruct b; simpl; intros H1 H2; [by apply H1| by apply H2]. Qed.

Lemma runs_warn w s (Q : unit -> State -> Prop) :
  Q tt (with_warnings s (warnings s ++ [w])) -> runs (warn w) s Q.
Proof. done. Qed.

Lemma runs_read l s v (Q : VNode -> State -> Prop) :
  heap s !! l = Some v -> Q v s -> runs (read l) s Q.
Proof. unfold runs, read. by intros ->. Qed.

Lemma runs_modify l f s v (Q : unit -> State -> Prop) :
  heap s !! l = Some v -> Q tt (with_heap s (<[l := f v]> (heap s))) ->
  runs (modify l f) s Q.
Proof. unfold runs, modify. by intros ->. Qed.

Lemma runs_new_vnode v s (Q : loc -> State -> Prop) :
  Q (length (heap s)) (with_heap s (heap s ++ [v])) -> runs (new_vnode v) s Q.
Proof. done. Qed.

Lemma runs_fresh_id s (Q : nat -> State -> Prop) :
  Q (next_id s) (with_next_id s (S (next_id s))) -> runs fresh_id s Q.
Proof. done. Qed.

Lemma runs_alloc {A} (m : Shared.Alloc A) s (Q : A -> State -> Prop) :
  Q (fst (m (next_id s))) (with_next_id s (snd (m (next_id s)))) ->
  runs (alloc m) s Q.
Proof. unfold runs, alloc. by destruct (m (next_id s)). Qed.

Lemma runs_block_push a l s (Q : unit -> State -> Prop) :
  is_Some (blocks s !! a) ->
  Q tt (with_blocks s (push_elem a l (blocks s))) ->
  runs (block_push a l) s Q.
Proof. unfold runs, block_push, push_elem. by intros [b ->]. Qed.

Lemma with_next_id_same s : with_next_id s (next_id s) = s.
Proof. by destruct s. Qed.

Lemma lookup_is_Some_lt {A} (l : list A) (i : nat) :
  (i < length l)%nat -> is_Some (l !! i).
Proof. apply lookup_lt_is_Some_2. Qed.

Lemma ensures_of_runs {A} (m : M A) s Q : runs m s Q -> ensures m s Q.
Proof. unfold runs, ensures. by destruct (m s) as [[a s']|]. Qed.

Lemma ensures_elim {A} (m : M A) s Q a s' :
  ensures m s Q -> m s = Some (a, s') -> Q a s'.
Proof. unfold ensures. intros H Hm. by rewrite Hm in H. Qed.

Lemma ensures_conseq {A} (m : M A) s (Q Q' : A -> State -> Prop) :
  ensures m s Q -> (forall a s', Q a s' -> Q' a s') -> ensures m s Q'.
Proof. unfold ensures. destruct (m s) as [[a s']|]; [eauto|done]. Qed.

Lemma ensures_ret {A} (a : A) s (Q : A -> State -> Prop) :
  Q a s -> ensures (ret a) s Q.
Proof. done. Qed.

Lemma ensures_fail {A} s (Q : A -> State -> Prop) : ensures fail s Q.
Proof. done. Qed.

Lemma ensures_bind {A B} (m : M A) (k : A -> M B) s (Q : B -> State -> Prop) :
  ensures m s (fun a s' => ensures (k a) s' Q) -> ensures (bind m k) s Q.
Proof. unfold ensures, bind. destruct (m s) as [[a s']|]; done. Qed.

Lemma ensures_read l s (Q : VNode -> State -> Prop) :
  (forall v, heap s !! l = Some v -> Q v s) -> ensures (read l) s Q.
Proof. unfold ensures, read. destruct (heap s !! l); auto. Qed.

Lemma ensures_modify l f s (Q : unit -> State -> Prop) :
  (forall v, heap s !! l = Some v ->
             Q tt (with_heap s (<[l := f v]> (heap s)))) ->
  ensures (modify l f) s Q.
Proof. unfold ensures, modify. destruct (heap s !! l); auto. Qed.

Lemma runs_and_ensures {A} (m : M A) s (Q Q' : A -> State -> Prop) :
  runs m s Q -> ensures m s Q' -> runs m s (fun a s' => Q a s' /\ Q' a s').
Proof. unfold runs, ensures. by destruct (m s) as [[a s']|]. Qed.

Lemma only_allocates_refl s : only_allocates s s.
Proof.
  repeat split; try done. exists []. by rewrite app_nil_r.
Qed.

Lemma only_allocates_trans s1 s2 s3 :
  only_allocates s1 s2 -> only_allocates s2 s3 -> only_allocates s1 s3.
Proof.
  intros ([n1 H1] & Hb1 & (Ha1 & Hc1 & He1) & (Hx1 & Hy1 & Hz1 & Hw1) & Hd1 & Hn1)
         ([n2 H2] & Hb2 & (Ha2 & Hc2 & He2) & (Hx2 & Hy2 & Hz2 & Hw2) & Hd2 & Hn2).
  repeat split; try congruence.
  exists (n1 ++ n2). by rewrite H2, H1, app_assoc.
Qed.

Lemma only_allocates_next_id s n : only_allocates s (with_next_id s n).
Proof.
  repeat split; try done. exists []. by rewrite app_nil_r.
Qed.

Lemma only_allocates_new s v : only_allocates s (with_heap s (heap s ++ [v])).
Proof. repeat split; try done. by exists [v]. Qed.

Lemma only_allocates_length s s' :
  only_allocates s s' -> (length (heap s) <= length (heap s'))%nat.
Proof. intros ([n ->] & _). rewrite length_app. lia. Qed.

Lemma only_allocates_lookup s s' l v :
  only_allocates s s' -> heap s !! l = Some v -> heap s' !! l = Some v.
Proof. intros ([n ->] & _) Hl. by apply lookup_app_l_Some. Qed.

Lemma exists_in_spec bs o :
  exists_in bs o = true <-> (forall a, o = Some a -> (a < length bs)%nat).
Proof.
  destruct o as [a|]; cbn.
  - split.
    + intros H%Nat.ltb_lt ? [= <-]. done.
    + intros H. apply Nat.ltb_lt. auto.
  - split; [by intros _ ? [=]|done].
Qed.

Lemma forallb_exists_in bs st :
  forallb (exists_in bs) st = true
  <-> (forall a, In (Some a) st -> (a < length bs)%nat).
Proof.
  rewrite forallb_forall. split.
  - intros H a Ha. by apply (exists_in_spec bs (Some a)); [apply H|].
  - intros H [a|] Ha; [|done]. apply exists_in_spec. intros ? [= <-]. auto.
Qed.

Lemma lists_exist_iff s :
  lists_exist s <->
  (forall a, In (Some a) (blockStack s) -> (a < length (blocks s))%nat) /\
  (forall a, currentBlock s = Some a -> (a < length (blocks s))%nat).
Proof. unfold lists_exist. by rewrite forallb_exists_in, exists_in_spec. Qed.

End Rules.

Module VNodeFacts.
Import Js Shared VNode Spec Rules.
Section Facts.
Context {PF : PatchFlags} {SF : SlotFlags} {E : Externals}.

Lemma normalizeRef_runs (p : Value) (s : State) (Q : Value -> State -> Prop) :
  (forall r n, Q r (with_next_id s n)) -> runs (normalizeRef p) s Q.
Proof.
  intros HQ. unfold normalizeRef.
  destruct (negb (is_nullish _)).
  - destruct (_ || _)%bool.
    + apply runs_bind, runs_get_state, runs_bind, runs_fresh_id, runs_ret, HQ.
    + apply runs_ret. rewrite <- (with_next_id_same s). apply HQ.
  - apply runs_ret. rewrite <- (with_next_id_same s). apply HQ.
Qed.

Lemma validate_key_runs l s v (Q : unit -> State -> Prop) :
  heap s !! l = Some v ->
  Q tt (if (__DEV__ && negb (strict_eq (key v) (key v)))%bool
        then with_warnings s (warnings s ++ [InvalidKeyNaN (type v)]) else s) ->
  runs (validate_key l) s Q.
Proof.
  intros Hl HQ. unfold validate_key.
  eapply runs_bind, runs_read; [done|].
  destruct (_ && _)%bool; simpl; [by apply runs_warn | done].
Qed.

Lemma land_to_int32 z m : 0 <= m < 2147483648 -> Z.land (to_int32 z) m = Z.land z m.
Proof.
  intros Hm.
  assert (Hmod : to_int32 z mod 4294967296 = z mod 4294967296).
  { unfold to_int32. destruct (_ <? _); [by rewrite Z.mod_mod|].
    rewrite Zminus_mod, Z.mod_same, Z.sub_0_r, !Z.mod_mod by lia. done. }
  apply Z.bits_inj'. intros i Hi.
  rewrite !Z.land_spec.
  destruct (Z.ltb_spec i 32).
  - f_equal.
    change 4294967296 with (2 ^ 32) in Hmod.
    rewrite <- (Z.mod_pow2_bits_low (to_int32 z) 32 i), <- (Z.mod_pow2_bits_low z 32 i) by lia.
    by rewrite Hmod.
  - assert (Z.testbit m i = false) as ->; [|by rewrite !andb_false_r].
    destruct (Z.eq_dec m 0) as [->|]; [apply Z.bits_0|].
    apply Z.bits_above_log2; [lia|].
    assert (Z.log2 m < 31); [|lia].
    apply Z.log2_lt_pow2; lia.
Qed.

Lemma high_bits_small m i : 0 <= m < 2147483648 -> 31 <= i -> Z.testbit m i = false.
Proof.
  intros Hm Hi.
  destruct (Z.eq_dec m 0) as [->|]; [apply Z.bits_0|].
  apply Z.bits_above_log2; [lia|].
  assert (Z.log2 m < 31); [|lia].
  apply Z.log2_lt_pow2; lia.
Qed.

Lemma land_small z m : 0 <= m < 2147483648 -> 0 <= Z.land z m < 2147483648.
Proof.
  intros Hm.
  assert (0 <= Z.land z m) by (apply Z.land_nonneg; lia).
  split; [done|].
  destruct (Z.eq_dec (Z.land z m) 0) as [->|]; [lia|].
  assert (Z.log2 (Z.land z m) < 31) as Hlog.
  2:{ apply Z.log2_lt_pow2 in Hlog; lia. }
  destruct (Z.ltb_spec (Z.log2 (Z.land z m)) 31); [done|].
  assert (Z.testbit (Z.land z m) (Z.log2 (Z.land z m)) = true) as Hb
    by (apply Z.bit_log2; lia).
  rewrite Z.land_spec, (high_bits_small m) in Hb by lia.
  by rewrite andb_false_r in Hb.
Qed.

Lemma to_int32_small z : 0 <= z < 2147483648 -> to_int32 z = z.
Proof.
  intros Hz. unfold to_int32. rewrite Z.mod_small by lia.
  destruct (Z.ltb_spec z 2147483648); lia.
Qed.

Lemma bit_and_small z m : 0 <= m < 2147483648 -> bit_and z m = Z.land z m.
Proof.
  intros Hm. unfold bit_and.
  rewrite (to_int32_small m), land_to_int32 by done.
  apply to_int32_small, land_small, Hm.
Qed.

Lemma land_bit_or z t m :
  0 <= m < 2147483648 -> Z.land t m = 0 -> Z.land (bit_or z t) m = Z.land z m.
Proof.
  intros Hm Ht. unfold bit_or.
  rewrite land_to_int32, Z.land_lor_distr_l, !land_to_int32, Ht, Z.lor_0_r by done.
  done.
Qed.

Lemma component_bits z : bit_and z ShapeFlags.COMPONENT = Z.land z ShapeFlags.COMPONENT.
Proof. by apply bit_and_small. Qed.

Lemma track_vnode_runs shapeFlag isBlockNode l s v (Q : unit -> State -> Prop) :
  heap s !! l = Some v ->
  (forall a, currentBlock s = Some a -> (a < length (blocks s))%nat) ->
  Z.land (VNode.shapeFlag v) ShapeFlags.COMPONENT
    = Z.land shapeFlag ShapeFlags.COMPONENT ->
  Q tt (match currentBlock s with
        | Some a =>
            if ((0 <? isBlockTreeEnabled s) && is_dynamic isBlockNode v)%bool
            then with_blocks s (push_elem a l (blocks s)) else s
        | None => s
        end) ->
  runs (track_vnode shapeFlag isBlockNode l) s Q.
Proof.
  intros Hl Hb Hsf HQ. unfold track_vnode.
  apply runs_bind, runs_get_state.
  eapply runs_bind, runs_read; [done|].
  destruct (currentBlock s) as [a|] eqn:Hc; [|done].
  assert (((0 <? isBlockTreeEnabled s) && negb isBlockNode
           && ((0 <? patchFlag v)
               || negb (bit_and shapeFlag ShapeFlags.COMPONENT =? 0))
           && negb (patchFlag v =? HYDRATE_EVENTS))%bool
          = ((0 <? isBlockTreeEnabled s) && is_dynamic isBlockNode v)%bool) as ->.
  { unfold is_dynamic. rewrite component_bits, Hsf.
    by rewrite !andb_assoc. }
  apply runs_when; intros Hcond; rewrite Hcond in HQ; [|done].
  apply runs_block_push; [|done].
  apply lookup_is_Some_lt, Hb. done.
Qed.

(** A vnode built by the compiled-template path of [createBaseVNode]. *)
Lemma createBaseVNode_fast fuel type props children patchFlag dynamicProps
    shapeFlag isBlockNode s :
  (forall a, currentBlock s = Some a -> (a < length (blocks s))%nat) ->
  runs (createBaseVNode fuel type props children patchFlag dynamicProps
          shapeFlag isBlockNode false) s
    (fun l s' =>
       l = length (heap s) /\
       exists v,
         heap s' = heap s ++ [v] /\
         VNode.type v = type /\
         key v = js_and (default_null props) (normalizeKey (default_null props)) /\
         VNode.patchFlag v = patchFlag /\
         el v = VNull /\ memo v = VUndef /\ dynamicChildren v = DCNull /\
         same_tracking s s' /\ same_context s s' /\
         blocks s' =
           match currentBlock s with
           | Some a =>
               if ((0 <? isBlockTreeEnabled s) && is_dynamic isBlockNode v)%bool
               then push_elem a l (blocks s) else blocks s
           | None => blocks s
           end /\
         warnings s' =
           warnings s ++
             (if (__DEV__ && negb (strict_eq (key v) (key v)))%bool
              then [InvalidKeyNaN type] else []) /\
         Z.land (VNode.shapeFlag v) ShapeFlags.COMPONENT =
           Z.land (match shapeFlag with
                   | Some f => f
                   | None => if strict_eq type Fragment then 0
                             else ShapeFlags.ELEMENT
                   end) ShapeFlags.COMPONENT).
Proof.
  intros Hb.
  unfold createBaseVNode, createBaseVNode_with.
  apply runs_bind.
  assert (forall Q : Value -> State -> Prop, (forall r n, Q r (with_next_id s n)) ->
     runs (if truthy (default_null props) then normalizeRef (default_null props)
           else ret (default_null props)) s Q) as Href.
  { intros Q HQ. destruct (truthy _); [by apply normalizeRef_runs|].
    apply runs_ret. rewrite <- (with_next_id_same s). apply HQ. }
  apply Href. intros r n. clear Href.
  apply runs_bind, runs_get_state, runs_bind, runs_new_vnode.
  match goal with |- context [heap _ ++ [?v]] => set (v0 := v) end.
  cbn [heap with_next_id].
  set (sf := match shapeFlag with
             | Some f => f
             | None => if strict_eq type Fragment then 0 else ShapeFlags.ELEMENT
             end) in *.
  set (v1 := if truthy (default_null children)
             then set_shapeFlag
                    (bit_or (VNode.shapeFlag v0)
                       (if isString (default_null children)
                        then ShapeFlags.TEXT_CHILDREN
                        else ShapeFlags.ARRAY_CHILDREN)) v0
             else v0).
  assert (Hv1 : VNode.type v1 = type /\ key v1 = key v0 /\
                VNode.patchFlag v1 = patchFlag /\ el v1 = VNull /\
                memo v1 = VUndef /\ dynamicChildren v1 = DCNull /\
                Z.land (VNode.shapeFlag v1) ShapeFlags.COMPONENT
                  = Z.land sf ShapeFlags.COMPONENT).
  { unfold v1. destruct (truthy _); [|done]. cbn.
    repeat split; try done.
    apply land_bit_or; [done|]. by destruct (isString _). }
  destruct Hv1 as (Ht & Hk & Hp & He & Hm & Hd & Hsf).
  apply runs_bind.
  assert (runs
    (if truthy (default_null children)
     then modify (length (heap s))
            (fun v => set_shapeFlag
               (bit_or (VNode.shapeFlag v)
                  (if isString (default_null children)
                   then ShapeFlags.TEXT_CHILDREN
                   else ShapeFlags.ARRAY_CHILDREN)) v)
     else ret ())
    (with_heap (with_next_id s n) (heap s ++ [v0]))
    (fun _ s1 => s1 = with_heap (with_next_id s n) (heap s ++ [v1]))) as Hch.
  { unfold v1. destruct (truthy _); [|done].
    eapply runs_modify; [apply lookup_snoc|].
    cbn [heap with_heap]. by rewrite insert_snoc. }
  eapply runs_conseq; [exact Hch|]. clear Hch.
  intros _ s1 ->.
  eapply runs_bind, validate_key_runs; [apply lookup_snoc|].
  eapply runs_bind, track_vnode_runs.
  { instantiate (1 := v1). destruct (_ && _)%bool; apply lookup_snoc. }
  { destruct (_ && _)%bool; apply Hb. }
  { done. }
  apply runs_ret. split; [done|]. exists v1.
  rewrite Hk.
  destruct (__DEV__ && negb (strict_eq (key v0) (key v0)))%bool;
    cbn [currentBlock with_warnings with_heap with_next_id isBlockTreeEnabled blocks];
    destruct (currentBlock s) as [a|];
    try destruct (_ && is_dynamic _ _)%bool;
    cbn; rewrite ?Ht, ?app_nil_r; by repeat split.
Qed.

(** ** The full path: [normalizeChildren] and [_createVNode] *)

Lemma insert_insert_same {A} (h : list A) l (x y : A) :
  <[l := y]> (<[l := x]> h) = <[l := y]> h.
Proof.
  revert l. induction h as [|a h IH]; intros [|l]; cbn; [done..|].
  by rewrite IH.
Qed.

Lemma lookup_insert_same {A} (h : list A) l (x y : A) :
  h !! l = Some x -> <[l := y]> h !! l = Some y.
Proof. intros Hl. apply list_lookup_insert_eq. by eapply lookup_lt_Some. Qed.

(** [vnode.children = children; vnode.shapeFlag |= type] *)
Lemma finish_runs l c t s v (Q : unit -> State -> Prop) :
  heap s !! l = Some v ->
  Q tt (with_heap s
          (<[l := set_shapeFlag (bit_or (shapeFlag v) t) (set_children c v)]>
             (heap s))) ->
  runs (bind (modify l (set_children c))
             (fun _ => modify l (fun v => set_shapeFlag
                                   (bit_or (shapeFlag v) t) v))) s Q.
Proof.
  intros Hl HQ.
  eapply runs_bind, runs_modify; [done|].
  eapply runs_modify; [by eapply lookup_insert_same|].
  cbn [heap with_heap]. by rewrite insert_insert_same.
Qed.

Lemma children_bits t :
  In t [0; ShapeFlags.TEXT_CHILDREN; ShapeFlags.ARRAY_CHILDREN;
        ShapeFlags.SLOTS_CHILDREN] ->
  Z.land t ShapeFlags.COMPONENT = 0.
Proof. intros [<-|[<-|[<-|[<-|[]]]]]; done. Qed.

(** [normalizeChildren] on plain children: it returns, and writes only the
    children, the shape flag outside the component bits and, for forwarded
    dynamic slots, the [DYNAMIC_SLOTS] bit of the patch flag. *)
Lemma normalizeChildren_plain fuel l children s v (Q : unit -> State -> Prop) :
  heap s !! l = Some v ->
  plain_children (shapeFlag v) children = true ->
  (forall c f p n,
     Z.land f ShapeFlags.COMPONENT = Z.land (shapeFlag v) ShapeFlags.COMPONENT ->
     p = patchFlag v \/ p = bit_or (patchFlag v) DYNAMIC_SLOTS ->
     Q tt (with_heap (with_next_id s n)
             (<[l := set_shapeFlag f (set_patchFlag p (set_children c v))]>
                (heap s)))) ->
  runs (normalizeChildren fuel l children) s Q.
Proof.
  intros Hl Hplain HQ.
  assert (Hfin : forall c t,
    In t [0; ShapeFlags.TEXT_CHILDREN; ShapeFlags.ARRAY_CHILDREN;
          ShapeFlags.SLOTS_CHILDREN] ->
    runs (bind (modify l (set_children c))
               (fun _ => modify l (fun v => set_shapeFlag
                                     (bit_or (shapeFlag v) t) v))) s Q).
  { intros c t Ht. eapply finish_runs; [done|].
    rewrite <- (with_next_id_same s).
    apply (HQ c (bit_or (shapeFlag v) t) (patchFlag v) (next_id s)); [|by left].
    apply land_bit_or; [done|by apply children_bits]. }
  assert (Hsame : Q tt s).
  { assert (s = with_heap (with_next_id s (next_id s))
                  (<[l := set_shapeFlag (shapeFlag v)
                            (set_patchFlag (patchFlag v)
                               (set_children (VNode.children v) v))]> (heap s)))
      as ->; [|apply HQ; [done|by left]].
    assert (set_shapeFlag (shapeFlag v)
              (set_patchFlag (patchFlag v) (set_children (VNode.children v) v)) = v)
      as -> by (by destruct v).
    rewrite list_insert_id by done. by destruct s. }
  assert (Hslots : forall c, runs
    (bind get_state (fun s0 =>
       bind (if (negb (truthy (get c "_"))
                 && negb (has InternalObjectKey c))%bool
             then match c with
                  | VVNode c' =>
                      bind (modify c' (set__ctx (currentRenderingInstance s0)))
                           (fun _ => ret c)
                  | _ => ret (set c "_ctx" (currentRenderingInstance s0))
                  end
             else if (strict_eq (get c "_") (VNum FORWARDED)
                      && truthy (currentRenderingInstance s0))%bool
                  then if strict_eq
                            (get (get (currentRenderingInstance s0) "slots") "_")
                            (VNum STABLE)
                       then ret (set c "_" (VNum STABLE))
                       else bind (modify l (fun v0 =>
                                    set_patchFlag
                                      (bit_or (patchFlag v0) DYNAMIC_SLOTS) v0))
                                 (fun _ => ret (set c "_" (VNum DYNAMIC)))
                  else ret c)
            (fun children0 =>
               bind (modify l (set_children children0))
                    (fun _ => modify l (fun v0 =>
                                set_shapeFlag
                                  (bit_or (shapeFlag v0)
                                          ShapeFlags.SLOTS_CHILDREN) v0))))) s Q
    \/ isVNode c = true).
  { intros c. destruct (isVNode c) eqn:Hc; [by right|left].
    apply runs_bind, runs_get_state, runs_bind.
    destruct (_ && _)%bool.
    - destruct c; try done; apply runs_ret, Hfin; cbn; tauto.
    - destruct (_ && _)%bool; [|apply runs_ret, Hfin; cbn; tauto].
      destruct (strict_eq _ _); [apply runs_ret, Hfin; cbn; tauto|].
      eapply runs_bind, runs_modify; [done|]. apply runs_ret.
      eapply finish_runs; [by eapply lookup_insert_same|].
      cbn [heap with_heap]. rewrite insert_insert_same.
      rewrite <- (with_next_id_same s).
      apply (HQ _ _ (bit_or (patchFlag v) DYNAMIC_SLOTS) (next_id s));
        [|by right].
      cbn. apply land_bit_or; [done|]. apply children_bits. cbn; tauto. }
  destruct fuel as [|fuel']; cbn [normalizeChildren];
    (eapply runs_bind, runs_read; [done|]);
    destruct children as [| |b|z| |str|k|id own|id items|id own|c];
    cbn [is_nullish isArray]; cbn [plain_children] in Hplain;
    try (apply Hfin; cbn; tauto);
    try (rewrite Hplain; cbn [negb]; apply Hfin; cbn; tauto);
    try (apply runs_bind, runs_get_state, runs_bind, runs_fresh_id;
         eapply finish_runs; [done|]; apply HQ; [|by left];
         apply land_bit_or; [done|]; apply children_bits; cbn; tauto).
  - (* a slots object, no bound left *)
    destruct (bit_and _ _ =? 0) eqn:Hel; cbn [negb orb] in *.
    + by destruct (Hslots (VObj id own)).
    + apply negb_true_iff in Hplain. rewrite Hplain. by apply runs_ret.
  - (* a vnode as children of an element *)
    rewrite Hplain. cbn. by apply runs_ret.
  - destruct (bit_and _ _ =? 0) eqn:Hel; cbn [negb orb] in *.
    + by destruct (Hslots (VObj id own)).
    + apply negb_true_iff in Hplain. rewrite Hplain. by apply runs_ret.
  - rewrite Hplain. cbn. by apply runs_ret.
Qed.

(** A vnode built by the full path of [createBaseVNode], the one
    [_createVNode] takes, when the children settle. *)
Lemma createBaseVNode_full fuel type props children patchFlag dynamicProps
    shapeFlag isBlockNode s :
  let sf := match shapeFlag with
            | Some f => f
            | None => if strict_eq type Fragment then 0 else ShapeFlags.ELEMENT
            end in
  settles_children sf (default_null children) = true ->
  (forall a, currentBlock s = Some a -> (a < length (blocks s))%nat) ->
  runs (createBaseVNode fuel type props children patchFlag dynamicProps
          shapeFlag isBlockNode true) s
    (fun l s' =>
       l = length (heap s) /\
       exists v,
         heap s' = heap s ++ [v] /\
         VNode.type v = type /\
         key v = js_and (default_null props) (normalizeKey (default_null props)) /\
         (VNode.patchFlag v = patchFlag \/
          VNode.patchFlag v = bit_or patchFlag DYNAMIC_SLOTS) /\
         el v = VNull /\ memo v = VUndef /\ dynamicChildren v = DCNull /\
         same_tracking s s' /\ same_context s s' /\
         blocks s' =
           match currentBlock s with
           | Some a =>
               if ((0 <? isBlockTreeEnabled s) && is_dynamic isBlockNode v)%bool
               then push_elem a l (blocks s) else blocks s
           | None => blocks s
           end /\
         warnings s' =
           warnings s ++
             (if (__DEV__ && negb (strict_eq (key v) (key v)))%bool
              then [InvalidKeyNaN type] else []) /\
         Z.land (VNode.shapeFlag v) ShapeFlags.COMPONENT =
           Z.land sf ShapeFlags.COMPONENT).
Proof.
  intros sf Hset Hb. apply andb_prop in Hset as [Hplain Hsus].
  apply negb_true_iff in Hsus.
  unfold createBaseVNode, createBaseVNode_with.
  apply runs_bind.
  assert (forall Q : Value -> State -> Prop, (forall r n, Q r (with_next_id s n)) ->
     runs (if truthy (default_null props) then normalizeRef (default_null props)
           else ret (default_null props)) s Q) as Href.
  { intros Q HQ. destruct (truthy _); [by apply normalizeRef_runs|].
    apply runs_ret. rewrite <- (with_next_id_same s). apply HQ. }
  apply Href. intros r n. clear Href.
  apply runs_bind, runs_get_state, runs_bind, runs_new_vnode.
  match goal with |- context [heap _ ++ [?v]] => set (v0 := v) end.
  cbn [heap with_next_id]. fold sf. rewrite Hsus.
  apply runs_bind, runs_bind.
  eapply normalizeChildren_plain; [apply lookup_snoc|exact Hplain|].
  intros c f p n' Hf Hp. cbn [heap with_heap with_next_id].
  rewrite insert_snoc. apply runs_ret.
  set (v1 := set_shapeFlag f (set_patchFlag p (set_children c v0))).
  clear Hsus.
  eapply runs_bind, validate_key_runs; [apply lookup_snoc|].
  eapply runs_bind, track_vnode_runs.
  { instantiate (1 := v1). destruct (__DEV__ && _)%bool; apply lookup_snoc. }
  { destruct (__DEV__ && _)%bool; apply Hb. }
  { exact Hf. }
  apply runs_ret. split; [done|]. exists v1.
  destruct (__DEV__ && negb (strict_eq (key v1) (key v1)))%bool;
    cbn [currentBlock with_warnings with_heap with_next_id isBlockTreeEnabled blocks];
    destruct (currentBlock s) as [a|];
    try destruct (_ && is_dynamic _ _)%bool;
    cbn; rewrite ?app_nil_r; by repeat split.
Qed.

(** The class and style normalisation of [_createVNode] only draws
    identities. *)
Lemma props_stage_runs props s (Q : Value -> State -> Prop) :
  (forall r n, Q r (with_next_id s n)) ->
  runs (if truthy props then
          bind (guardReactiveProps props) (fun props =>
            let klass := get props "class" in
            let style := get props "style" in
            let props :=
              if (truthy klass && negb (isString klass))%bool
              then set props "class" (VStr (normalizeClass klass))
              else props in
            if isObject style then
              bind (if (isProxy style && negb (isArray style))%bool
                    then extend_empty style else ret style) (fun style =>
              bind (alloc (normalizeStyle style)) (fun normalized =>
              ret (set props "style" normalized)))
            else ret props)
        else ret props) s Q.
Proof.
  intros HQ.
  assert (Hsame : forall r, Q r s)
    by (intros r; rewrite <- (with_next_id_same s); apply HQ).
  destruct (truthy props); [|by apply runs_ret].
  apply runs_bind. unfold guardReactiveProps, extend_empty.
  assert (forall (m : M Value) s1 (Q1 : Value -> State -> Prop) style,
            (forall r n, Q1 r (with_next_id s1 n)) ->
            runs (if (isProxy style && negb (isArray style))%bool
                  then bind fresh_id (fun id => ret (VObj id (fields_of style)))
                  else ret style) s1 Q1) as Hext.
  { intros _ s1 Q1 style HQ1. destruct (_ && _)%bool.
    - apply runs_bind, runs_fresh_id, runs_ret, HQ1.
    - apply runs_ret. rewrite <- (with_next_id_same s1). apply HQ1. }
  assert (forall p s1, (forall r n, Q r (with_next_id s1 n)) ->
    runs (let klass := get p "class" in
          let style := get p "style" in
          let props :=
            if (truthy klass && negb (isString klass))%bool
            then set p "class" (VStr (normalizeClass klass))
            else p in
          if isObject style then
            bind (if (isProxy style && negb (isArray style))%bool
                  then bind fresh_id (fun id => ret (VObj id (fields_of style)))
                  else ret style) (fun style =>
            bind (alloc (normalizeStyle style)) (fun normalized =>
            ret (set props "style" normalized)))
          else ret props) s1 Q) as Hrest.
  { intros p s1 HQ1. cbn zeta. destruct (isObject _).
    - apply runs_bind, (Hext (ret VUndef)). intros r n.
      apply runs_bind, runs_alloc, runs_ret. apply HQ1.
    - apply runs_ret. rewrite <- (with_next_id_same s1). apply HQ1. }
  destruct (negb (truthy props)); [by apply runs_ret, Hrest|].
  destruct (_ || _)%bool.
  - apply runs_bind, runs_fresh_id, runs_ret, Hrest. intros r n. apply HQ.
  - by apply runs_ret, Hrest.
Qed.

(** [_createVNode] building a new vnode with plain arguments: it returns,
    and registers the vnode as [createBaseVNode] does, with the shape flag
    encoded from the type. *)
Lemma createVNode_plain fuel args s :
  plain_args args = true ->
  (forall a, currentBlock s = Some a -> (a < length (blocks s))%nat) ->
  runs (_createVNode fuel args) s
    (fun l s' =>
       l = length (heap s) /\
       exists v,
         heap s' = heap s ++ [v] /\
         (VNode.patchFlag v = a_patchFlag args \/
          VNode.patchFlag v = bit_or (a_patchFlag args) DYNAMIC_SLOTS) /\
         el v = VNull /\ memo v = VUndef /\ dynamicChildren v = DCNull /\
         same_tracking s s' /\ same_context s s' /\
         blocks s' =
           match currentBlock s with
           | Some a =>
               if ((0 <? isBlockTreeEnabled s)
                   && is_dynamic (a_isBlockNode args) v)%bool
               then push_elem a l (blocks s) else blocks s
           | None => blocks s
           end /\
         Z.land (VNode.shapeFlag v) ShapeFlags.COMPONENT =
           Z.land (shape_of (resolve_type (a_type args))) ShapeFlags.COMPONENT).
Proof.
  intros Hplain Hb. apply andb_prop in Hplain as [Hnv Hset].
  unfold _createVNode, _createVNode_with.
  apply runs_bind.
  set (t0 := if (negb (truthy (a_type args))
                 || strict_eq (a_type args) NULL_DYNAMIC_COMPONENT)%bool
             then Comment else a_type args).
  assert (Ht0 : isVNode t0 = false).
  { unfold t0. destruct (_ || _)%bool; [done|]. by apply negb_true_iff. }
  assert (forall Q : Value -> State -> Prop,
            (forall ws, Q t0 (with_warnings s ws)) ->
            runs (if (negb (truthy (a_type args))
                      || strict_eq (a_type args) NULL_DYNAMIC_COMPONENT)%bool
                  then bind (when (__DEV__ && negb (truthy (a_type args)))%bool
                               (warn (InvalidVNodeType (a_type args))))
                            (fun _ => ret Comment)
                  else ret (a_type args)) s Q) as Htype.
  { intros Q HQ. unfold t0 in HQ.
    assert (Q' : forall r, (forall ws, Q r (with_warnings s ws)) -> Q r s).
    { intros r Hr. specialize (Hr (warnings s)). by destruct s. }
    destruct (_ || _)%bool.
    - apply runs_bind, runs_when; intros _.
      + apply runs_warn, runs_ret, HQ.
      + by apply runs_ret, Q'.
    - by apply runs_ret, Q'. }
  apply Htype. intros ws. clear Htype.
  assert (resolve_type (a_type args)
          = if isClassComponent t0 then get t0 "__vccOpts" else t0) as Hres
    by done.
  set (t1 := if isClassComponent t0 then get t0 "__vccOpts" else t0) in *.
  rewrite Hres in Hset |- *. clear Hres.
  destruct t0 as [| | | | | | | | | |l0]; [..|done];
    (apply runs_bind, props_stage_runs; intros p n;
     apply runs_bind;
     match goal with
     | |- runs (if ?c then _ else _) _ _ =>
         destruct c;
         [apply runs_bind, runs_warn, runs_ret|apply runs_ret]
     end;
     (eapply runs_conseq;
      [apply createBaseVNode_full;
         [destruct (a_children args); exact Hset|exact Hb]|];
      intros l s' (-> & v & Hh & _ & _ & Hp & He & Hm & Hd & Ht & Hc & Hbl & _ & Hsf);
      split; [done|]; exists v; repeat (split; [done|]); exact Hsf)).
Qed.

(** ** The registration test on any path *)

(** A block node is never registered: its registration step only reads the
    vnode. *)
Lemma track_vnode_block shapeFlag l s r s' :
  track_vnode shapeFlag true l s = Some (r, s') ->
  s' = s /\ is_Some (heap s !! l).
Proof.
  unfold track_vnode, bind, get_state, read.
  destruct (heap s !! l) as [v|]; [|done].
  destruct (currentBlock s) as [a|].
  - rewrite andb_false_r. cbn. intros [= _ <-]. by split; [|eexists].
  - cbn. intros [= _ <-]. by split; [|eexists].
Qed.

(** The registration step, computed. *)
Lemma track_vnode_eq shapeFlag isBlockNode l s v :
  heap s !! l = Some v ->
  exists_in (blocks s) (currentBlock s) = true ->
  track_vnode shapeFlag isBlockNode l s =
    Some (tt,
          match currentBlock s with
          | Some a =>
              if ((0 <? isBlockTreeEnabled s)
                  && is_dynamic isBlockNode (set_shapeFlag shapeFlag v))%bool
              then with_blocks s (push_elem a l (blocks s)) else s
          | None => s
          end).
Proof.
  intros Hv Hex.
  pose proof (track_vnode_runs shapeFlag isBlockNode l s
                (set_shapeFlag shapeFlag v)) as Hruns.
  unfold track_vnode, bind, get_state, read. rewrite Hv.
  destruct (currentBlock s) as [a|] eqn:Hc; [|done].
  assert (((0 <? isBlockTreeEnabled s) && negb isBlockNode
           && ((0 <? patchFlag v)
               || negb (bit_and shapeFlag ShapeFlags.COMPONENT =? 0))
           && negb (patchFlag v =? HYDRATE_EVENTS))%bool
          = ((0 <? isBlockTreeEnabled s)
             && is_dynamic isBlockNode (set_shapeFlag shapeFlag v))%bool) as ->.
  { unfold is_dynamic. cbn [VNode.shapeFlag VNode.patchFlag set_shapeFlag].
    rewrite component_bits. by rewrite !andb_assoc. }
  destruct (_ && _)%bool; cbn; [|done].
  cbn in Hex. apply Nat.ltb_lt, lookup_lt_is_Some_2 in Hex as [b Hb].
  unfold block_push, push_elem. by rewrite Hb.
Qed.

Lemma bind_rel {A B} (m : M A) (k k' : A -> M B) s r
    (P : option (B * State) -> Prop) :
  bind m k s = Some r ->
  (forall a s', k a s' = Some r -> P (k' a s')) ->
  P (bind m k' s).
Proof.
  unfold bind. destruct (m s) as [[a s']|]; [|done]. intros Hk HP. by apply HP.
Qed.

(** A call of [createBaseVNode] on either path is the same call as a block
    node, which registers nothing, followed by the registration test in the
    state reached. *)
Lemma createBaseVNode_split fuel type props children patchFlag dynamicProps
    shapeFlag isBlockNode needFullChildrenNormalization s l s1 :
  createBaseVNode fuel type props children patchFlag dynamicProps shapeFlag
    true needFullChildrenNormalization s = Some (l, s1) ->
  is_Some (heap s1 !! l) /\
  createBaseVNode fuel type props children patchFlag dynamicProps shapeFlag
    isBlockNode needFullChildrenNormalization s
  = bind (track_vnode
            (match shapeFlag with
             | Some f => f
             | None => if strict_eq type Fragment then 0 else ShapeFlags.ELEMENT
             end) isBlockNode l) (fun _ => ret l) s1.
Proof.
  unfold createBaseVNode, createBaseVNode_with. intros H.
  set (P := fun x : option (loc * State) =>
              is_Some (heap s1 !! l) /\
              x = bind (track_vnode
                          (match shapeFlag with
                           | Some f => f
                           | None => if strict_eq type Fragment then 0
                                     else ShapeFlags.ELEMENT
                           end) isBlockNode l) (fun _ => ret l) s1).
  refine (bind_rel _ _ _ _ _ P H _). clear H. intros r s2 H.
  refine (bind_rel _ _ _ _ _ P H _). clear H. intros s2' s3 H.
  refine (bind_rel _ _ _ _ _ P H _). clear H. intros vnode s4 H.
  refine (bind_rel _ _ _ _ _ P H _). clear H. intros [] s5 H.
  refine (bind_rel _ _ _ _ _ P H _). clear H. intros [] s6 H.
  unfold bind at 1 in H.
  destruct (track_vnode _ true vnode s6) as [[[] s7]|] eqn:Ht; [|done].
  injection H as -> ->.
  apply track_vnode_block in Ht as [-> Hsome]. by split.
Qed.

(** ** What [createVNode] returns exists *)

Lemma ensures_last {A B} (m : M A) (k : A -> M B) s (Q : B -> State -> Prop) :
  (forall a s', ensures (k a) s' Q) -> ensures (bind m k) s Q.
Proof.
  intros Hk. apply ensures_bind. unfold ensures.
  destruct (m s) as [[a s']|]; [apply Hk|done].
Qed.

Lemma track_vnode_keeps shapeFlag isBlockNode l s :
  ensures (track_vnode shapeFlag isBlockNode l) s
    (fun _ s' => is_Some (heap s' !! l)).
Proof.
  unfold ensures, track_vnode, bind, get_state, read.
  destruct (heap s !! l) as [v|] eqn:Hv; [|done].
  destruct (currentBlock s) as [a|]; [|by eexists].
  destruct (_ && _)%bool; cbn; [|by eexists].
  unfold block_push. destruct (blocks s !! a); cbn; [by eexists|done].
Qed.

Lemma createVNode_returns fuel args s :
  ensures (createVNode fuel args) s (fun l s' => is_Some (heap s' !! l)).
Proof.
  assert (forall args s,
    ensures (_createVNode_with fuel (normalizeChildren fuel) args) s
      (fun l s' => is_Some (heap s' !! l))) as Hcreate.
  { clear. intros args s. unfold _createVNode_with.
    apply ensures_last. intros type s1.
    assert (forall t p s2,
      ensures (createBaseVNode_with (normalizeChildren fuel) t p
                 (default_null (a_children args)) (a_patchFlag args)
                 (default_null (a_dynamicProps args))
                 (Some (shape_of
                          (if isClassComponent type
                           then get type "__vccOpts" else type)))
                 (a_isBlockNode args) true) s2
        (fun l s' => is_Some (heap s' !! l))) as Hbase.
    { intros t p s2. unfold createBaseVNode_with.
      do 5 (apply ensures_last; intros ? ?).
      apply ensures_bind.
      eapply ensures_conseq; [apply track_vnode_keeps|]. by intros [] ?. }
    destruct type as [| | | | | | | | | |original];
      try (apply ensures_last; intros p s2; apply ensures_last;
           intros t s3; apply Hbase).
    apply ensures_last. intros cloned s2.
    do 2 (apply ensures_last; intros ? ?).
    apply ensures_bind, ensures_modify. intros v Hv.
    apply ensures_ret. cbn. apply lookup_lt_is_Some_2.
    rewrite length_insert. by eapply lookup_lt_Some. }
  unfold createVNode, createVNode_with.
  destruct __DEV__; [|apply Hcreate].
  apply ensures_last. intros s0 s1.
  destruct (vnodeArgsTransformer s0); [|apply Hcreate].
  apply ensures_last. intros args' s2. apply Hcreate.
Qed.

Lemma createVNode_untransformed fuel args s :
  vnodeArgsTransformer s = None ->
  createVNode fuel args s = _createVNode fuel args s.
Proof.
  intros Hnone. unfold createVNode, createVNode_with, _createVNode.
  destruct __DEV__; [|done]. unfold bind, get_state. by rewrite Hnone.
Qed.

Lemma runs_createVNode fuel args s (Q : loc -> State -> Prop) :
  vnodeArgsTransformer s = None ->
  runs (_createVNode fuel args) s Q -> runs (createVNode fuel args) s Q.
Proof. intros Hnone. unfold runs. by rewrite createVNode_untransformed. Qed.

(** ** The block stack *)

Lemma stack_top_snoc st x : stack_top (st ++ [x]) = x.
Proof. unfold stack_top. rewrite last_snoc. by destruct x. Qed.

Lemma stack_top_In st a : stack_top st = Some a -> In (Some a) st.
Proof.
  unfold stack_top. destruct (last st) as [[b|]|] eqn:Hl; [|done..].
  intros [= ->]. apply list_elem_of_In, last_Some_elem_of, Hl.
Qed.

Lemma removelast_snoc {A} (l : list A) x : removelast (l ++ [x]) = l.
Proof. apply removelast_last. Qed.

Lemma push_elem_length a l bs : length (push_elem a l bs) = length bs.
Proof. unfold push_elem. destruct (bs !! a); [apply length_insert|done]. Qed.

Lemma push_elem_lookup_ne a a' l bs :
  a <> a' -> push_elem a l bs !! a' = bs !! a'.
Proof.
  intros Hne. unfold push_elem. destruct (bs !! a); [|done].
  by apply list_lookup_insert_ne.
Qed.

Lemma push_elem_lookup a l bs b :
  bs !! a = Some b ->
  push_elem a l bs !! a = Some (mkBlock (elems b ++ [l]) (minus_one b)).
Proof.
  intros Hb. unfold push_elem. rewrite Hb.
  apply list_lookup_insert_eq. by eapply lookup_lt_Some.
Qed.

Lemma setupBlock_runs vnode s v (Q : loc -> State -> Prop) :
  heap s !! vnode = Some v ->
  (forall p, stack_top (removelast (blockStack s)) = Some p ->
             (p < length (blocks s))%nat) ->
  Q vnode
    (let d := if 0 <? isBlockTreeEnabled s then
                match currentBlock s with
                | Some a => DCBlock a
                | None => DCEmptyArr
                end
              else DCNull in
     let s1 := closeBlock
                 (with_heap s (<[vnode := set_dynamicChildren d v]> (heap s))) in
     match currentBlock s1 with
     | Some p => if 0 <? isBlockTreeEnabled s
                 then with_blocks s1 (push_elem p vnode (blocks s1)) else s1
     | None => s1
     end) ->
  runs (setupBlock vnode) s Q.
Proof.
  intros Hv Hp HQ. unfold setupBlock.
  apply runs_bind, runs_get_state.
  eapply runs_bind, runs_modify; [done|].
  apply runs_bind. apply (runs_pure closeBlock).
  apply runs_bind, runs_get_state.
  cbn zeta in HQ.
  set (s1 := closeBlock _) in *.
  assert (Hen : isBlockTreeEnabled s1 = isBlockTreeEnabled s) by done.
  assert (Hcur : currentBlock s1 = stack_top (removelast (blockStack s))) by done.
  assert (Hbl : blocks s1 = blocks s) by done.
  apply runs_bind.
  destruct (currentBlock s1) as [p|] eqn:Hc.
  - rewrite Hen. apply runs_when; intros Hcond; rewrite Hcond in HQ.
    + apply runs_block_push; [|by apply runs_ret].
      rewrite Hbl. apply lookup_is_Some_lt, Hp. by rewrite <- Hcur.
    + by apply runs_ret.
  - by apply runs_ret.
Qed.


Lemma setupBlock_closes vnode s v st top :
  heap s !! vnode = Some v ->
  blockStack s = st ++ [top] ->
  currentBlock s = top ->
  (forall p, stack_top st = Some p -> (p < length (blocks s))%nat) ->
  runs (setupBlock vnode) s
    (fun r s' =>
       r = vnode /\
       blockStack s' = st /\
       currentBlock s' = stack_top st /\
       isBlockTreeEnabled s' = isBlockTreeEnabled s /\
       heap s' =
         <[vnode := set_dynamicChildren
                      (if 0 <? isBlockTreeEnabled s then
                         match top with
                         | Some a => DCBlock a
                         | None => DCEmptyArr
                         end
                       else DCNull) v]> (heap s) /\
       blocks s' =
         match stack_top st with
         | Some p => if 0 <? isBlockTreeEnabled s
                     then push_elem p vnode (blocks s) else blocks s
         | None => blocks s
         end /\
       same_context s s' /\ warnings s' = warnings s).
Proof.
  intros Hv Hst Hcur Hp.
  apply (setupBlock_runs vnode s v); [done| |].
  { rewrite Hst, removelast_snoc. done. }
  cbn zeta. unfold closeBlock.
  cbn [blockStack with_heap with_stack currentBlock isBlockTreeEnabled blocks].
  rewrite Hst, removelast_snoc, Hcur.
  destruct (stack_top st) as [p|]; [destruct (0 <? isBlockTreeEnabled s)|];
    by repeat split.
Qed.

(** C2 (as amended): closing a block.  [setupBlock] pops the top frame, and the
    list below it, if any, becomes the current one.  While tracking is enabled
    the root's [dynamicChildren] is the list just closed, or the empty
    sentinel when the frame is the [null] that [openBlock(true)] pushed, and
    the root is appended to the parent's list if there is one; while tracking
    is suspended [dynamicChildren] is [null] and nothing is appended. *)
Theorem C2_setupBlock_closes_block :
  (forall vnode s v st top,
     heap s !! vnode = Some v ->
     blockStack s = st ++ [top] ->
     currentBlock s = top ->
     exists_in (blocks s) (stack_top st) = true ->
     runs (setupBlock vnode) s
       (fun r s' =>
          r = vnode /\
          blockStack s' = st /\
          currentBlock s' = stack_top st /\
          (exists v', heap s' !! vnode = Some v' /\
             dynamicChildren v' =
               if 0 <? isBlockTreeEnabled s then
                 match top with
                 | Some a => DCBlock a
                 | None => DCEmptyArr
                 end
               else DCNull) /\
          blocks s' =
            match stack_top st with
            | Some p => if 0 <? isBlockTreeEnabled s
                        then push_elem p vnode (blocks s) else blocks s
            | None => blocks s
            end)) /\
  (forall s,
     blockStack (openBlock true s) = blockStack s ++ [None] /\
     currentBlock (openBlock true s) = None /\
     blockStack (openBlock false s) = blockStack s ++ [Some (length (blocks s))] /\
     currentBlock (openBlock false s) = Some (length (blocks s)) /\
     blocks (openBlock false s) = blocks s ++ [mkBlock [] None]).
Proof.
  split; [|done].
  intros vnode s v st top Hv Hst Hcur Hp.
  pose proof (proj1 (exists_in_spec _ _) Hp) as Hp'.
  eapply runs_conseq; [by apply (setupBlock_closes vnode s v st top)|].
  intros r s' (-> & Hs & Hc & _ & Hh & Hb & _).
  repeat split; try done.
  eexists. split.
  - rewrite Hh. apply list_lookup_insert_eq. by eapply lookup_lt_Some.
  - done.
Qed.

(** ** Balance of the block stack *)

Lemma is_dynamic_block v : is_dynamic true v = false.
Proof. done. Qed.

Lemma openBlock_keeps dt s :
  current_is_top s -> lists_exist s ->
  current_is_top (openBlock dt s) /\ lists_exist (openBlock dt s) /\
  blockStack (openBlock dt s) = blockStack s ++ [currentBlock (openBlock dt s)] /\
  (length (blocks s) <= length (blocks (openBlock dt s)))%nat /\
  isBlockTreeEnabled (openBlock dt s) = isBlockTreeEnabled s /\
  heap (openBlock dt s) = heap s.
Proof.
  intros Htop Hex. apply lists_exist_iff in Hex as [Hst Hcur].
  rewrite lists_exist_iff.
  unfold current_is_top, openBlock.
  destruct dt; cbn.
  - rewrite stack_top_snoc. repeat split; try done.
    intros a [Ha|[Ha|[]]]%in_app_or; [by apply Hst|done].
  - rewrite stack_top_snoc, length_app. cbn. repeat split; try done; try lia.
    + intros a [Ha|[[= <-]|[]]]%in_app_or; [apply Hst in Ha|]; lia.
    + intros a [= <-]. lia.
Qed.

Lemma createElementBlock_runs fuel type props children patchFlag dynamicProps
    shapeFlag s st top :
  blockStack s = st ++ [top] ->
  currentBlock s = top ->
  (forall a, In (Some a) (blockStack s) -> (a < length (blocks s))%nat) ->
  runs (createElementBlock fuel type props children patchFlag dynamicProps
          shapeFlag) s
    (fun root s' =>
       root = length (heap s) /\
       blockStack s' = st /\
       currentBlock s' = stack_top st /\
       isBlockTreeEnabled s' = isBlockTreeEnabled s /\
       (exists v, heap s' = heap s ++ [v] /\
          VNode.type v = type /\ VNode.patchFlag v = patchFlag /\
          dynamicChildren v =
            if 0 <? isBlockTreeEnabled s then
              match top with
              | Some a => DCBlock a
              | None => DCEmptyArr
              end
            else DCNull) /\
       blocks s' =
         match stack_top st with
         | Some p => if 0 <? isBlockTreeEnabled s
                     then push_elem p root (blocks s) else blocks s
         | None => blocks s
         end /\
       same_context s s').
Proof.
  intros Hst Hcur Hex. unfold createElementBlock.
  apply runs_bind.
  eapply runs_conseq.
  { apply createBaseVNode_fast. intros a Ha. apply Hex. rewrite Hst.
    apply in_or_app. right. left. congruence. }
  intros l s1 (-> & v & Hh & Ht & _ & Hpf & _ & _ & _ & (Hs1 & Hc1 & He1) & Hctx & Hb & _).
  rewrite is_dynamic_block, andb_false_r in Hb.
  assert (Hb1 : blocks s1 = blocks s) by (by destruct (currentBlock s)).
  eapply runs_conseq.
  { apply (setupBlock_closes (length (heap s)) s1 v st top).
    - rewrite Hh. apply lookup_snoc.
    - by rewrite Hs1.
    - by rewrite Hc1.
    - intros p Hp. rewrite Hb1. apply Hex. rewrite Hst.
      apply in_or_app. left. by apply stack_top_In. }
  intros r s' (-> & Hs & Hc & He & Hh' & Hb' & Hctx' & _).
  rewrite He1, Hb1 in *.
  repeat split; try done.
  - exists (set_dynamicChildren
              (if 0 <? isBlockTreeEnabled s then
                 match top with Some a => DCBlock a | None => DCEmptyArr end
               else DCNull) v).
    rewrite Hh', Hh, insert_snoc. by repeat split.
  - destruct Hctx as (? & ? & ? & ?), Hctx' as (? & ? & ? & ?). congruence.
  - destruct Hctx as (? & ? & ? & ?), Hctx' as (? & ? & ? & ?). congruence.
  - destruct Hctx as (? & ? & ? & ?), Hctx' as (? & ? & ? & ?). congruence.
  - destruct Hctx as (? & ? & ? & ?), Hctx' as (? & ? & ? & ?). congruence.
Qed.

(** [createBlock] closes the block in the state [createVNode] leaves. *)
Lemma createBlock_closes fuel type props children patchFlag dynamicProps
    s l s1 st top :
  createVNode fuel (mkArgs type props children patchFlag dynamicProps true) s
    = Some (l, s1) ->
  blockStack s1 = st ++ [top] ->
  (forall p, stack_top st = Some p -> (p < length (blocks s1))%nat) ->
  runs (createBlock fuel type props children patchFlag dynamicProps) s
    (fun r s' =>
       r = l /\ blockStack s' = st /\ currentBlock s' = stack_top st /\
       isBlockTreeEnabled s' = isBlockTreeEnabled s1 /\
       (exists v v', heap s1 !! l = Some v /\
          heap s' = <[l := v']> (heap s1) /\
          dynamicChildren v' =
            if 0 <? isBlockTreeEnabled s1 then
              match currentBlock s1 with
              | Some a => DCBlock a
              | None => DCEmptyArr
              end
            else DCNull) /\
       blocks s' =
         match stack_top st with
         | Some p => if 0 <? isBlockTreeEnabled s1
                     then push_elem p l (blocks s1) else blocks s1
         | None => blocks s1
         end /\
       same_context s1 s').
Proof.
  intros Hrun Hst Hp.
  destruct (ensures_elim _ _ _ _ _ (createVNode_returns fuel _ s) Hrun)
    as [v Hv].
  unfold createBlock. apply runs_bind. unfold runs at 1. rewrite Hrun.
  apply (setupBlock_runs l s1 v); [done| |].
  { by rewrite Hst, removelast_snoc. }
  cbn zeta. unfold closeBlock.
  cbn [blockStack with_heap with_stack currentBlock isBlockTreeEnabled blocks].
  rewrite Hst, removelast_snoc.
  destruct (stack_top st) as [p|]; [destruct (0 <? isBlockTreeEnabled s1)|];
    (split; [done|]); (split; [done|]); (split; [done|]); (split; [done|]);
    (split; [by eexists v, _|]); by repeat split.
Qed.

(** [createBlock] with plain arguments, in a state without a transformer. *)
Lemma createBlock_runs fuel type props children patchFlag dynamicProps
    s st top :
  plain_args (mkArgs type props children patchFlag dynamicProps true) = true ->
  vnodeArgsTransformer s = None ->
  blockStack s = st ++ [top] ->
  currentBlock s = top ->
  (forall a, In (Some a) (blockStack s) -> (a < length (blocks s))%nat) ->
  runs (createBlock fuel type props children patchFlag dynamicProps) s
    (fun root s' =>
       root = length (heap s) /\
       blockStack s' = st /\
       currentBlock s' = stack_top st /\
       isBlockTreeEnabled s' = isBlockTreeEnabled s /\
       (exists v, heap s' = heap s ++ [v] /\
          dynamicChildren v =
            if 0 <? isBlockTreeEnabled s then
              match top with
              | Some a => DCBlock a
              | None => DCEmptyArr
              end
            else DCNull) /\
       blocks s' =
         match stack_top st with
         | Some p => if 0 <? isBlockTreeEnabled s
                     then push_elem p root (blocks s) else blocks s
         | None => blocks s
         end /\
       same_context s s').
Proof.
  intros Hplain Hnone Hst Hcur Hex.
  assert (Hcur' : forall a, currentBlock s = Some a ->
                            (a < length (blocks s))%nat).
  { intros a Ha. apply Hex. rewrite Hst. apply in_or_app. right. left.
    congruence. }
  pose proof (runs_createVNode fuel _ s _ Hnone
                (createVNode_plain fuel
                   (mkArgs type props children patchFlag dynamicProps true) s
                   Hplain Hcur')) as Hcreate.
  unfold runs in Hcreate.
  destruct (createVNode fuel _ s) as [[l s1]|] eqn:Hrun; [|by destruct Hcreate].
  destruct Hcreate as (-> & v & Hh & _ & _ & _ & _ & (Hs1 & Hc1 & He1) & Hctx & Hb & _).
  cbn [a_isBlockNode] in Hb. rewrite is_dynamic_block, andb_false_r in Hb.
  assert (Hb1 : blocks s1 = blocks s) by (by destruct (currentBlock s)).
  eapply runs_conseq.
  { apply (createBlock_closes fuel type props children patchFlag dynamicProps
             s (length (heap s)) s1 st top); [done|by rewrite Hs1|].
    intros p Hp. rewrite Hb1. apply Hex. rewrite Hst.
    apply in_or_app. left. by apply stack_top_In. }
  intros r s' (-> & Hs & Hc & He & (v0 & v' & Hv0 & Hh' & Hd) & Hb' & Hctx').
  rewrite He1, Hb1, Hc1, Hcur in *.
  split; [done|]. split; [done|]. split; [done|]. split; [done|].
  split; [|split; [done|]].
  - exists v'. by rewrite Hh', Hh, insert_snoc.
  - destruct Hctx as (? & ? & ? & ?), Hctx' as (? & ? & ? & ?).
    repeat split; congruence.
Qed.

(** Induction on a construction, with the property known of the content of
    a block. *)
Lemma Step_induction (P : Step -> Prop) :
  (forall type props children patchFlag dynamicProps shapeFlag,
     P (Element type props children patchFlag dynamicProps shapeFlag)) ->
  (forall value, P (Tracking value)) ->
  (forall dt content type props children patchFlag dynamicProps shapeFlag,
     Forall P content ->
     P (BlockOf dt content type props children patchFlag dynamicProps
          shapeFlag)) ->
  (forall args, P (Node args)) ->
  (forall dt content type props children patchFlag dynamicProps,
     Forall P content ->
     P (NodeBlockOf dt content type props children patchFlag dynamicProps)) ->
  forall step, P step.
Proof.
  intros HE HT HB HN HNB. fix IH 1.
  intros [ty pr ch pf dp sf | value | dt content ty pr ch pf dp sf
          | args | dt content ty pr ch pf dp].
  - apply HE.
  - apply HT.
  - apply HB. induction content as [|x l IHl]; constructor; [apply IH|exact IHl].
  - apply HN.
  - apply HNB. induction content as [|x l IHl]; constructor; [apply IH|exact IHl].
Qed.

Lemma run_step_balanced fuel step :
  forall s,
  plain_step step = true ->
  vnodeArgsTransformer s = None ->
  current_is_top s -> lists_exist s ->
  runs (run_step fuel step) s
    (fun _ s' =>
       blockStack s' = blockStack s /\ currentBlock s' = currentBlock s /\
       lists_exist s' /\ (length (blocks s) <= length (blocks s'))%nat /\
       vnodeArgsTransformer s' = None).
Proof.
  assert (forall content, (forall x s1,
      In x content -> plain_step x = true -> vnodeArgsTransformer s1 = None ->
      current_is_top s1 -> lists_exist s1 ->
      runs (run_step fuel x) s1
        (fun _ s' =>
           blockStack s' = blockStack s1 /\ currentBlock s' = currentBlock s1 /\
           lists_exist s' /\ (length (blocks s1) <= length (blocks s'))%nat /\
           vnodeArgsTransformer s' = None)) ->
    forallb plain_step content = true ->
    forall s1, vnodeArgsTransformer s1 = None ->
      current_is_top s1 -> lists_exist s1 ->
      runs ((fix run_all (l : list Step) : M unit :=
               match l with
               | [] => ret tt
               | x :: l' => bind (run_step fuel x) (fun _ => run_all l')
               end) content) s1
        (fun _ s' =>
           blockStack s' = blockStack s1 /\ currentBlock s' = currentBlock s1 /\
           lists_exist s' /\ (length (blocks s1) <= length (blocks s'))%nat /\
           vnodeArgsTransformer s' = None)) as Hcontent.
  { induction content as [|x l IHl]; intros Hx Hpl s1 Hn1 Htop1 Hex1.
    - by apply runs_ret.
    - cbn in Hpl. apply andb_prop in Hpl as [Hpx Hpl].
      apply runs_bind.
      eapply runs_conseq; [apply Hx; [by left|done..]|].
      intros _ s2 (Hs2 & Hc2 & Hex2 & Hlen2 & Hn2).
      eapply runs_conseq.
      { apply IHl; [|done|exact Hn2| |exact Hex2].
        - intros y s3 Hy. apply Hx. by right.
        - unfold current_is_top. rewrite Hs2, Hc2. exact Htop1. }
      intros _ s3 (Hs3 & Hc3 & Hex3 & Hlen3 & Hn3).
      split; [congruence|]. split; [congruence|]. split; [done|].
      split; [lia|done]. }
  induction step as [ty pr ch pf dp sf | value | dt content ty pr ch pf dp sf IH
                     | args | dt content ty pr ch pf dp IH]
    using Step_induction; intros s Hplain Hnone Htop Hex.
  - clear Hcontent. cbn [run_step]. apply runs_bind.
    apply lists_exist_iff in Hex.
    eapply runs_conseq; [apply createBaseVNode_fast, Hex|].
    intros l s' (_ & v & _ & _ & _ & _ & _ & _ & _ & (Hs & Hc & He) & Hctx & Hb & _).
    apply runs_ret.
    assert (length (blocks s') = length (blocks s)) as Hlen.
    { rewrite Hb. destruct (currentBlock s); [|done].
      destruct (_ && _)%bool; [apply push_elem_length|done]. }
    destruct Hex as [Hex1 Hex2].
    split; [done|]. split; [done|]. split; [|split; [lia|]].
    + apply lists_exist_iff. split.
      * intros a. rewrite Hs, Hlen. apply Hex1.
      * intros a. rewrite Hc, Hlen. apply Hex2.
    + destruct Hctx as (Ht & _). by rewrite Ht.
  - clear Hcontent. cbn [run_step]. unfold runs. cbn.
    split; [done|]. split; [done|]. split; [exact Hex|done].
  - cbn [run_step]. cbn [plain_step] in Hplain.
    destruct (openBlock_keeps dt s Htop Hex) as (Htop0 & Hex0 & Hst0 & Hlen0 & Hen0 & _).
    apply runs_bind. apply (runs_pure (openBlock dt)).
    assert (Hn0 : vnodeArgsTransformer (openBlock dt s) = None)
      by (by destruct dt).
    set (s0 := openBlock dt s) in *.
    apply runs_bind.
    eapply runs_conseq.
    { apply Hcontent; [|exact Hplain|exact Hn0|exact Htop0|exact Hex0].
      intros x s1 Hx. apply list_elem_of_In in Hx.
      exact (proj1 (Forall_forall _ _) IH x Hx s1). }
    clear IH Hcontent.
    intros _ s1 (Hs1 & Hc1 & Hex1 & Hlen1 & Hn1).
    apply runs_bind.
    eapply runs_conseq.
    { apply (createElementBlock_runs fuel ty pr ch pf dp sf s1 (blockStack s)
                                     (currentBlock s0)).
      - by rewrite Hs1.
      - done.
      - by apply lists_exist_iff in Hex1 as [? ?]. }
    intros root s' (_ & Hs' & Hc' & He' & _ & Hb' & Hctx').
    apply runs_ret.
    assert (length (blocks s') = length (blocks s1)) as Hlen'.
    { rewrite Hb'. destruct (stack_top (blockStack s)); [|done].
      destruct (0 <? _); [apply push_elem_length|done]. }
    apply lists_exist_iff in Hex as [HexA HexB].
    split; [done|]. split; [by rewrite Hc'|]. split; [|split; [lia|]].
    + apply lists_exist_iff. split.
      * intros a Ha. rewrite Hs' in Ha. apply HexA in Ha. lia.
      * intros a Ha. rewrite Hc', <- Htop in Ha. apply HexB in Ha. lia.
    + destruct Hctx' as (Ht & _). by rewrite Ht.
  - clear Hcontent. cbn [run_step]. cbn [plain_step] in Hplain.
    apply runs_bind. apply lists_exist_iff in Hex.
    apply runs_createVNode; [done|].
    eapply runs_conseq; [apply createVNode_plain; [exact Hplain|apply Hex]|].
    intros l s' (_ & v & _ & _ & _ & _ & _ & (Hs & Hc & He) & Hctx & Hb & _).
    apply runs_ret.
    assert (length (blocks s') = length (blocks s)) as Hlen.
    { rewrite Hb. destruct (currentBlock s); [|done].
      destruct (_ && _)%bool; [apply push_elem_length|done]. }
    destruct Hex as [Hex1 Hex2].
    split; [done|]. split; [done|]. split; [|split; [lia|]].
    + apply lists_exist_iff. split.
      * intros a. rewrite Hs, Hlen. apply Hex1.
      * intros a. rewrite Hc, Hlen. apply Hex2.
    + destruct Hctx as (Ht & _). by rewrite Ht.
  - cbn [run_step]. cbn [plain_step] in Hplain.
    apply andb_prop in Hplain as [Hplain Hargs].
    destruct (openBlock_keeps dt s Htop Hex) as (Htop0 & Hex0 & Hst0 & Hlen0 & Hen0 & _).
    apply runs_bind. apply (runs_pure (openBlock dt)).
    assert (Hn0 : vnodeArgsTransformer (openBlock dt s) = None)
      by (by destruct dt).
    set (s0 := openBlock dt s) in *.
    apply runs_bind.
    eapply runs_conseq.
    { apply Hcontent; [|exact Hplain|exact Hn0|exact Htop0|exact Hex0].
      intros x s1 Hx. apply list_elem_of_In in Hx.
      exact (proj1 (Forall_forall _ _) IH x Hx s1). }
    clear IH Hcontent.
    intros _ s1 (Hs1 & Hc1 & Hex1 & Hlen1 & Hn1).
    apply runs_bind.
    eapply runs_conseq.
    { apply (createBlock_runs fuel ty pr ch pf dp s1 (blockStack s)
                              (currentBlock s0)).
      - done.
      - done.
      - by rewrite Hs1.
      - done.
      - by apply lists_exist_iff in Hex1 as [? ?]. }
    intros root s' (_ & Hs' & Hc' & He' & _ & Hb' & Hctx').
    apply runs_ret.
    assert (length (blocks s') = length (blocks s1)) as Hlen'.
    { rewrite Hb'. destruct (stack_top (blockStack s)); [|done].
      destruct (0 <? _); [apply push_elem_length|done]. }
    apply lists_exist_iff in Hex as [HexA HexB].
    split; [done|]. split; [by rewrite Hc'|]. split; [|split; [lia|]].
    + apply lists_exist_iff. split.
      * intros a Ha. rewrite Hs' in Ha. apply HexA in Ha. lia.
      * intros a Ha. rewrite Hc', <- Htop in Ha. apply HexB in Ha. lia.
    + destruct Hctx' as (Ht & _). by rewrite Ht.
Qed.


(** C9: the block stack is balanced.  [openBlock] pushes one frame, which
    becomes the current list; [setupBlock] pops one, and so do the two
    constructors of a block root that end in it: [createElementBlock], and
    [createBlock] in whatever state its [createVNode] call leaves, which for
    plain arguments is the state of the call.  Hence every block-structured
    construction, nested to any depth and with roots built by either
    constructor, leaves the stack and the current collecting list as it found
    them. *)
Theorem C9_block_stack_balance :
  (forall dt s,
     blockStack (openBlock dt s)
       = blockStack s ++ [currentBlock (openBlock dt s)]) /\
  (forall vnode s v st top,
     heap s !! vnode = Some v ->
     blockStack s = st ++ [top] ->
     exists_in (blocks s) (stack_top st) = true ->
     runs (setupBlock vnode) s
       (fun _ s' => blockStack s' = st /\ currentBlock s' = stack_top st)) /\
  (forall fuel type props children patchFlag dynamicProps shapeFlag s st top,
     blockStack s = st ++ [top] ->
     currentBlock s = top ->
     forallb (exists_in (blocks s)) (blockStack s) = true ->
     runs (createElementBlock fuel type props children patchFlag dynamicProps
             shapeFlag) s
       (fun _ s' => blockStack s' = st /\ currentBlock s' = stack_top st)) /\
  (forall fuel type props children patchFlag dynamicProps s l s1 st top,
     createVNode fuel
       (mkArgs type props children patchFlag dynamicProps true) s
       = Some (l, s1) ->
     blockStack s1 = st ++ [top] ->
     exists_in (blocks s1) (stack_top st) = true ->
     runs (createBlock fuel type props children patchFlag dynamicProps) s
       (fun root s' =>
          root = l /\ blockStack s' = st /\ currentBlock s' = stack_top st)) /\
  (forall fuel type props children patchFlag dynamicProps s st top,
     plain_args (mkArgs type props children patchFlag dynamicProps true)
       = true ->
     vnodeArgsTransformer s = None ->
     blockStack s = st ++ [top] ->
     currentBlock s = top ->
     forallb (exists_in (blocks s)) (blockStack s) = true ->
     runs (createBlock fuel type props children patchFlag dynamicProps) s
       (fun _ s' => blockStack s' = st /\ currentBlock s' = stack_top st)) /\
  (forall fuel step s,
     plain_step step = true ->
     vnodeArgsTransformer s = None ->
     current_is_top s -> lists_exist s ->
     runs (run_step fuel step) s
       (fun _ s' =>
          blockStack s' = blockStack s /\ currentBlock s' = currentBlock s /\
          current_is_top s' /\ lists_exist s')).
Proof.
  split; [|split; [|split; [|split; [|split]]]].
  - intros [] s; done.
  - intros vnode s v st top Hv Hst Hp.
    pose proof (proj1 (exists_in_spec _ _) Hp) as Hp'.
    apply (setupBlock_runs vnode s v); [done| |].
    + by rewrite Hst, removelast_snoc.
    + cbn zeta. unfold closeBlock.
      cbn [blockStack with_heap with_stack currentBlock isBlockTreeEnabled blocks].
      rewrite Hst, removelast_snoc.
      destruct (stack_top st); [destruct (0 <? _)|]; done.
  - intros fuel type props children patchFlag dynamicProps shapeFlag s st top
           Hst Hcur Hex.
    pose proof (proj1 (forallb_exists_in _ _) Hex) as Hex'.
    eapply runs_conseq; [by apply createElementBlock_runs|].
    intros root s' (_ & Hs & Hc & _). done.
  - intros fuel type props children patchFlag dynamicProps s l s1 st top
           Hrun Hst Hp.
    pose proof (proj1 (exists_in_spec _ _) Hp) as Hp'.
    eapply runs_conseq; [by eapply createBlock_closes|].
    intros root s' (-> & Hs & Hc & _). done.
  - intros fuel type props children patchFlag dynamicProps s st top
           Hplain Hnone Hst Hcur Hex.
    pose proof (proj1 (forallb_exists_in _ _) Hex) as Hex'.
    eapply runs_conseq; [by apply createBlock_runs|].
    intros root s' (_ & Hs & Hc & _). done.
  - intros fuel step s Hplain Hnone Htop Hex.
    eapply runs_conseq; [by apply run_step_balanced|].
    intros _ s' (Hs & Hc & Hex' & _).
    split; [done|]. split; [done|]. split; [|done].
    unfold current_is_top. by rewrite Hs, Hc.
Qed.

(** ** Registration of dynamic nodes *)

Lemma push_elem_snoc bs b l :
  push_elem (length bs) l (bs ++ [b])
    = bs ++ [mkBlock (elems b ++ [l]) (minus_one b)].
Proof. unfold push_elem. by rewrite lookup_snoc, insert_snoc. Qed.

Lemma is_dynamic_positive isBlockNode v :
  isBlockNode = false -> 0 < patchFlag v -> patchFlag v <> HYDRATE_EVENTS ->
  is_dynamic isBlockNode v = true.
Proof.
  intros -> Hp Hh. unfold is_dynamic. cbn.
  destruct (Z.ltb_spec 0 (patchFlag v)); [|lia].
  destruct (Z.eqb_spec (patchFlag v) HYDRATE_EVENTS); done.
Qed.

Lemma is_dynamic_static isBlockNode v :
  patchFlag v = 0 -> Z.land (shapeFlag v) ShapeFlags.COMPONENT = 0 ->
  is_dynamic isBlockNode v = false.
Proof.
  intros Hp Hs. unfold is_dynamic. rewrite Hp, Hs. cbn.
  by rewrite andb_false_r.
Qed.

Lemma default_shape_not_component type :
  Z.land (if strict_eq type Fragment then 0 else ShapeFlags.ELEMENT)
         ShapeFlags.COMPONENT = 0.
Proof. by destruct (strict_eq _ _). Qed.

(** C1: registration of dynamic nodes.  While tracking is enabled and a list
    is being collected, a vnode built by [createBaseVNode] is appended to that
    list exactly when it is not a block node, has a positive patch flag or a
    component shape flag, and its patch flag is not [HYDRATE_EVENTS]; no other
    list changes.  This holds on the compiled-template path (first part) and
    on the path of [_createVNode], with full normalisation of the children:
    in general with respect to the state in which the test is made, which is
    the one the same call leaves as a block node, the flag that only the test
    reads (third part); and with respect to the state of the call when the
    children settle without foreign code (fourth part), so that the vnode of a
    component built by [_createVNode] is registered whatever its patch flag,
    [HYDRATE_EVENTS] apart (fifth part).  Hence a block whose content is
    three element vnodes with patch flags [TEXT], [0] and [CLASS] ends with
    the first and the third, in that order, as its root's [dynamicChildren]
    (second part). *)
Theorem C1_dynamic_nodes_are_tracked :
  (forall fuel type props children patchFlag dynamicProps shapeFlag
          isBlockNode s a b,
     0 < isBlockTreeEnabled s ->
     currentBlock s = Some a ->
     blocks s !! a = Some b ->
     runs (createBaseVNode fuel type props children patchFlag dynamicProps
             shapeFlag isBlockNode false) s
       (fun l s' =>
          l = length (heap s) /\
          exists v,
            heap s' !! l = Some v /\
            VNode.patchFlag v = patchFlag /\
            blocks s' !! a =
              Some (if is_dynamic isBlockNode v
                    then mkBlock (elems b ++ [l]) (minus_one b) else b) /\
            forall a', a' <> a -> blocks s' !! a' = blocks s !! a')) /\
  (forall fuel t1 p1 c1 d1 sf1 t2 p2 c2 d2 t3 p3 c3 d3 sf3
          type props children patchFlag dynamicProps shapeFlag s,
     0 < isBlockTreeEnabled s ->
     lists_exist s ->
     0 < TEXT -> TEXT <> HYDRATE_EVENTS ->
     0 < CLASS -> CLASS <> HYDRATE_EVENTS ->
     runs
       (bind (fun s => Some (tt, openBlock false s)) (fun _ =>
        bind (createBaseVNode fuel t1 p1 c1 TEXT d1 sf1 false false) (fun n1 =>
        bind (createBaseVNode fuel t2 p2 c2 0 d2 None false false) (fun n2 =>
        bind (createBaseVNode fuel t3 p3 c3 CLASS d3 sf3 false false) (fun n3 =>
        bind (createElementBlock fuel type props children patchFlag
                dynamicProps shapeFlag) (fun root =>
        ret (n1, n2, n3, root))))))) s
       (fun r s' =>
          let '(n1, n2, n3, root) := r in
          n1 = length (heap s) /\ n2 = S n1 /\ n3 = S n2 /\ root = S n3 /\
          exists v a,
            heap s' !! root = Some v /\
            dynamicChildren v = DCBlock a /\
            blocks s' !! a = Some (mkBlock [n1; n3] None))) /\
  (forall fuel type props children patchFlag dynamicProps shapeFlag
          isBlockNode needFullChildrenNormalization s l s1 a b,
     createBaseVNode fuel type props children patchFlag dynamicProps shapeFlag
       true needFullChildrenNormalization s = Some (l, s1) ->
     0 < isBlockTreeEnabled s1 ->
     currentBlock s1 = Some a ->
     blocks s1 !! a = Some b ->
     exists v,
       heap s1 !! l = Some v /\
       runs (createBaseVNode fuel type props children patchFlag dynamicProps
               shapeFlag isBlockNode needFullChildrenNormalization) s
         (fun l' s' =>
            l' = l /\ heap s' = heap s1 /\
            blocks s' !! a =
              Some (if is_dynamic isBlockNode
                         (set_shapeFlag
                            (match shapeFlag with
                             | Some f => f
                             | None => if strict_eq type Fragment then 0
                                       else ShapeFlags.ELEMENT
                             end) v)
                    then mkBlock (elems b ++ [l]) (minus_one b) else b) /\
            forall a', a' <> a -> blocks s' !! a' = blocks s1 !! a')) /\
  (forall fuel type props children patchFlag dynamicProps shapeFlag
          isBlockNode s a b,
     0 < isBlockTreeEnabled s ->
     currentBlock s = Some a ->
     blocks s !! a = Some b ->
     settles_children
       (match shapeFlag with
        | Some f => f
        | None => if strict_eq type Fragment then 0 else ShapeFlags.ELEMENT
        end) (default_null children) = true ->
     runs (createBaseVNode fuel type props children patchFlag dynamicProps
             shapeFlag isBlockNode true) s
       (fun l s' =>
          l = length (heap s) /\
          exists v,
            heap s' !! l = Some v /\
            (VNode.patchFlag v = patchFlag \/
             VNode.patchFlag v = bit_or patchFlag DYNAMIC_SLOTS) /\
            blocks s' !! a =
              Some (if is_dynamic isBlockNode v
                    then mkBlock (elems b ++ [l]) (minus_one b) else b) /\
            forall a', a' <> a -> blocks s' !! a' = blocks s !! a')) /\
  (forall fuel args s a b,
     0 < isBlockTreeEnabled s ->
     currentBlock s = Some a ->
     blocks s !! a = Some b ->
     plain_args args = true ->
     runs (_createVNode fuel args) s
       (fun l s' =>
          l = length (heap s) /\
          exists v,
            heap s' !! l = Some v /\
            Z.land (VNode.shapeFlag v) ShapeFlags.COMPONENT =
              Z.land (shape_of (resolve_type (a_type args)))
                     ShapeFlags.COMPONENT /\
            (VNode.patchFlag v = a_patchFlag args \/
             VNode.patchFlag v = bit_or (a_patchFlag args) DYNAMIC_SLOTS) /\
            blocks s' !! a =
              Some (if is_dynamic (a_isBlockNode args) v
                    then mkBlock (elems b ++ [l]) (minus_one b) else b) /\
            forall a', a' <> a -> blocks s' !! a' = blocks s !! a')).
Proof.
  split; [|split; [|split; [|split]]].
  5:{ intros fuel args s a b Hen Hcur Hb Hplain.
      eapply runs_conseq.
      { apply createVNode_plain; [done|]. intros a' Ha'.
        rewrite Hcur in Ha'. injection Ha' as <-. by eapply lookup_lt_Some. }
      intros l s' (-> & v & Hh & Hp & _ & _ & _ & _ & _ & Hbl & Hsf).
      split; [done|]. exists v.
      rewrite Hcur in Hbl.
      destruct (Z.ltb_spec 0 (isBlockTreeEnabled s)) as [_|]; [|lia].
      cbn [andb] in Hbl.
      split; [by rewrite Hh, lookup_snoc|]. split; [done|]. split; [done|].
      rewrite Hbl.
      destruct (is_dynamic (a_isBlockNode args) v); [|done].
      split; [by apply push_elem_lookup|].
      intros a' Ha'. by apply push_elem_lookup_ne. }
  4:{ intros fuel type props children patchFlag dynamicProps shapeFlag
             isBlockNode s a b Hen Hcur Hb Hset.
      eapply runs_conseq.
      { apply createBaseVNode_full; [done|]. intros a' Ha'.
        rewrite Hcur in Ha'. injection Ha' as <-. by eapply lookup_lt_Some. }
      intros l s' (-> & v & Hh & _ & _ & Hp & _ & _ & _ & _ & _ & Hbl & _).
      split; [done|]. exists v.
      rewrite Hcur in Hbl.
      destruct (Z.ltb_spec 0 (isBlockTreeEnabled s)) as [_|]; [|lia].
      cbn [andb] in Hbl.
      split; [by rewrite Hh, lookup_snoc|]. split; [done|].
      rewrite Hbl.
      destruct (is_dynamic isBlockNode v); [|done].
      split; [by apply push_elem_lookup|].
      intros a' Ha'. by apply push_elem_lookup_ne. }
  3:{ intros fuel type props children patchFlag dynamicProps shapeFlag
             isBlockNode needFull s l s1 a b Hrun Hen Hcur Hb.
      destruct (createBaseVNode_split fuel type props children patchFlag
                  dynamicProps shapeFlag isBlockNode needFull s l s1 Hrun)
        as [[v Hv] Heq].
      exists v. split; [done|].
      unfold runs. rewrite Heq. unfold bind.
      rewrite (track_vnode_eq _ _ _ _ v Hv).
      2:{ rewrite Hcur. cbn. apply Nat.ltb_lt. by eapply lookup_lt_Some. }
      rewrite Hcur.
      destruct (Z.ltb_spec 0 (isBlockTreeEnabled s1)) as [_|]; [|lia].
      cbn [andb ret].
      destruct (is_dynamic isBlockNode _); cbn [heap blocks with_blocks].
      - split; [done|]. split; [done|].
        split; [by apply push_elem_lookup|].
        intros a' Ha'. by apply push_elem_lookup_ne.
      - done. }
  - intros fuel type props children patchFlag dynamicProps shapeFlag
           isBlockNode s a b Hen Hcur Hb.
    eapply runs_conseq.
    { apply createBaseVNode_fast. intros a' Ha'.
      rewrite Hcur in Ha'. injection Ha' as <-. by eapply lookup_lt_Some. }
    intros l s' (-> & v & Hh & _ & _ & Hp & _ & _ & _ & _ & _ & Hbl & _).
    split; [done|]. exists v.
    rewrite Hcur in Hbl.
    destruct (Z.ltb_spec 0 (isBlockTreeEnabled s)) as [_|]; [|lia].
    cbn [andb] in Hbl.
    split; [by rewrite Hh, lookup_snoc|]. split; [done|].
    rewrite Hbl.
    destruct (is_dynamic isBlockNode v).
    + split; [by apply push_elem_lookup|].
      intros a' Ha'. by apply push_elem_lookup_ne.
    + done.
  - intros fuel t1 p1 c1 d1 sf1 t2 p2 c2 d2 t3 p3 c3 d3 sf3
           type props children patchFlag dynamicProps shapeFlag s
           Hen Hex HT1 HT2 HC1 HC2.
    apply lists_exist_iff in Hex as [Hex1 Hex2].
    apply runs_bind. apply (runs_pure (openBlock false)).
    set (a := length (blocks s)).
    set (s0 := openBlock false s).
    assert (Hs0 : blockStack s0 = blockStack s ++ [Some a]) by done.
    assert (Hc0 : currentBlock s0 = Some a) by done.
    assert (He0 : isBlockTreeEnabled s0 = isBlockTreeEnabled s) by done.
    assert (Hb0 : blocks s0 = blocks s ++ [mkBlock [] None]) by done.
    assert (Hh0 : heap s0 = heap s) by done.
    clearbody s0.
    destruct (Z.ltb_spec 0 (isBlockTreeEnabled s)) as [_|]; [|lia].
    (* first node *)
    apply runs_bind. eapply runs_conseq.
    { apply createBaseVNode_fast. intros a' Ha'. rewrite Hc0 in Ha'.
      injection Ha' as <-. rewrite Hb0, length_app. cbn. lia. }
    intros n1 s1 (-> & v1 & Hh1 & _ & _ & Hp1 & _ & _ & _ & (Hs1 & Hc1 & He1)
                  & _ & Hb1 & _).
    rewrite Hc0, He0, (is_dynamic_positive false v1) in Hb1
      by (rewrite ?Hp1; done).
    destruct (Z.ltb_spec 0 (isBlockTreeEnabled s)) as [_|]; [|lia].
    cbn [andb] in Hb1. rewrite Hb0 in Hb1. unfold a in Hb1.
    rewrite push_elem_snoc in Hb1. cbn [elems minus_one app] in Hb1.
    (* second node *)
    apply runs_bind. eapply runs_conseq.
    { apply createBaseVNode_fast. intros a' Ha'. rewrite Hc1, Hc0 in Ha'.
      injection Ha' as <-. rewrite Hb1, length_app. cbn. lia. }
    intros n2 s2 (-> & v2 & Hh2 & _ & _ & Hp2 & _ & _ & _ & (Hs2 & Hc2 & He2)
                  & _ & Hb2 & _ & Hsf2).
    rewrite default_shape_not_component in Hsf2.
    rewrite (is_dynamic_static false v2), andb_false_r in Hb2 by done.
    assert (Hb2' : blocks s2 = blocks s1) by (by destruct (currentBlock s1)).
    clear Hb2.
    (* third node *)
    apply runs_bind. eapply runs_conseq.
    { apply createBaseVNode_fast. intros a' Ha'. rewrite Hc2, Hc1, Hc0 in Ha'.
      injection Ha' as <-. rewrite Hb2', Hb1, length_app. cbn. lia. }
    intros n3 s3 (-> & v3 & Hh3 & _ & _ & Hp3 & _ & _ & _ & (Hs3 & Hc3 & He3)
                  & _ & Hb3 & _).
    rewrite Hc2, Hc1, Hc0, He2, He1, He0, (is_dynamic_positive false v3) in Hb3
      by (rewrite ?Hp3; done).
    destruct (Z.ltb_spec 0 (isBlockTreeEnabled s)) as [_|]; [|lia].
    cbn [andb] in Hb3. rewrite Hb2', Hb1 in Hb3. unfold a in Hb3.
    rewrite push_elem_snoc in Hb3. cbn [elems minus_one app] in Hb3.
    (* the block root *)
    apply runs_bind. eapply runs_conseq.
    { apply (createElementBlock_runs fuel type props children patchFlag
               dynamicProps shapeFlag s3 (blockStack s) (Some a)).
      - by rewrite Hs3, Hs2, Hs1.
      - by rewrite Hc3, Hc2, Hc1.
      - rewrite Hs3, Hs2, Hs1, Hs0, Hb3, length_app. cbn.
        intros a' [Ha'|[[= <-]|[]]]%in_app_or; [apply Hex1 in Ha'|]; unfold a; lia. }
    intros root s' (-> & Hs' & Hc' & He' & (v & Hh' & _ & _ & Hd) & Hb' & _).
    apply runs_ret.
    rewrite Hh3, Hh2, Hh1, Hh0, !length_app. cbn [length].
    repeat split; try lia.
    exists v, a. split; [|split].
    + rewrite Hh', Hh3, Hh2, Hh1, Hh0.
      replace (length (heap s) + 1 + 1 + 1)%nat
        with (length (((heap s ++ [v1]) ++ [v2]) ++ [v3]))
        by (rewrite !length_app; cbn; lia).
      apply lookup_snoc.
    + rewrite Hd, He3, He2, He1, He0.
      by destruct (Z.ltb_spec 0 (isBlockTreeEnabled s)) as [_|]; [|lia].
    + assert (blocks s3 !! a = Some (mkBlock [length (heap s0); length (heap s2)] None)) as Ha.
      { rewrite Hb3. apply lookup_snoc. }
      rewrite Hh0, Hh2, Hh1, Hh0, !length_app in Ha. cbn [length] in Ha.
      replace (S (S (length (heap s)))) with (length (heap s) + 1 + 1)%nat by lia.
      rewrite Hb'.
      destruct (stack_top (blockStack s)) as [p|] eqn:Hp; [|done].
      destruct (0 <? isBlockTreeEnabled s3); [|done].
      rewrite push_elem_lookup_ne; [done|].
      apply stack_top_In, Hex1 in Hp. unfold a. lia.
Qed.

End Facts.
End VNodeFacts.

(* ===================================================================== *)
(** * Cloning *)
(* ===================================================================== *)

Module CloneFacts.
Import Js Shared VNode Spec Rules VNodeFacts.
Section Facts.
Context {PF : PatchFlags} {SF : SlotFlags} {E : Externals}.

Lemma ensures_fresh_id s (Q : nat -> State -> Prop) :
  Q (next_id s) (with_next_id s (S (next_id s))) -> ensures fresh_id s Q.
Proof. intros. by apply ensures_of_runs, runs_fresh_id. Qed.

Lemma ensures_alloc {A} (m : Alloc A) s (Q : A -> State -> Prop) :
  (forall a n, m (next_id s) = (a, n) -> Q a (with_next_id s n)) ->
  ensures (alloc m) s Q.
Proof.
  intros HQ. apply ensures_of_runs, runs_alloc.
  apply HQ. by destruct (m (next_id s)).
Qed.

Lemma normalizeRef_allocates p s :
  runs (normalizeRef p) s (fun _ s' => only_allocates s s').
Proof. apply normalizeRef_runs. intros _ n. apply only_allocates_next_id. Qed.

Lemma ensures_map_vnodes (f : loc -> M loc) items s :
  (forall l s1, ensures (f l) s1 (fun _ s2 => only_allocates s1 s2)) ->
  ensures (map_vnodes f items) s (fun _ s' => only_allocates s s').
Proof.
  intros Hf. revert s. induction items as [|x items IH]; intros s.
  - apply ensures_ret, only_allocates_refl.
  - cbn [map_vnodes]. destruct x; try apply ensures_fail.
    apply ensures_bind. eapply ensures_conseq; [apply Hf|].
    intros l' s1 H1. apply ensures_bind.
    eapply ensures_conseq; [apply IH|].
    intros r s2 H2. apply ensures_ret.
    exact (only_allocates_trans _ _ _ H1 H2).
Qed.

Lemma merged_props_stage v extraProps s :
  ensures
    (if truthy extraProps then
       bind (if truthy (props v) then ret (props v)
             else bind fresh_id (fun id => ret (VObj id [])))
            (fun base => alloc (mergeProps [base; extraProps]))
     else ret (props v)) s
    (fun mp s' => only_allocates s s' /\
                  (truthy extraProps = false -> mp = props v)).
Proof.
  destruct (truthy extraProps).
  - apply ensures_bind.
    assert (ensures (if truthy (props v) then ret (props v)
                     else bind fresh_id (fun id => ret (VObj id []))) s
              (fun _ s' => only_allocates s s')) as Hbase.
    { destruct (truthy (props v)).
      - apply ensures_ret, only_allocates_refl.
      - apply ensures_bind, ensures_fresh_id, ensures_ret,
          only_allocates_next_id. }
    eapply ensures_conseq; [exact Hbase|].
    intros base s1 H1. apply ensures_alloc. intros a n _.
    split; [|done]. eapply only_allocates_trans; [exact H1|].
    apply only_allocates_next_id.
  - apply ensures_ret. split; [apply only_allocates_refl|done].
Qed.

Lemma merged_ref_stage v extraProps mergeRef s :
  ensures
    (if truthy (js_and extraProps (get extraProps "ref")) then
       if (mergeRef && truthy (ref v))%bool then
         bind (normalizeRef extraProps) (fun r =>
         bind fresh_id (fun id =>
         match ref v with
         | VArr _ items => ret (VArr id (items ++ concat_items r))
         | _ => ret (VArr id [ref v; r])
         end))
       else normalizeRef extraProps
     else ret (ref v)) s
    (fun r s' => only_allocates s s' /\
                 (truthy extraProps = false -> r = ref v)).
Proof.
  destruct (truthy extraProps) eqn:He.
  - assert (forall P : Prop, (false = false -> P) <-> P) as Hf by tauto.
    assert (forall (m : M Value),
      ensures m s (fun _ s' => only_allocates s s') ->
      ensures m s (fun r s' => only_allocates s s' /\ (true = false -> r = ref v)))
      as Hw.
    { intros m Hm. eapply ensures_conseq; [exact Hm|]. by intros. }
    apply Hw.
    destruct (truthy (js_and _ _)); [|apply ensures_ret, only_allocates_refl].
    destruct (_ && _)%bool; [|apply ensures_of_runs, normalizeRef_allocates].
    apply ensures_bind.
    eapply ensures_conseq; [apply ensures_of_runs, normalizeRef_allocates|].
    intros r s1 H1. apply ensures_bind, ensures_fresh_id.
    assert (only_allocates s (with_next_id s1 (S (next_id s1)))) as H2.
    { eapply only_allocates_trans; [exact H1|apply only_allocates_next_id]. }
    destruct (ref v); by apply ensures_ret.
  - unfold js_and. rewrite He, He. apply ensures_ret.
    split; [apply only_allocates_refl|done].
Qed.

Lemma children_stage (sub : list Value -> M Value) v s :
  (forall items, ensures (sub items) s (fun _ s' => only_allocates s s')) ->
  ensures
    (match children v with
     | VArr _ items =>
         if (__DEV__ && (patchFlag v =? HOISTED))%bool then sub items
         else ret (children v)
     | _ => ret (children v)
     end) s
    (fun c s' =>
       only_allocates s s' /\
       ((__DEV__ && (patchFlag v =? HOISTED) && isArray (children v))%bool = false ->
        c = children v)).
Proof.
  intros Hsub.
  destruct (children v) eqn:Hc;
    try (apply ensures_ret; split; [apply only_allocates_refl|done]).
  cbn [isArray]. rewrite andb_true_r.
  destruct (_ && _)%bool.
  - eapply ensures_conseq; [apply Hsub|]. by intros.
  - apply ensures_ret; split; [apply only_allocates_refl|done].
Qed.

Lemma suspense_stage (sub : loc -> M (option loc)) (o : option loc) s :
  (forall c, ensures (sub c) s (fun _ s' => only_allocates s s')) ->
  ensures (match o with Some c => sub c | None => ret None end) s
    (fun r s' => only_allocates s s' /\ (o = None -> r = None)).
Proof.
  intros Hsub. destruct o as [c|].
  - eapply ensures_conseq; [apply Hsub|]. by intros.
  - apply ensures_ret. split; [apply only_allocates_refl|done].
Qed.

Lemma lookup_last_new s v :
  heap (with_heap s (heap s ++ [v])) !! length (heap s) = Some v.
Proof. apply lookup_snoc. Qed.

(** What [cloneVNode] and [deepCloneVNode] do whenever they return. *)
Lemma clone_ensures fuel :
  (forall vnode extraProps mergeRef s,
     ensures (cloneVNode fuel vnode extraProps mergeRef) s
       (fun l' s' =>
          only_allocates s s' /\
          (length (heap s) <= l')%nat /\
          S l' = length (heap s') /\
          exists v v',
            heap s !! vnode = Some v /\
            heap s' !! l' = Some v' /\
            copied_fields v v' /\
            VNode.patchFlag v' =
              (if (truthy extraProps
                   && negb (strict_eq (VNode.type v) Fragment))%bool
               then if VNode.patchFlag v =? -1 then FULL_PROPS
                    else bit_or (VNode.patchFlag v) FULL_PROPS
               else VNode.patchFlag v) /\
            key v' = js_and (props v') (normalizeKey (props v')) /\
            memo v' = VUndef /\
            (truthy extraProps = false ->
               props v' = props v /\ VNode.ref v' = VNode.ref v) /\
            ((__DEV__ && (VNode.patchFlag v =? HOISTED) && isArray (children v))%bool
               = false -> children v' = children v) /\
            (ssContent v = None -> ssContent v' = None) /\
            (ssFallback v = None -> ssFallback v' = None))) /\
  (forall vnode s,
     ensures (deepCloneVNode fuel vnode) s
       (fun l' s' =>
          only_allocates s s' /\
          (length (heap s) <= l' < length (heap s'))%nat)).
Proof.
  assert (forall (subc : list Value -> M Value) (subs subf : loc -> M (option loc)),
    (forall items s, ensures (subc items) s (fun _ s' => only_allocates s s')) ->
    (forall c s, ensures (subs c) s (fun _ s' => only_allocates s s')) ->
    (forall c s, ensures (subf c) s (fun _ s' => only_allocates s s')) ->
    forall vnode extraProps mergeRef s,
     ensures
       (bind (read vnode) (fun v =>
        bind (if truthy extraProps then
                bind (if truthy (props v) then ret (props v)
                      else bind fresh_id (fun id => ret (VObj id [])))
                     (fun base => alloc (mergeProps [base; extraProps]))
              else ret (props v)) (fun mergedProps =>
        bind (if truthy (js_and extraProps (get extraProps "ref")) then
                if (mergeRef && truthy (ref v))%bool then
                  bind (normalizeRef extraProps) (fun r =>
                  bind fresh_id (fun id =>
                  match ref v with
                  | VArr _ items => ret (VArr id (items ++ concat_items r))
                  | _ => ret (VArr id [ref v; r])
                  end))
                else normalizeRef extraProps
              else ret (ref v)) (fun ref' =>
        bind (match children v with
              | VArr _ items =>
                  if (__DEV__ && (patchFlag v =? HOISTED))%bool then subc items
                  else ret (children v)
              | _ => ret (children v)
              end) (fun children' =>
        bind (match ssContent v with Some c => subs c | None => ret None end)
             (fun ssContent' =>
        bind (match ssFallback v with Some c => subf c | None => ret None end)
             (fun ssFallback' =>
        new_vnode
          {| type := VNode.type v;
             props := mergedProps;
             key := js_and mergedProps (normalizeKey mergedProps);
             ref := ref';
             scopeId := scopeId v;
             slotScopeIds := slotScopeIds v;
             children := children';
             target := target v;
             targetAnchor := targetAnchor v;
             staticCount := staticCount v;
             shapeFlag := shapeFlag v;
             patchFlag :=
               if (truthy extraProps
                   && negb (strict_eq (VNode.type v) Fragment))%bool
               then if patchFlag v =? -1 then FULL_PROPS
                    else bit_or (patchFlag v) FULL_PROPS
               else patchFlag v;
             dynamicProps := dynamicProps v;
             dynamicChildren := dynamicChildren v;
             appContext := appContext v;
             dirs := dirs v;
             transition := transition v;
             component := component v;
             suspense := suspense v;
             ssContent := ssContent';
             ssFallback := ssFallback';
             el := el v;
             anchor := anchor v;
             ctx := ctx v;
             ce := ce v;
             memo := VUndef;
             _ctx := VUndef |}))))))) s
       (fun l' s' =>
          only_allocates s s' /\
          (length (heap s) <= l')%nat /\
          S l' = length (heap s') /\
          exists v v',
            heap s !! vnode = Some v /\
            heap s' !! l' = Some v' /\
            copied_fields v v' /\
            VNode.patchFlag v' =
              (if (truthy extraProps
                   && negb (strict_eq (VNode.type v) Fragment))%bool
               then if VNode.patchFlag v =? -1 then FULL_PROPS
                    else bit_or (VNode.patchFlag v) FULL_PROPS
               else VNode.patchFlag v) /\
            key v' = js_and (props v') (normalizeKey (props v')) /\
            memo v' = VUndef /\
            (truthy extraProps = false ->
               props v' = props v /\ VNode.ref v' = VNode.ref v) /\
            ((__DEV__ && (VNode.patchFlag v =? HOISTED) && isArray (children v))%bool
               = false -> children v' = children v) /\
            (ssContent v = None -> ssContent v' = None) /\
            (ssFallback v = None -> ssFallback v' = None))) as Hbody.
  { intros subc subs subf Hsubc Hsubs Hsubf vnode extraProps mergeRef s.
    apply ensures_bind, ensures_read. intros v Hv.
    apply ensures_bind.
    eapply ensures_conseq; [apply merged_props_stage|].
    intros mp s1 [H1 Hmp]. apply ensures_bind.
    eapply ensures_conseq; [apply merged_ref_stage|].
    intros r s2 [H2 Hr]. apply ensures_bind.
    eapply ensures_conseq; [apply children_stage; intros; apply Hsubc|].
    intros c s3 [H3 Hc]. apply ensures_bind.
    eapply ensures_conseq; [apply suspense_stage; intros; apply Hsubs|].
    intros sc s4 [H4 Hsc]. apply ensures_bind.
    eapply ensures_conseq; [apply suspense_stage; intros; apply Hsubf|].
    intros sf s5 [H5 Hsf].
    apply ensures_of_runs, runs_new_vnode.
    pose proof (only_allocates_trans _ _ _ H1
                 (only_allocates_trans _ _ _ H2
                   (only_allocates_trans _ _ _ H3
                     (only_allocates_trans _ _ _ H4 H5)))) as H15.
    split; [|split; [|split]].
    - exact (only_allocates_trans _ _ _ H15 (only_allocates_new _ _)).
    - by apply only_allocates_length.
    - cbn [heap with_heap]. rewrite length_app. cbn. lia.
    - eexists v, _. split; [done|]. split; [apply lookup_last_new|].
      cbn. unfold copied_fields. cbn.
      repeat split; try done.
      + by apply Hmp.
      + by apply Hr. }
  induction fuel as [|fuel [IHc IHd]].
  - split; [|intros; apply ensures_fail].
    intros vnode extraProps mergeRef s.
    apply (Hbody (fun _ => fail) (fun _ => fail) (fun _ => fail));
      intros; apply ensures_fail.
  - split.
    + intros vnode extraProps mergeRef s.
      apply (Hbody
               (fun items => bind (map_vnodes (deepCloneVNode fuel) items)
                               (fun r => bind fresh_id (fun id => ret (VArr id r))))
               (fun c => bind (cloneVNode fuel c VUndef false)
                              (fun c' => ret (Some c')))
               (fun c => bind (cloneVNode fuel c VUndef false)
                              (fun c' => ret (Some c')))).
      * intros items s0. apply ensures_bind.
        eapply ensures_conseq.
        { apply ensures_map_vnodes. intros l s1.
          eapply ensures_conseq; [apply IHd|]. by intros ? ? [? ?]. }
        intros r s1 H1. apply ensures_bind, ensures_fresh_id, ensures_ret.
        exact (only_allocates_trans _ _ _ H1 (only_allocates_next_id _ _)).
      * intros c s0. apply ensures_bind.
        eapply ensures_conseq; [apply IHc|].
        intros c' s1 [H1 _]. by apply ensures_ret.
      * intros c s0. apply ensures_bind.
        eapply ensures_conseq; [apply IHc|].
        intros c' s1 [H1 _]. by apply ensures_ret.
    + intros vnode s. cbn [deepCloneVNode].
      apply ensures_bind.
      eapply ensures_conseq; [apply IHc|].
      intros cloned s1 (H1 & Hlo & Hhi & _).
      apply ensures_bind, ensures_read. intros v Hv.
      apply ensures_bind.
      assert (ensures
        (match children v with
         | VArr _ items =>
             bind (map_vnodes (deepCloneVNode fuel) items) (fun r =>
             bind fresh_id (fun id => modify cloned (set_children (VArr id r))))
         | _ => ret tt
         end) s1
        (fun _ s' => (length (heap s1) <= length (heap s'))%nat /\
                     only_allocates s s')) as Hch.
      { destruct (children v);
          try (apply ensures_ret; split; [lia|done]).
        apply ensures_bind.
        eapply ensures_conseq.
        { apply ensures_map_vnodes. intros l s2.
          eapply ensures_conseq; [apply IHd|]. by intros ? ? [? ?]. }
        intros r s2 H2. apply ensures_bind, ensures_fresh_id.
        apply ensures_modify. intros vc Hvc.
        cbn [heap with_next_id] in *.
        pose proof (only_allocates_length _ _ H2) as Hlen2.
        split; [cbn [heap with_heap]; rewrite length_insert; lia|].
        pose proof (only_allocates_trans _ _ _ H1 H2) as H12.
        destruct H12 as ([new Hnew] & Hb & Ht & Hc & Hd & Hw).
        split;
          [|destruct Ht as (? & ? & ?), Hc as (? & ? & ? & ?); by repeat split].
        cbn [heap with_heap]. rewrite Hnew.
        exists (<[(cloned - length (heap s))%nat := set_children (VArr (next_id s2) r) vc]> new).
        rewrite insert_app_r_alt by lia. done. }
      eapply ensures_conseq; [exact Hch|].
      intros _ s2 [Hlen H2]. apply ensures_ret.
      split; [done|]. lia.
Qed.

Lemma cloneVNode_alone_returns fuel vnode extraProps mergeRef s v :
  heap s !! vnode = Some v -> clones_alone v ->
  runs (cloneVNode fuel vnode extraProps mergeRef) s (fun _ _ => True).
Proof.
  intros Hv (Hsc & Hsf & Hch).
  assert (forall (subc : list Value -> M Value) (X Y : loc -> M (option loc)),
    runs
      (bind (read vnode) (fun v =>
       bind (if truthy extraProps then
               bind (if truthy (props v) then ret (props v)
                     else bind fresh_id (fun id => ret (VObj id [])))
                    (fun base => alloc (mergeProps [base; extraProps]))
             else ret (props v)) (fun mergedProps =>
       bind (if truthy (js_and extraProps (get extraProps "ref")) then
               if (mergeRef && truthy (ref v))%bool then
                 bind (normalizeRef extraProps) (fun r =>
                 bind fresh_id (fun id =>
                 match ref v with
                 | VArr _ items => ret (VArr id (items ++ concat_items r))
                 | _ => ret (VArr id [ref v; r])
                 end))
               else normalizeRef extraProps
             else ret (ref v)) (fun ref' =>
       bind (match children v with
             | VArr _ items =>
                 if (__DEV__ && (patchFlag v =? HOISTED))%bool then subc items
                 else ret (children v)
             | _ => ret (children v)
             end) (fun children' =>
       bind (match ssContent v with Some c => X c | None => ret None end)
            (fun ssContent' =>
       bind (match ssFallback v with Some c => Y c | None => ret None end)
            (fun ssFallback' =>
       new_vnode
         {| type := VNode.type v;
            props := mergedProps;
            key := js_and mergedProps (normalizeKey mergedProps);
            ref := ref';
            scopeId := scopeId v;
            slotScopeIds := slotScopeIds v;
            children := children';
            target := target v;
            targetAnchor := targetAnchor v;
            staticCount := staticCount v;
            shapeFlag := shapeFlag v;
            patchFlag :=
              if (truthy extraProps
                  && negb (strict_eq (VNode.type v) Fragment))%bool
              then if patchFlag v =? -1 then FULL_PROPS
                   else bit_or (patchFlag v) FULL_PROPS
              else patchFlag v;
            dynamicProps := dynamicProps v;
            dynamicChildren := dynamicChildren v;
            appContext := appContext v;
            dirs := dirs v;
            transition := transition v;
            component := component v;
            suspense := suspense v;
            ssContent := ssContent';
            ssFallback := ssFallback';
            el := el v;
            anchor := anchor v;
            ctx := ctx v;
            ce := ce v;
            memo := VUndef;
            _ctx := VUndef |}))))))) s (fun _ _ => True)) as Hbody.
  { intros subc X Y.
    eapply runs_bind, runs_read; [done|].
    apply runs_bind.
    assert (forall s0, runs
      (if truthy extraProps then
         bind (if truthy (props v) then ret (props v)
               else bind fresh_id (fun id => ret (VObj id [])))
              (fun base => alloc (mergeProps [base; extraProps]))
       else ret (props v)) s0 (fun _ _ => True)) as Hmp.
    { intros s0. destruct (truthy extraProps); [|done].
      apply runs_bind. destruct (truthy (props v)).
      - apply runs_ret. by apply runs_alloc.
      - apply runs_bind, runs_fresh_id, runs_ret. by apply runs_alloc. }
    eapply runs_conseq; [apply Hmp|]. intros mp s1 _.
    apply runs_bind.
    assert (forall s0, runs
      (if truthy (js_and extraProps (get extraProps "ref")) then
         if (mergeRef && truthy (ref v))%bool then
           bind (normalizeRef extraProps) (fun r =>
           bind fresh_id (fun id =>
           match ref v with
           | VArr _ items => ret (VArr id (items ++ concat_items r))
           | _ => ret (VArr id [ref v; r])
           end))
         else normalizeRef extraProps
       else ret (ref v)) s0 (fun _ _ => True)) as Hr.
    { intros s0. destruct (truthy (js_and _ _)); [|done].
      destruct (mergeRef && truthy (ref v))%bool; [|by apply normalizeRef_runs].
      apply runs_bind, normalizeRef_runs. intros r n.
      apply runs_bind, runs_fresh_id. by destruct (ref v). }
    eapply runs_conseq; [apply Hr|]. intros r s2 _.
    apply runs_bind.
    rewrite Hsc, Hsf.
    destruct (children v) eqn:Hc; try (apply runs_ret, runs_bind, runs_ret,
                                         runs_bind, runs_ret; done).
    cbn [isArray] in Hch. rewrite andb_true_r in Hch. rewrite Hch.
    apply runs_ret, runs_bind, runs_ret, runs_bind, runs_ret. done. }
  destruct fuel; cbn [cloneVNode]; apply Hbody.
Qed.

(** A clone made without cloning anything below the vnode: the call returns
    whatever the recursion bound, and the clone is as [clone_ensures] says. *)
Lemma cloneVNode_alone fuel vnode extraProps mergeRef s v :
  heap s !! vnode = Some v -> clones_alone v ->
  runs (cloneVNode fuel vnode extraProps mergeRef) s
    (fun l' s' =>
       only_allocates s s' /\
       (length (heap s) <= l')%nat /\
       S l' = length (heap s') /\
       exists v',
         heap s' !! l' = Some v' /\
         copied_fields v v' /\
         VNode.patchFlag v' =
           (if (truthy extraProps
                && negb (strict_eq (VNode.type v) Fragment))%bool
            then if VNode.patchFlag v =? -1 then FULL_PROPS
                 else bit_or (VNode.patchFlag v) FULL_PROPS
            else VNode.patchFlag v) /\
         key v' = js_and (props v') (normalizeKey (props v')) /\
         memo v' = VUndef /\
         (truthy extraProps = false ->
            props v' = props v /\ VNode.ref v' = VNode.ref v) /\
         children v' = children v /\
         ssContent v' = None /\ ssFallback v' = None).
Proof.
  intros Hv Halone.
  eapply runs_conseq.
  { eapply runs_and_ensures;
      [by apply (cloneVNode_alone_returns fuel vnode extraProps mergeRef s v)
      |apply (proj1 (clone_ensures fuel))]. }
  intros l' s' (_ & Ha & Hlo & Hhi & v0 & v' & Hv0 & Hv' & Hcp & Hpf & Hk & Hm
                & Hp & Hc & Hsc & Hsf).
  rewrite Hv in Hv0. injection Hv0 as <-.
  destruct Halone as (? & ? & ?).
  split; [done|]. split; [done|]. split; [done|].
  exists v'.
  split; [done|]. split; [done|]. split; [done|]. split; [done|].
  split; [done|]. split; [done|]. split; [auto|]. split; auto.
Qed.

Lemma strict_eq_refl x : x <> VNaN -> strict_eq x x = true.
Proof.
  destruct x; cbn; intros Hx; try done.
  - by destruct b.
  - apply Z.eqb_refl.
  - apply String.eqb_refl.
  - apply String.eqb_refl.
  - apply Nat.eqb_refl.
  - apply Nat.eqb_refl.
  - apply Nat.eqb_refl.
  - apply Nat.eqb_refl.
Qed.

Lemma strict_eq_NaN_l x : strict_eq VNaN x = false.
Proof. done. Qed.

Lemma strict_eq_NaN_r x : strict_eq x VNaN = false.
Proof. by destruct x. Qed.

Lemma isSameVNodeType_runs n1 n2 s v1 v2 (Q : bool -> State -> Prop) :
  heap s !! n1 = Some v1 -> heap s !! n2 = Some v2 ->
  (forall s',
     (__DEV__
      && negb (bit_and (shapeFlag v2) ShapeFlags.COMPONENT =? 0)
      && set_has (type v2) (hmrDirtyComponents s))%bool = true ->
     Q false s') ->
  ((__DEV__
    && negb (bit_and (shapeFlag v2) ShapeFlags.COMPONENT =? 0)
    && set_has (type v2) (hmrDirtyComponents s))%bool = false ->
   Q (strict_eq (type v1) (type v2) && strict_eq (key v1) (key v2))%bool s) ->
  runs (isSameVNodeType n1 n2) s Q.
Proof.
  intros H1 H2 Hhmr Hplain. unfold isSameVNodeType.
  eapply runs_bind, runs_read; [done|].
  apply runs_bind, runs_get_state.
  destruct (_ && _ && _)%bool.
  - eapply runs_bind, runs_modify; [done|].
    assert (is_Some (heap (with_heap s (<[n1:=set_shapeFlag
              (bit_and (shapeFlag v1)
                 (bit_not ShapeFlags.COMPONENT_SHOULD_KEEP_ALIVE)) v1]> (heap s)))
              !! n2)) as [v2' Hv2'].
    { apply lookup_lt_is_Some. cbn [heap with_heap]. rewrite length_insert.
      by eapply lookup_lt_Some. }
    eapply runs_bind, runs_modify; [done|].
    apply runs_ret. by apply Hhmr.
  - eapply runs_bind, runs_read; [done|]. apply runs_ret. by apply Hplain.
Qed.

(** ** Properties of [isSameVNodeType] and [cloneVNode] *)

(** A key that is [NaN] never correlates two vnodes, not even a vnode with
    itself. *)
Theorem isSameVNodeType_NaN_key n1 n2 s v1 v2 :
  heap s !! n1 = Some v1 -> heap s !! n2 = Some v2 ->
  key v1 = VNaN \/ key v2 = VNaN ->
  runs (isSameVNodeType n1 n2) s (fun same _ => same = false).
Proof.
  intros H1 H2 Hnan.
  apply (isSameVNodeType_runs n1 n2 s v1 v2); [done..|].
  intros _. destruct Hnan as [-> | ->].
  - by rewrite strict_eq_NaN_l, andb_false_r.
  - by rewrite strict_eq_NaN_r, andb_false_r.
Qed.

(** [isSameVNodeType] compares types and keys with [===]; only the HMR branch
    of a development build changes anything, and it answers [false]. *)
Theorem isSameVNodeType_compares_type_and_key n1 n2 s v1 v2 :
  heap s !! n1 = Some v1 -> heap s !! n2 = Some v2 ->
  (__DEV__
   && negb (bit_and (shapeFlag v2) ShapeFlags.COMPONENT =? 0)
   && set_has (type v2) (hmrDirtyComponents s))%bool = false ->
  runs (isSameVNodeType n1 n2) s
    (fun same s' =>
       s' = s /\
       same = (strict_eq (type v1) (type v2) && strict_eq (key v1) (key v2))%bool).
Proof.
  intros H1 H2 Hhmr.
  apply (isSameVNodeType_runs n1 n2 s v1 v2); [done..| |done].
  intros s' Hc. congruence.
Qed.





Lemma get_defined p k : get p k <> VUndef -> truthy p = true /\ default_null p = p.
Proof.
  unfold get. destruct p; cbn; try done.
Qed.



Lemma indexOf_Some x l i :
  indexOf x l = Some i ->
  l !! i = Some x /\ forall j, (j < i)%nat -> l !! j <> Some x.
Proof.
  revert i. induction l as [|y l IH]; intros i; cbn; [done|].
  destruct (Nat.eqb_spec y x) as [->|Hne].
  - intros [= <-]. split; [done|]. intros j Hj. lia.
  - destruct (indexOf x l) as [i'|]; [|done].
    intros [= <-]. destruct (IH i' eq_refl) as [Hi Hfirst].
    split; [done|]. intros [|j] Hj; cbn; [congruence|].
    apply Hfirst. lia.
Qed.

Lemma indexOf_None x l : indexOf x l = None -> ~ In x l.
Proof.
  induction l as [|y l IH]; cbn; [tauto|].
  destruct (Nat.eqb_spec y x) as [->|Hne]; [done|].
  destruct (indexOf x l); [done|]. intros _ [?|?]; [done|]. by apply IH.
Qed.


End Facts.
End CloneFacts.

(* ===================================================================== *)
(** * Merging properties *)
(* ===================================================================== *)

Module MergeFacts.
Import Js Shared VNode Spec Rules.

Lemma eqb_neq_false (k k' : string) : k <> k' -> String.eqb k k' = false.
Proof. intros H. by apply String.eqb_neq. Qed.

Lemma get_field_replace_eq k v fs :
  get_field k fs <> None -> get_field k (replace_field k v fs) = Some v.
Proof.
  induction fs as [|[k' v'] fs IH]; cbn; [done|].
  destruct (String.eqb_spec k k') as [->|Hne]; cbn.
  - intros _. rewrite String.eqb_refl. reflexivity.
  - intros H. rewrite eqb_neq_false by done. auto.
Qed.

Lemma get_field_replace_ne k k' v fs :
  k <> k' -> get_field k' (replace_field k v fs) = get_field k' fs.
Proof.
  intros Hne. induction fs as [|[k0 v0] fs IH]; cbn; [done|].
  destruct (String.eqb_spec k k0) as [->|Hne0]; cbn.
  - by rewrite (eqb_neq_false k' k0).
  - by rewrite IH.
Qed.

Lemma get_field_insert_index_eq n k v fs :
  get_field k fs = None -> get_field k (insert_index n k v fs) = Some v.
Proof.
  induction fs as [|[k' v'] fs IH]; cbn.
  - by rewrite String.eqb_refl.
  - destruct (String.eqb_spec k k') as [->|Hne]; [done|]. intros Hfs.
    destruct (array_index k') as [n'|]; [destruct (n' <? n)%N|]; cbn;
      rewrite ?String.eqb_refl, ?(eqb_neq_false k k') by done; auto.
Qed.

Lemma get_field_insert_index_ne n k k' v fs :
  k <> k' -> get_field k' (insert_index n k v fs) = get_field k' fs.
Proof.
  intros Hne. induction fs as [|[k0 v0] fs IH]; cbn.
  - by rewrite (eqb_neq_false k' k).
  - destruct (array_index k0) as [n'|]; [destruct (n' <? n)%N|]; cbn;
      rewrite ?IH, ?(eqb_neq_false k' k) by done; done.
Qed.

Lemma get_field_app k fs fs' :
  get_field k (fs ++ fs') =
    match get_field k fs with Some v => Some v | None => get_field k fs' end.
Proof.
  induction fs as [|[k' v'] fs IH]; cbn; [done|].
  by destruct (String.eqb k k').
Qed.

(** Reading a property after writing it, and after writing another one. *)
Lemma get_field_set_eq k v fs : get_field k (set_field k v fs) = Some v.
Proof.
  unfold set_field. destruct (get_field k fs) eqn:Hk.
  - apply get_field_replace_eq. by rewrite Hk.
  - destruct (array_index k).
    + by apply get_field_insert_index_eq.
    + rewrite get_field_app, Hk. cbn. by rewrite String.eqb_refl.
Qed.

Lemma get_field_set_ne k k' v fs :
  k <> k' -> get_field k' (set_field k v fs) = get_field k' fs.
Proof.
  intros Hne. unfold set_field. destruct (get_field k fs) eqn:Hk.
  - by apply get_field_replace_ne.
  - destruct (array_index k).
    + by apply get_field_insert_index_ne.
    + rewrite get_field_app. cbn. rewrite (eqb_neq_false k' k) by done.
      by destruct (get_field k' fs).
Qed.

Section Facts.
Context {PF : PatchFlags} {SF : SlotFlags} {E : Externals}.

(** One step of the merge writes no property but [key]. *)
Lemma merge_key_other toMerge ret key n k :
  k <> key ->
  get_field k (fst (merge_key toMerge ret key n)) = get_field k ret.
Proof.
  intros Hne. unfold merge_key.
  destruct (String.eqb_spec key "class") as [->|Hc].
  { destruct (negb _); cbn; [|done]. by apply get_field_set_ne. }
  destruct (String.eqb_spec key "style") as [->|Hs].
  { destruct (normalizeStyle _ _). cbn. by apply get_field_set_ne. }
  destruct (isOn key).
  { destruct (_ && _ && _)%bool; [|done].
    destruct (truthy _); cbn; by apply get_field_set_ne. }
  destruct (negb _); cbn; [|done]. by apply get_field_set_ne.
Qed.

Lemma merge_key_empty toMerge ret n :
  isOn "" = false ->
  fst (merge_key toMerge ret "" n) = ret.
Proof. intros H. unfold merge_key. cbn. by rewrite H. Qed.

Lemma merge_fields_other toMerge fs acc k :
  (forall kv, In kv fs -> fst kv <> k) ->
  get_field k
    (fst (fold_left (fun (acc : Fields * nat) (kv : string * Value) =>
                       merge_key toMerge (fst acc) (fst kv) (snd acc)) fs acc))
  = get_field k (fst acc).
Proof.
  revert acc. induction fs as [|kv fs IH]; intros acc Hfs; cbn; [done|].
  rewrite IH by (intros; apply Hfs; by right).
  apply merge_key_other. intros ->. by apply (Hfs kv); [left|].
Qed.

Lemma merge_fields_empty toMerge fs acc :
  isOn "" = false ->
  get_field ""
    (fst (fold_left (fun (acc : Fields * nat) (kv : string * Value) =>
                       merge_key toMerge (fst acc) (fst kv) (snd acc)) fs acc))
  = get_field "" (fst acc).
Proof.
  intros Hon. revert acc. induction fs as [|[k v] fs IH]; intros acc; cbn; [done|].
  rewrite IH. destruct (String.eqb_spec k "") as [->|Hne].
  - by rewrite merge_key_empty.
  - by apply merge_key_other.
Qed.

(** The result of [mergeProps] never has the empty string as a key, provided
    the empty string is not a handler name. *)
Theorem mergeProps_no_empty_key args n :
  isOn "" = false ->
  has "" (fst (mergeProps args n)) = false.
Proof.
  intros Hon. unfold mergeProps.
  assert (forall acc, get_field "" (fst (fold_left merge_one args acc))
                      = get_field "" (fst acc)) as H.
  { induction args as [|a args IH]; intros acc; cbn; [done|].
    rewrite IH. unfold merge_one. by apply merge_fields_empty. }
  specialize (H ([], S n)).
  destruct (fold_left merge_one args ([], S n)) as [ret n'].
  cbn in *. unfold has. cbn. by rewrite H.
Qed.

Lemma ordinary_key_spec k :
  ordinary_key k = true ->
  String.eqb k "class" = false /\ String.eqb k "style" = false /\
  isOn k = false /\ String.eqb k "" = false.
Proof.
  unfold ordinary_key.
  destruct (String.eqb k "class"), (String.eqb k "style"), (isOn k),
    (String.eqb k ""); cbn; intros; by repeat split.
Qed.

Lemma merge_key_ordinary toMerge ret k n :
  ordinary_key k = true ->
  merge_key toMerge ret k n = (set_field k (get toMerge k) ret, n).
Proof.
  intros (Hc & Hs & Hon & He)%ordinary_key_spec.
  unfold merge_key. by rewrite Hc, Hs, Hon, He.
Qed.

Lemma merge_fields_ordinary toMerge fs acc k :
  ordinary_key k = true ->
  get_field k
    (fst (fold_left (fun (acc : Fields * nat) (kv : string * Value) =>
                       merge_key toMerge (fst acc) (fst kv) (snd acc)) fs acc))
  = match get_field k fs with
    | Some _ => Some (get toMerge k)
    | None => get_field k (fst acc)
    end.
Proof.
  intros Hk. revert acc. induction fs as [|[k' v'] fs IH]; intros acc; cbn;
    [done|].
  rewrite IH. cbn [fst snd].
  destruct (String.eqb_spec k k') as [<-|Hne].
  - rewrite merge_key_ordinary by done. cbn. rewrite get_field_set_eq.
    by destruct (get_field k fs).
  - rewrite merge_key_other by done. done.
Qed.

Lemma mergeProps_snoc args last n :
  fst (mergeProps (args ++ [last]) n) =
    VObj n (fst (merge_one (fold_left merge_one args ([], S n)) last)).
Proof.
  unfold mergeProps. rewrite fold_left_app. cbn.
  by destruct (merge_one _ last).
Qed.

Lemma mergeProps_fields args n :
  fst (mergeProps args n) = VObj n (fst (fold_left merge_one args ([], S n))).
Proof. unfold mergeProps. by destruct (fold_left _ _ _). Qed.


Lemma handler_key_spec k :
  handler_key k = true ->
  String.eqb k "class" = false /\ String.eqb k "style" = false /\ isOn k = true.
Proof.
  unfold handler_key.
  destruct (String.eqb k "class"), (String.eqb k "style"), (isOn k); cbn;
    intros; by repeat split.
Qed.

Lemma unique_keys_split k v fs :
  unique_keys fs = true -> get_field k fs = Some v ->
  exists pre post,
    fs = pre ++ (k, v) :: post /\
    (forall kv, In kv pre -> fst kv <> k) /\
    (forall kv, In kv post -> fst kv <> k).
Proof.
  induction fs as [|[k' v'] fs IH]; cbn; [done|].
  intros [Hfresh Hu]%andb_prop.
  destruct (String.eqb_spec k k') as [<-|Hne].
  - intros [= ->]. exists [], fs. split; [done|]. split; [done|].
    intros kv Hin Heq.
    apply negb_true_iff in Hfresh.
    assert (existsb (fun kv0 => String.eqb k (fst kv0)) fs = true);
      [|congruence].
    apply existsb_exists. exists kv. split; [done|].
    rewrite Heq. apply String.eqb_refl.
  - intros Hget. destruct (IH Hu Hget) as (pre & post & -> & Hpre & Hpost).
    exists ((k', v') :: pre), post. split; [done|]. split; [|done].
    intros kv [<-|Hin]; [cbn; congruence|by apply Hpre].
Qed.

(** What merging an object that has the handler key [k] does to the
    handlers accumulated so far. *)
Lemma merge_one_handler toMerge acc k inc :
  handler_key k = true ->
  unique_keys (fields_of toMerge) = true ->
  get_field k (fields_of toMerge) = Some inc ->
  let existing := field (fst acc) k in
  let merged := fst (merge_one acc toMerge) in
  if (truthy inc && negb (strict_eq existing inc)
      && negb (array_includes existing inc))%bool
  then if truthy existing
       then exists id,
              get_field k merged
                = Some (VArr id (concat_items existing ++ concat_items inc))
       else get_field k merged = Some inc
  else get_field k merged = get_field k (fst acc).
Proof.
  intros (Hc & Hs & Hon)%handler_key_spec Hu Hget. cbn zeta.
  destruct (unique_keys_split k inc _ Hu Hget) as (pre & post & Hfs & Hpre & Hpost).
  unfold merge_one. rewrite Hfs, fold_left_app. cbn [fold_left fst snd].
  set (acc1 := fold_left _ pre acc).
  assert (Hacc1 : get_field k (fst acc1) = get_field k (fst acc))
    by (by apply merge_fields_other).
  rewrite merge_fields_other by done.
  unfold merge_key. rewrite Hc, Hs, Hon.
  assert (get toMerge k = inc) as -> by (unfold get; by rewrite Hget).
  assert (field (fst acc1) k = field (fst acc) k) as ->
    by (unfold field; by rewrite Hacc1).
  destruct (_ && _ && _)%bool; [|done].
  destruct (truthy (field (fst acc) k)); cbn [fst].
  - eexists. apply get_field_set_eq.
  - apply get_field_set_eq.
Qed.

Lemma merge_one_absent toMerge acc k :
  get_field k (fields_of toMerge) = None ->
  get_field k (fst (merge_one acc toMerge)) = get_field k (fst acc).
Proof.
  intros Hget. unfold merge_one. apply merge_fields_other.
  intros [k' v'] Hin Heq. cbn in Heq. subst k'.
  assert (get_field k (fields_of toMerge) <> None); [|done].
  clear Hget. induction (fields_of toMerge) as [|[k0 v0] fs IH]; [done|].
  cbn. destruct (String.eqb_spec k k0); [done|].
  destruct Hin as [[= -> ->]|Hin]; [done|]. by apply IH.
Qed.

Lemma first_occurrences_snoc vs v :
  first_occurrences (vs ++ [v]) =
    if existsb (fun x => strict_eq x v) (first_occurrences vs)
    then first_occurrences vs else first_occurrences vs ++ [v].
Proof. unfold first_occurrences. by rewrite fold_left_app. Qed.

Lemma values_at_snoc k args last :
  values_at k (args ++ [last]) =
    values_at k args ++ (if has k last then [get last k] else []).
Proof. unfold values_at. rewrite flat_map_app. cbn. by rewrite app_nil_r. Qed.

Lemma first_occurrences_functions vs :
  forallb isFunction vs = true -> forallb isFunction (first_occurrences vs) = true.
Proof.
  induction vs as [|v vs IH] using rev_ind; [done|].
  rewrite forallb_app. cbn. intros [Hvs [Hv _]%andb_prop]%andb_prop.
  rewrite first_occurrences_snoc. destruct (existsb _ _); [by apply IH|].
  rewrite forallb_app, IH by done. cbn. by rewrite Hv.
Qed.


End Facts.
End MergeFacts.

(* ===================================================================== *)
(** * Mounting and unmounting an application *)
(* ===================================================================== *)

Module AppFacts.
Import Js VNode App Spec.

Lemma wbind_Some {A B} (m : W A) (k : A -> W B) w r w' :
  wbind m k w = Some (r, w') ->
  exists a w1, m w = Some (a, w1) /\ k a w1 = Some (r, w').
Proof.
  unfold wbind. destruct (m w) as [[a w1]|]; [|done]. intros Hk. by exists a, w1.
Qed.

Lemma lift_Some {A} (m : M A) w r w' :
  lift m w = Some (r, w') ->
  apps w' = apps w /\ containers w' = containers w /\ devtools w' = devtools w.
Proof.
  unfold lift. destruct (m (vnodes w)) as [[a s]|]; [|done].
  by intros [= <- <-].
Qed.

Lemma modify_app_Some app f w w' :
  modify_app app f w = Some (tt, w') ->
  exists a, apps w !! app = Some a /\
            apps w' = <[app := f a]> (apps w) /\
            containers w' = containers w /\ devtools w' = devtools w /\
            vnodes w' = vnodes w.
Proof.
  unfold modify_app. destruct (apps w !! app) as [a|] eqn:Ha; [|done].
  intros [= <-]. by exists a.
Qed.

Section Facts.
Context {PF : PatchFlags} {SF : SlotFlags} {E : Externals} {H : Host}.

Lemma mount_mounted_eq fuel app c isHydrate isSVG w a :
  apps w !! app = Some a -> isMounted a = true ->
  mount fuel app c isHydrate isSVG w =
    Some (VUndef,
          if __DEV__
          then mkWorld (with_warnings (vnodes w)
                          (warnings (vnodes w) ++ [AppAlreadyMounted]))
                       (apps w) (containers w) (devtools w)
          else w).
Proof.
  intros Ha Hm. unfold mount, wbind, read_app. rewrite Ha, Hm. cbn.
  by destruct __DEV__.
Qed.

(** Mounting an application that is mounted returns [undefined]; a
    development build adds the already-mounted diagnostic, and nothing else
    changes: not the applications, the containers or the devtools
    notifications, and no vnode is created. *)
Theorem mount_of_mounted_app_only_warns fuel app c isHydrate isSVG w a :
  apps w !! app = Some a -> isMounted a = true ->
  exists w',
    mount fuel app c isHydrate isSVG w = Some (VUndef, w') /\
    apps w' = apps w /\ containers w' = containers w /\
    devtools w' = devtools w /\
    heap (vnodes w') = heap (vnodes w) /\
    warnings (vnodes w') =
      warnings (vnodes w) ++ (if __DEV__ then [AppAlreadyMounted] else []).
Proof.
  intros Ha Hm. eexists. split; [by apply (mount_mounted_eq _ _ _ _ _ _ a)|].
  destruct __DEV__; cbn; by rewrite ?app_nil_r.
Qed.

(** Unmounting an application that is not mounted: a development build adds
    a diagnostic, the renderer is not called and nothing else changes. *)
Theorem unmount_of_unmounted_app_only_warns app w a :
  apps w !! app = Some a -> isMounted a = false ->
  exists w',
    unmount app w = Some (tt, w') /\
    apps w' = apps w /\ containers w' = containers w /\
    devtools w' = devtools w /\
    heap (vnodes w') = heap (vnodes w) /\
    warnings (vnodes w') =
      warnings (vnodes w) ++ (if __DEV__ then [CannotUnmountUnmounted] else []).
Proof.
  intros Ha Hm. unfold unmount, wbind, read_app. rewrite Ha, Hm.
  destruct __DEV__; cbn; eexists; (split; [reflexivity|]); cbn;
    by rewrite ?app_nil_r.
Qed.

Lemma unmount_mounted_eq app w a c w1 occupant :
  apps w !! app = Some a -> isMounted a = true -> _container a = Some c ->
  render None c VUndef w = Some (tt, w1) ->
  apps w1 = apps w -> containers w1 !! c = Some occupant ->
  unmount app w =
    Some (tt,
          mkWorld (vnodes w1)
            (if (__DEV__ || __FEATURE_PROD_DEVTOOLS__)%bool
             then <[app := set__instance VNull a]> (apps w) else apps w)
            (<[c := None]> (containers w1))
            (if (__DEV__ || __FEATURE_PROD_DEVTOOLS__)%bool
             then devtools w1 ++ [UnmountApp app] else devtools w1)).
Proof.
  intros Ha Hm Hc Hr Hsame Hocc.
  assert (app < length (apps w))%nat as Hlt by (by eapply lookup_lt_Some).
  unfold unmount, wbind, read_app. rewrite Ha, Hm, Hc, Hr.
  destruct (__DEV__ || __FEATURE_PROD_DEVTOOLS__)%bool; cbn.
  - unfold modify_app, notify. rewrite Hsame, Ha. cbn.
    rewrite list_lookup_insert_eq by done. cbn. rewrite Hc.
    unfold write_container. cbn. by rewrite Hocc.
  - rewrite Hsame, Ha, Hc. unfold write_container. rewrite Hocc.
    by rewrite Hsame.
Qed.

(** Unmounting a mounted application, with a renderer that returns and
    leaves the applications alone: [render(null, container)] is called, the
    container's back-reference is deleted, a development or devtools build
    clears [_instance] and notifies the devtools; the application still
    records its container and still counts as mounted. *)
Theorem unmount_of_mounted_app app w a c w1 occupant :
  apps w !! app = Some a -> isMounted a = true -> _container a = Some c ->
  render None c VUndef w = Some (tt, w1) ->
  apps w1 = apps w -> containers w1 !! c = Some occupant ->
  exists w',
    unmount app w = Some (tt, w') /\
    containers w' = <[c := None]> (containers w1) /\
    vnodes w' = vnodes w1 /\
    devtools w' =
      devtools w1 ++ (if (__DEV__ || __FEATURE_PROD_DEVTOOLS__)%bool
                      then [UnmountApp app] else []) /\
    exists a',
      apps w' !! app = Some a' /\
      isMounted a' = true /\ _container a' = Some c /\
      _instance a' = (if (__DEV__ || __FEATURE_PROD_DEVTOOLS__)%bool
                      then VNull else _instance a).
Proof.
  intros Ha Hm Hc Hr Hsame Hocc.
  assert (app < length (apps w))%nat as Hlt by (by eapply lookup_lt_Some).
  eexists. split; [by eapply unmount_mounted_eq|]. cbn.
  destruct (__DEV__ || __FEATURE_PROD_DEVTOOLS__)%bool.
  - repeat (split; [done|]). eexists. split; [by apply list_lookup_insert_eq|].
    done.
  - rewrite app_nil_r. repeat (split; [done|]). by exists a.
Qed.

(** An application cannot be mounted again after it was unmounted: [unmount]
    does not reset the mounted flag, so the [mount] that follows creates no
    vnode, leaves the container without a back-reference and returns
    [undefined], with the already-mounted diagnostic in a development
    build. *)
Theorem mount_after_unmount_only_warns fuel app w a c w1 occupant
    c' isHydrate isSVG :
  apps w !! app = Some a -> isMounted a = true -> _container a = Some c ->
  render None c VUndef w = Some (tt, w1) ->
  apps w1 = apps w -> containers w1 !! c = Some occupant ->
  exists w'',
    wbind (unmount app) (fun _ => mount fuel app c' isHydrate isSVG) w
      = Some (VUndef, w'') /\
    containers w'' = <[c := None]> (containers w1) /\
    containers w'' !! c = Some None /\
    heap (vnodes w'') = heap (vnodes w1) /\
    warnings (vnodes w'') =
      warnings (vnodes w1) ++ (if __DEV__ then [AppAlreadyMounted] else []) /\
    exists a', apps w'' !! app = Some a' /\ isMounted a' = true.
Proof.
  intros Ha Hm Hc Hr Hsame Hocc.
  assert (app < length (apps w))%nat as Hlt by (by eapply lookup_lt_Some).
  assert (c < length (containers w1))%nat as Hltc by (by eapply lookup_lt_Some).
  unfold wbind at 1. erewrite unmount_mounted_eq by done.
  set (a' := if (__DEV__ || __FEATURE_PROD_DEVTOOLS__)%bool
             then set__instance VNull a else a).
  erewrite (mount_mounted_eq _ _ _ _ _ _ a').
  - eexists. split; [reflexivity|].
    destruct __DEV__; cbn; rewrite ?app_nil_r;
      (split; [done|]); (split; [by apply list_lookup_insert_eq|]);
      (split; [done|]); (split; [done|]); exists a'; (split; [|by subst a'; destruct (_ || _)%bool]).
    + subst a'. cbn. by apply list_lookup_insert_eq.
    + subst a'. destruct __FEATURE_PROD_DEVTOOLS__; cbn; [by apply list_lookup_insert_eq|done].
  - cbn. subst a'. destruct (_ || _)%bool; [by apply list_lookup_insert_eq|done].
  - subst a'. by destruct (_ || _)%bool.
Qed.

(** What a returning [mount] of an unmounted application leaves behind,
    whatever renderer it ran and whatever the container referred to before,
    another application included: the container refers to this application,
    and this application counts as mounted and records the container. *)
Theorem mount_records_the_application fuel app c isHydrate isSVG w a r w' :
  apps w !! app = Some a -> isMounted a = false ->
  mount fuel app c isHydrate isSVG w = Some (r, w') ->
  containers w' !! c = Some (Some app) /\
  exists a',
    apps w' !! app = Some a' /\ isMounted a' = true /\
    _container a' = Some c.
Proof.
  intros Ha Hm Hrun. unfold mount in Hrun.
  apply wbind_Some in Hrun as (a0 & w0 & Hread & Hrun).
  unfold read_app in Hread. rewrite Ha in Hread. injection Hread as <- <-.
  rewrite Hm in Hrun. cbn [negb] in Hrun.
  apply wbind_Some in Hrun as (occupant & w1 & _ & Hrun).
  apply wbind_Some in Hrun as (? & w2 & _ & Hrun).
  apply wbind_Some in Hrun as (vnode & w3 & _ & Hrun).
  apply wbind_Some in Hrun as (? & w4 & _ & Hrun).
  apply wbind_Some in Hrun as (? & w5 & _ & Hrun).
  apply wbind_Some in Hrun as (? & w6 & _ & Hrun).
  apply wbind_Some in Hrun as ([] & w7 & Hmounted & Hrun).
  apply wbind_Some in Hrun as ([] & w8 & Hcont & Hrun).
  apply wbind_Some in Hrun as ([] & w9 & Hwrite & Hrun).
  apply wbind_Some in Hrun as (v & w10 & Hread1 & Hrun).
  apply wbind_Some in Hrun as ([] & w11 & Hdev & Hrun).
  apply wbind_Some in Hrun as (v' & w12 & Hread2 & Hrun).
  apply modify_app_Some in Hmounted as (a6 & Ha6 & Happs7 & Hc7 & _).
  apply modify_app_Some in Hcont as (a7 & Ha7 & Happs8 & Hc8 & _).
  assert (app < length (apps w6))%nat as Hlt6 by (by eapply lookup_lt_Some).
  rewrite Happs7, list_lookup_insert_eq in Ha7 by done. injection Ha7 as <-.
  assert (apps w8 !! app
          = Some (set__container (Some c) (set_isMounted true a6))) as Ha8.
  { rewrite Happs8. apply list_lookup_insert_eq.
    by rewrite Happs7, length_insert. }
  unfold write_container in Hwrite.
  destruct (containers w8 !! c) as [old|] eqn:Hold; [|done].
  injection Hwrite as <-.
  apply lift_Some in Hread1 as (Ha10 & Hc10 & _). cbn in Ha10, Hc10.
  apply lift_Some in Hread2 as (Ha12 & Hc12 & _).
  assert (containers w11 = containers w10 /\
          exists a', apps w11 !! app = Some a' /\ isMounted a' = true /\
                     _container a' = Some c) as (Hc11 & a11 & Ha11 & Hm11 & Hk11).
  { destruct (__DEV__ || __FEATURE_PROD_DEVTOOLS__)%bool; cbn in Hdev.
    - apply wbind_Some in Hdev as ([] & w10' & Hinst & Hnote).
      apply modify_app_Some in Hinst as (a10 & Ha10' & Happs & Hcs & _).
      unfold notify in Hnote. injection Hnote as <-. cbn.
      split; [done|]. rewrite Ha10, Ha8 in Ha10'. injection Ha10' as <-.
      eexists. split.
      + rewrite Happs. apply list_lookup_insert_eq.
        rewrite Ha10. by eapply lookup_lt_Some.
      + done.
    - injection Hdev as <-. split; [done|]. rewrite Ha10. by eexists. }
  assert (w' = w12) as ->.
  { destruct (is_nullish (component v')); [done|]. by injection Hrun as _ <-. }
  split.
  - rewrite Hc12, Hc11, Hc10. apply list_lookup_insert_eq.
    by eapply lookup_lt_Some.
  - exists a11. by rewrite Ha12.
Qed.

End Facts.
End AppFacts.

(* ===================================================================== *)
(** * Class and style normalisation *)
(* ===================================================================== *)

Module SharedFacts.
Import Js Shared Spec.

(** ** Reversal and trimming *)

Lemma append_cons a (s t : string) : String a s +:+ t = String a (s +:+ t).
Proof. done. Qed.

Lemma append_nil_r (s : string) : s +:+ "" = s.
Proof.
  induction s as [|a s IH]; [done|]. by rewrite append_cons, IH.
Qed.

Lemma append_assoc (s t u : string) : (s +:+ t) +:+ u = s +:+ (t +:+ u).
Proof.
  induction s as [|a s IH]; [done|]. by rewrite !append_cons, IH.
Qed.

Lemma rev_app_spec (s acc : string) :
  String.rev_app s acc = String.rev s +:+ acc.
Proof.
  unfold String.rev. revert acc.
  induction s as [|a s IH]; intros acc; cbn; [done|].
  rewrite (IH (String a acc)), (IH (String a "")), append_assoc. done.
Qed.

Lemma rev_cons a (s : string) :
  String.rev (String a s) = String.rev s +:+ String a "".
Proof. unfold String.rev at 1. cbn. apply rev_app_spec. Qed.

Lemma rev_append (s t : string) :
  String.rev (s +:+ t) = String.rev t +:+ String.rev s.
Proof.
  induction s as [|a s IH].
  - change (String.rev t = String.rev t +:+ ""). by rewrite append_nil_r.
  - change (String.rev (String a (s +:+ t))
            = String.rev t +:+ String.rev (String a s)).
    by rewrite !rev_cons, IH, append_assoc.
Qed.

Lemma rev_involutive (s : string) : String.rev (String.rev s) = s.
Proof.
  induction s as [|a s IH]; [done|].
  by rewrite rev_cons, rev_append, IH.
Qed.

Lemma trim_start_clean s : starts_clean s = true -> trim_start s = s.
Proof. destruct s as [|a s]; [done|]. cbn. by destruct (is_ws a). Qed.

Lemma starts_clean_append s t :
  starts_clean s = true -> starts_clean (s +:+ t) = true.
Proof. by destruct s. Qed.

(** What [trim_start] leaves is empty or starts with a character that is not
    white space, and is what follows a prefix of the string. *)
Lemma trim_start_spec s :
  (trim_start s = "" \/ starts_clean (trim_start s) = true) /\
  exists p, s = p +:+ trim_start s.
Proof.
  induction s as [|a s [IH [p Hp]]]; cbn.
  - split; [by left|by exists ""].
  - destruct (is_ws a) eqn:Ha.
    + split; [done|]. exists (String a p). by rewrite append_cons, <- Hp.
    + split; [right; cbn; by rewrite Ha|by exists ""].
Qed.

Lemma rev_empty s : String.rev s = "" -> s = "".
Proof.
  intros Hs. apply (f_equal String.rev) in Hs. by rewrite rev_involutive in Hs.
Qed.

(** The result of [trim] is empty or has no white space at either end. *)
Lemma trim_clean_or_empty s : trim s = "" \/ clean_name (trim s) = true.
Proof.
  unfold trim.
  destruct (trim_start_spec s) as [Ht _].
  set (t := trim_start s) in *.
  destruct (trim_start_spec (String.rev t)) as [Hu [p Hp]].
  set (u := trim_start (String.rev t)) in *.
  destruct Hu as [Hu|Hu]; [left; by rewrite Hu|].
  right. unfold clean_name. rewrite rev_involutive, Hu, andb_true_r.
  assert (t = String.rev u +:+ String.rev p) as Ht'.
  { apply (f_equal String.rev) in Hp.
    by rewrite rev_involutive, rev_append in Hp. }
  destruct Ht as [Ht|Ht].
  - rewrite Ht in Ht'. destruct (String.rev u) eqn:Hr; [|done].
    apply rev_empty in Hr. by rewrite Hr in Hu.
  - rewrite Ht' in Ht. destruct (String.rev u) eqn:Hr; [|done].
    apply rev_empty in Hr. by rewrite Hr in Hu.
Qed.

Lemma trim_of_clean s : clean_name s = true -> trim s = s.
Proof.
  intros [H1 H2]%andb_prop. unfold trim.
  by rewrite (trim_start_clean s), (trim_start_clean _ H2), rev_involutive.
Qed.

Lemma trim_idempotent s : trim (trim s) = trim s.
Proof.
  destruct (trim_clean_or_empty s) as [->|H]; [done|by apply trim_of_clean].
Qed.

Lemma clean_not_empty s : clean_name s = true -> truthy (VStr s) = true.
Proof. by destruct s. Qed.

(** A clean name followed by one space. *)
Lemma trim_trailing_space s : clean_name s = true -> trim (s +:+ " ") = s.
Proof.
  intros [H1 H2]%andb_prop. unfold trim.
  rewrite (trim_start_clean (s +:+ " ")) by (by apply starts_clean_append).
  rewrite rev_append.
  change (String.rev " " +:+ String.rev s) with (String " " (String.rev s)).
  change (trim_start (String " " (String.rev s)))
    with (trim_start (String.rev s)).
  by rewrite (trim_start_clean _ H2), rev_involutive.
Qed.

Lemma clean_join s t :
  clean_name s = true -> clean_name t = true ->
  clean_name (s +:+ " " +:+ t) = true.
Proof.
  intros [H1 H2]%andb_prop [H3 H4]%andb_prop. unfold clean_name.
  rewrite starts_clean_append by done.
  rewrite rev_append, rev_append, append_assoc.
  by rewrite starts_clean_append.
Qed.

Lemma clean_concat names :
  names <> [] -> forallb clean_name names = true ->
  clean_name (String.concat " " names) = true.
Proof.
  induction names as [|n [|m names] IH]; [done| |].
  - cbn. by rewrite andb_true_r.
  - intros _ [Hn Hrest]%andb_prop.
    change (String.concat " " (n :: m :: names))
      with (n +:+ " " +:+ String.concat " " (m :: names)).
    apply clean_join; [done|]. by apply IH.
Qed.

(** The names, each followed by a space, as the loops of [normalizeClass]
    build them. *)
Lemma spaced_concat names res :
  fold_left (fun res n => res +:+ n +:+ " ") names res
  = res +:+ (match names with
             | [] => ""
             | _ => String.concat " " names +:+ " "
             end).
Proof.
  revert res. induction names as [|n [|m names] IH]; intros res.
  - cbn. by rewrite append_nil_r.
  - done.
  - change (fold_left (fun res n => res +:+ n +:+ " ") (n :: m :: names) res)
      with (fold_left (fun res n => res +:+ n +:+ " ") (m :: names)
              (res +:+ n +:+ " ")).
    rewrite IH.
    change (String.concat " " (n :: m :: names))
      with (n +:+ " " +:+ String.concat " " (m :: names)).
    by rewrite !append_assoc.
Qed.

Lemma trim_spaced names :
  forallb clean_name names = true ->
  trim (fold_left (fun res n => res +:+ n +:+ " ") names "")
  = String.concat " " names.
Proof.
  intros Hclean. rewrite spaced_concat. cbn [append].
  destruct names as [|n names]; [done|].
  apply trim_trailing_space, clean_concat; done.
Qed.

(** ** [normalizeClass] *)

Lemma normalizeClass_trims v : exists r, normalizeClass v = trim r.
Proof. destruct v; eexists; reflexivity. Qed.

Lemma normalizeClass_array id items :
  normalizeClass (VArr id items)
  = trim (fold_left
            (fun res item =>
               if truthy (VStr (normalizeClass item))
               then res +:+ normalizeClass item +:+ " " else res)
            items "").
Proof.
  reflexivity.
Qed.

Lemma fold_nonempty (names : list string) res :
  fold_left (fun res n => if truthy (VStr n) then res +:+ n +:+ " " else res)
            names res
  = fold_left (fun res n => res +:+ n +:+ " ")
              (List.filter (fun n => negb (String.eqb n "")) names) res.
Proof.
  revert res. induction names as [|n names IH]; intros res; [done|].
  cbn [fold_left List.filter truthy].
  destruct (negb (String.eqb n "")); cbn [fold_left]; apply IH.
Qed.

(** The class of an array: the classes of the items that have one, joined by
    single spaces. *)
Lemma normalizeClass_array_joined id items :
  normalizeClass (VArr id items)
  = String.concat " "
      (List.filter (fun n => negb (String.eqb n ""))
                   (map normalizeClass items)).
Proof.
  rewrite normalizeClass_array.
  assert (forall res,
    fold_left (fun res item =>
                 if truthy (VStr (normalizeClass item))
                 then res +:+ normalizeClass item +:+ " " else res) items res
    = fold_left (fun res n =>
                   if truthy (VStr n) then res +:+ n +:+ " " else res)
                (map normalizeClass items) res) as ->.
  { induction items as [|item items IH]; intros res; [done|]. cbn. apply IH. }
  rewrite fold_nonempty. apply trim_spaced.
  apply forallb_forall. intros n Hn.
  apply filter_In in Hn as [Hn Hne].
  apply in_map_iff in Hn as (item & <- & _).
  destruct (normalizeClass_trims item) as [r Hr]. rewrite Hr in *.
  destruct (trim_clean_or_empty r) as [He|Hc]; [|done].
  by rewrite He in Hne.
Qed.

(** The class of an array of names without white space at their ends: the
    names joined by single spaces, in the order of the array. *)
Theorem normalizeClass_joins_names id names :
  forallb clean_name names = true ->
  normalizeClass (VArr id (map VStr names)) = String.concat " " names.
Proof.
  intros Hclean. rewrite normalizeClass_array_joined. f_equal.
  induction names as [|n names IH]; [done|].
  cbn in Hclean. apply andb_prop in Hclean as [Hn Hrest].
  cbn [map List.filter].
  change (normalizeClass (VStr n)) with (trim n).
  rewrite (trim_of_clean n Hn).
  pose proof (clean_not_empty n Hn) as Hne. cbn [truthy] in Hne.
  rewrite Hne. f_equal. by apply IH.
Qed.

(** The result of [normalizeClass] is trimmed: it is empty or has no white
    space at either end, and normalising it again changes nothing. *)
Theorem normalizeClass_is_trimmed v :
  (normalizeClass v = "" \/ clean_name (normalizeClass v) = true) /\
  normalizeClass (VStr (normalizeClass v)) = normalizeClass v.
Proof.
  destruct (normalizeClass_trims v) as [r ->]. split.
  - apply trim_clean_or_empty.
  - change (normalizeClass (VStr (trim r))) with (trim (trim r)).
    apply trim_idempotent.
Qed.

Lemma unique_keys_get fs k v :
  unique_keys fs = true -> In (k, v) fs -> get_field k fs = Some v.
Proof.
  induction fs as [|[k0 v0] fs IH]; [done|].
  cbn. intros [Hnot Hu]%andb_prop [[= -> ->]|Hin].
  - by rewrite String.eqb_refl.
  - destruct (String.eqb_spec k k0) as [->|Hne]; [|by apply IH].
    apply negb_true_iff in Hnot.
    assert (existsb (fun kv => String.eqb k0 (fst kv)) fs = true); [|congruence].
    apply existsb_exists. exists (k0, v). split; [done|]. cbn.
    apply String.eqb_refl.
Qed.

(** The class of an object: the keys that hold a truthy value, in the order
    of the keys, joined by single spaces, when these keys have no white space
    at their ends. *)
Theorem normalizeClass_joins_keys id fs :
  unique_keys fs = true ->
  forallb clean_name
    (map fst (List.filter (fun kv => truthy (snd kv)) fs)) = true ->
  normalizeClass (VObj id fs)
  = String.concat " " (map fst (List.filter (fun kv => truthy (snd kv)) fs)).
Proof.
  intros Hu Hclean.
  change (normalizeClass (VObj id fs))
    with (trim (fold_left
                  (fun (res : string) (kv : string * Value) =>
                     if truthy (get (VObj id fs) (fst kv))
                     then res +:+ fst kv +:+ " " else res) fs "")).
  rewrite <- (trim_spaced _ Hclean). f_equal.
  assert (forall suf res,
    (forall kv, In kv suf -> get (VObj id fs) (fst kv) = snd kv) ->
    fold_left (fun (res : string) (kv : string * Value) =>
                 if truthy (get (VObj id fs) (fst kv))
                 then res +:+ fst kv +:+ " " else res) suf res
    = fold_left (fun res n => res +:+ n +:+ " ")
        (map fst (List.filter (fun kv => truthy (snd kv)) suf)) res) as Hfold.
  { induction suf as [|kv suf IH]; intros res Hget; [done|].
    cbn [fold_left List.filter]. rewrite (Hget kv) by (by left).
    destruct (truthy (snd kv)); cbn [map fold_left]; apply IH;
      intros kv' Hin; apply Hget; by right. }
  apply Hfold. intros [k v] Hin. unfold get. cbn [fields_of fst snd].
  by rewrite (unique_keys_get fs k v).
Qed.

(** ** [normalizeStyle] *)

Lemma has_existsb k v :
  has k v = existsb (fun kv => String.eqb k (fst kv)) (fields_of v).
Proof.
  unfold has. induction (fields_of v) as [|[k0 v0] fs IH]; [done|].
  cbn. by destruct (String.eqb k k0).
Qed.

(** [for (const key in normalized) res[key] = normalized[key]] gives [res]
    the properties of [normalized] and keeps its others. *)
Lemma copy_into_get normalized res k :
  get_field k (copy_into normalized res)
  = if has k normalized then Some (get normalized k) else get_field k res.
Proof.
  rewrite has_existsb. unfold copy_into.
  generalize (fields_of normalized) as fs. intros fs. revert res.
  induction fs as [|[k0 v0] fs IH]; intros res; [done|].
  cbn [fold_left existsb fst]. rewrite IH.
  destruct (existsb _ fs); [by rewrite orb_true_r|]. rewrite orb_false_r.
  destruct (String.eqb_spec k k0) as [->|Hne].
  - by rewrite MergeFacts.get_field_set_eq.
  - by rewrite MergeFacts.get_field_set_ne.
Qed.

(** The loop of [normalizeStyle] over an array, as a fold. *)
Lemma normalizeStyle_array id items n :
  normalizeStyle (VArr id items) n
  = let '(res, n') :=
      fold_left
        (fun (acc : Fields * nat) (item : Value) =>
           let '(normalized, n1) :=
             match item with
             | VStr s => parseStringStyle s (snd acc)
             | _ => normalizeStyle item (snd acc)
             end in
           (if truthy normalized then copy_into normalized (fst acc)
            else fst acc, n1))
        items ([], S n) in
    (VObj n res, n').
Proof.
  change (normalizeStyle (VArr id items) n)
    with (let '(res, next') :=
            (fix loop (items : list Value) (res : Fields) (next : nat)
               : Fields * nat :=
               match items with
               | [] => (res, next)
               | item :: items' =>
                   let '(normalized, next1) :=
                     match item with
                     | VStr s => parseStringStyle s next
                     | _ => normalizeStyle item next
                     end in
                   loop items'
                        (if truthy normalized then copy_into normalized res
                         else res)
                        next1
               end) items [] (S n) in
          (VObj n res, next')).
  generalize (@nil (string * Value)) as res, (S n) as m.
  induction items as [|item items IH]; intros res m; [done|].
  cbn [fold_left fst snd].
  destruct (match item with
            | VStr s => parseStringStyle s m
            | _ => normalizeStyle item m
            end) as [normalized n1].
  apply IH.
Qed.


Lemma set_field_In k v k0 v0 fs :
  In (k, v) (set_field k0 v0 fs) -> (k, v) = (k0, v0) \/ In (k, v) fs.
Proof.
  unfold set_field. destruct (get_field k0 fs) as [old|].
  - clear old. induction fs as [|[k1 v1] fs IH]; [done|]. cbn.
    destruct (String.eqb k0 k1); cbn; intros [H|H]; auto.
    destruct (IH H); auto.
  - destruct (array_index k0) as [m|].
    + induction fs as [|[k1 v1] fs IH]; cbn; [intros [H|[]]; by left|].
      destruct (array_index k1) as [m'|]; [destruct (m' <? m)%N|]; cbn;
        intros [H|H]; auto.
      destruct (IH H); auto.
    + intros [H|[H|[]]]%in_app_or; auto.
Qed.

(** Every property [parseStringStyle] returns has a trimmed name and a
    trimmed string as its value. *)
Theorem parseStringStyle_trimmed cssText n k v :
  In (k, v) (fields_of (fst (parseStringStyle cssText n))) ->
  (k = "" \/ clean_name k = true) /\
  exists s, v = VStr s /\ (s = "" \/ clean_name s = true).
Proof.
  unfold parseStringStyle. cbn [fst fields_of].
  generalize (split_list (strip_comments (String.length cssText) cssText) "")
    as pieces.
  assert (forall pieces ret,
    (forall k v, In (k, v) ret ->
       (k = "" \/ clean_name k = true) /\
       exists s, v = VStr s /\ (s = "" \/ clean_name s = true)) ->
    In (k, v)
       (fold_left
          (fun (ret : Fields) (item : string) =>
             if truthy (VStr item) then
               match split_property item "" with
               | Some (tmp0, tmp1) => set_field (trim tmp0) (VStr (trim tmp1)) ret
               | None => ret
               end
             else ret) pieces ret) ->
    (k = "" \/ clean_name k = true) /\
    exists s, v = VStr s /\ (s = "" \/ clean_name s = true)) as Hfold.
  { induction pieces as [|item pieces IH]; intros ret Hret; cbn [fold_left].
    - apply Hret.
    - apply IH. destruct (truthy (VStr item)); [|done].
      destruct (split_property item "") as [[tmp0 tmp1]|]; [|done].
      intros k' v' [[= -> ->]|Hin]%set_field_In; [|by apply Hret].
      split; [apply trim_clean_or_empty|].
      eexists. split; [done|apply trim_clean_or_empty]. }
  intros pieces. apply Hfold. by intros ? ? [].
Qed.

End SharedFacts.

(* ===================================================================== *)
(** * Classes and styles in [mergeProps] *)
(* ===================================================================== *)

Module MergeStyleFacts.
Import Js Shared VNode Spec MergeFacts SharedFacts.

Ltac read_written :=
  match goal with
  | |- context [get_field _ (set_field ?k ?x ?r)] =>
      let Hs := fresh in
      pose proof (get_field_set_eq k x r) as Hs; rewrite Hs; clear Hs
  end.

Section Facts.
Context {PF : PatchFlags} {SF : SlotFlags} {E : Externals}.

(** What merging an object that has the key [k] does to that property: the
    one step for [k], the other keys leaving it alone. *)
Lemma merge_one_at toMerge acc k inc :
  unique_keys (fields_of toMerge) = true ->
  get_field k (fields_of toMerge) = Some inc ->
  exists ret m,
    get_field k ret = get_field k (fst acc) /\
    get_field k (fst (merge_one acc toMerge))
      = get_field k (fst (merge_key toMerge ret k m)).
Proof.
  intros Hu Hget.
  destruct (unique_keys_split k inc _ Hu Hget) as (pre & post & Hfs & Hpre & Hpost).
  unfold merge_one. rewrite Hfs, fold_left_app. cbn [fold_left fst snd].
  set (acc1 := fold_left _ pre acc).
  exists (fst acc1), (snd acc1). split.
  - by apply merge_fields_other.
  - by rewrite merge_fields_other.
Qed.


(** The merged [style], once set, is a plain object. *)
Lemma merge_key_style_shape toMerge ret key n :
  (forall v, get_field "style" ret = Some v -> exists j gs, v = VObj j gs) ->
  forall v, get_field "style" (fst (merge_key toMerge ret key n)) = Some v ->
            exists j gs, v = VObj j gs.
Proof.
  intros Hret v. destruct (String.eqb_spec "style" key) as [<-|Hne].
  - unfold merge_key. cbn [String.eqb Ascii.eqb Bool.eqb].
    rewrite normalizeStyle_array.
    destruct (fold_left _ _ _) as [res n']. cbn [fst].
    read_written. intros [= <-]. by eexists _, _.
  - rewrite merge_key_other by done. apply Hret.
Qed.

Lemma merged_style_shape args n v :
  get_field "style" (fst (fold_left merge_one args ([], n))) = Some v ->
  exists j gs, v = VObj j gs.
Proof.
  assert (forall acc : Fields * nat,
    (forall v, get_field "style" (fst acc) = Some v ->
               exists j gs, v = VObj j gs) ->
    forall v, get_field "style" (fst (fold_left merge_one args acc)) = Some v ->
              exists j gs, v = VObj j gs) as Hall.
  { induction args as [|arg args IH]; intros acc Hacc; [done|].
    cbn [fold_left]. apply IH. unfold merge_one.
    generalize (fields_of arg) as fs. intros fs. revert acc Hacc.
    induction fs as [|kv fs IHfs]; intros acc Hacc; [done|].
    cbn [fold_left]. apply IHfs. by apply merge_key_style_shape. }
  apply Hall. by intros ? [=].
Qed.


End Facts.
End MergeStyleFacts.

(* ===================================================================== *)
(** * Suspended tracking *)
(* ===================================================================== *)

Module TrackingFacts.
Import Js Shared VNode Spec Rules VNodeFacts.

Section Facts.
Context {PF : PatchFlags} {SF : SlotFlags} {E : Externals}.


(** [closeBlock] undoes [openBlock]: the stack is the one before, and the
    current list is the one on its top, or none. *)
Theorem closeBlock_undoes_openBlock disableTracking s :
  blockStack (closeBlock (openBlock disableTracking s)) = blockStack s /\
  currentBlock (closeBlock (openBlock disableTracking s))
    = stack_top (blockStack s) /\
  isBlockTreeEnabled (closeBlock (openBlock disableTracking s))
    = isBlockTreeEnabled s /\
  heap (closeBlock (openBlock disableTracking s)) = heap s.
Proof.
  unfold closeBlock, openBlock.
  destruct disableTracking; cbn; by rewrite removelast_snoc.
Qed.

End Facts.
End TrackingFacts.

(* ===================================================================== *)
(** * The properties at concrete inputs *)
(* ===================================================================== *)

Module Examples.
Import Js Shared VNode App Spec Rules VNodeFacts.

#[local] Existing Instance Upstream.patch_flags.
#[local] Existing Instance Upstream.slot_flags.
#[local] Existing Instance Upstream.development.
#[local] Existing Instance Upstream.host.

(** A block of three paragraphs inside a [div], from the initial state; and
    the vnode of a component, built by [_createVNode] with no patch flag
    while a block is open. *)
Lemma C1_witness :
  ((0 < isBlockTreeEnabled initial /\ lists_exist initial /\
    0 < TEXT /\ TEXT <> HYDRATE_EVENTS /\ 0 < CLASS /\ CLASS <> HYDRATE_EVENTS) /\
   runs
     (bind (fun s => Some (tt, openBlock false s)) (fun _ =>
      bind (createBaseVNode 0 (VStr "p") VNull (VStr "a") TEXT VNull None
              false false) (fun n1 =>
      bind (createBaseVNode 0 (VStr "p") VNull (VStr "b") 0 VNull None
              false false) (fun n2 =>
      bind (createBaseVNode 0 (VStr "p") VNull (VStr "c") CLASS VNull None
              false false) (fun n3 =>
      bind (createElementBlock 0 (VStr "div") VNull
              (VArr 0 [VVNode 0%nat; VVNode 1%nat; VVNode 2%nat]) 0 VNull None)
           (fun root => ret (n1, n2, n3, root))))))) initial
     (fun r s' =>
        let '(n1, n2, n3, root) := r in
        n1 = length (heap initial) /\ n2 = S n1 /\ n3 = S n2 /\ root = S n3 /\
        exists v a,
          heap s' !! root = Some v /\
          dynamicChildren v = DCBlock a /\
          blocks s' !! a = Some (mkBlock [n1; n3] None))) /\
  ((0 < isBlockTreeEnabled (openBlock false initial) /\
    currentBlock (openBlock false initial) = Some 0%nat /\
    blocks (openBlock false initial) !! 0%nat = Some (mkBlock [] None) /\
    plain_args (mkArgs (VObj 5 []) VNull (VObj 6 [("_", VNum 1)]) 0 VNull false)
      = true) /\
   runs (_createVNode 0
           (mkArgs (VObj 5 []) VNull (VObj 6 [("_", VNum 1)]) 0 VNull false))
     (openBlock false initial)
     (fun l s' =>
        l = 0%nat /\
        exists v,
          heap s' !! l = Some v /\
          blocks s' !! 0%nat = Some (mkBlock [l] None))) /\
  match createBaseVNode 1 (VStr "div") VNull (VObj 7 [("default", VFun 8 [])])
          TEXT VNull None true true (openBlock false initial) with
  | Some (l, s1) =>
      runs (createBaseVNode 1 (VStr "div") VNull
              (VObj 7 [("default", VFun 8 [])]) TEXT VNull None false true)
        (openBlock false initial)
        (fun l' s' =>
           l' = l /\ heap s' = heap s1 /\
           blocks s' !! 0%nat = Some (mkBlock [l] None))
  | None => False
  end.
Proof.
  split; [split|split; [split|]].
  - repeat split; done.
  - apply (proj1 (proj2 C1_dynamic_nodes_are_tracked)); try done.
  - repeat split; reflexivity.
  - eapply runs_conseq.
    + apply (proj2 (proj2 (proj2 (proj2 C1_dynamic_nodes_are_tracked)))
               0%nat
               (mkArgs (VObj 5 []) VNull (VObj 6 [("_", VNum 1)]) 0 VNull false)
               (openBlock false initial) 0%nat (mkBlock [] None));
        reflexivity.
    + intros l s' (-> & v & Hv & Hsf & Hp & Hb & _).
      split; [reflexivity|]. exists v.
      assert (is_dynamic false v = true) as Hdyn.
      { unfold is_dynamic. rewrite Hsf.
        destruct Hp as [Hp|Hp]; rewrite Hp; reflexivity. }
      cbn [a_isBlockNode] in Hb. rewrite Hdyn in Hb.
      split; [exact Hv|exact Hb].
  - destruct (createBaseVNode 1 (VStr "div") VNull
                (VObj 7 [("default", VFun 8 [])]) TEXT VNull None true true
                (openBlock false initial)) as [[l s1]|] eqn:Hrun.
    2:{ vm_compute in Hrun. discriminate Hrun. }
    pose proof Hrun as Hs1. vm_compute in Hs1. injection Hs1 as Hl Hs1.
    destruct (proj1 (proj2 (proj2 C1_dynamic_nodes_are_tracked))
                1%nat (VStr "div") VNull (VObj 7 [("default", VFun 8 [])])
                TEXT VNull None false true (openBlock false initial) l s1
                0%nat (mkBlock [] None) Hrun)
      as (v & Hv & Hruns); [by rewrite <- Hs1..|].
    eapply runs_conseq; [exact Hruns|].
    intros l' s' (-> & Hh & Hb & _). split; [done|]. split; [done|].
    rewrite Hb. rewrite <- Hs1, <- Hl in Hv. injection Hv as <-.
    reflexivity.
Defined.

(** Closing the only open block, whose root is a [div]. *)
Lemma C2_witness :
  let s := openBlock false (with_heap initial [Upstream.plain_div]) in
  (heap s !! 0%nat = Some Upstream.plain_div /\
   blockStack s = [] ++ [Some 0%nat] /\
   currentBlock s = Some 0%nat /\
   exists_in (blocks s) (stack_top []) = true) /\
  runs (setupBlock 0%nat) s
    (fun r s' =>
       r = 0%nat /\ blockStack s' = [] /\ currentBlock s' = stack_top [] /\
       (exists v', heap s' !! 0%nat = Some v' /\
          dynamicChildren v' =
            if 0 <? isBlockTreeEnabled s then DCBlock 0 else DCNull) /\
       blocks s' = blocks s).
Proof.
  cbv zeta. split.
  - repeat split; reflexivity.
  - apply (proj1 C2_setupBlock_closes_block 0%nat _ Upstream.plain_div []
                 (Some 0%nat)); reflexivity.
Defined.

(** With tracking suspended ([setBlockTracking(-1)], as inside [v-once]), a
    block opened with [openBlock()] and closed by [createElementBlock] leaves
    the root with [dynamicChildren = null]: neither the list just closed nor
    the empty sentinel. *)
Lemma C2_counterexample :
  let s := openBlock false (setBlockTracking (-1) initial) in
  currentBlock s = Some 0%nat /\
  exists s' v,
    createElementBlock 0 (VStr "div") VNull VNull 0 VNull None s
      = Some (0%nat, s') /\
    heap s' !! 0%nat = Some v /\
    dynamicChildren v = DCNull /\
    dynamicChildren v <> DCBlock 0 /\
    dynamicChildren v <> DCEmptyArr.
Proof.
  cbv zeta. split; [reflexivity|].
  eexists _, _. split; [vm_compute; reflexivity|].
  split; [reflexivity|]. cbn. by repeat split.
Defined.

(** A fragment block and a component block, built by [createBlock] around
    the vnode of a component, nested in an element block, with the tracking
    counter changed in between, from the initial state; and [createBlock]
    alone, closing the only open block. *)
Lemma C9_witness :
  let script :=
    BlockOf false
      [Element (VStr "p") VNull (VStr "a") 1 VNull None;
       Tracking (-1);
       BlockOf true [Element (VStr "li") VNull VNull 2 VNull None]
               Fragment VNull VNull 128 VNull None;
       Tracking 1;
       NodeBlockOf false
         [Node (mkArgs (VObj 5 []) VNull VNull 0 VNull false)]
         (VObj 6 []) VNull (VObj 7 [("_", VNum 1)]) 0 VNull]
      (VStr "div") VNull VNull 0 VNull None in
  ((plain_step script = true /\ vnodeArgsTransformer initial = None /\
    current_is_top initial /\ lists_exist initial) /\
   runs (run_step 0 script) initial
     (fun _ s' =>
        blockStack s' = blockStack initial /\
        currentBlock s' = currentBlock initial /\
        current_is_top s' /\ lists_exist s')) /\
  match createVNode 0 (mkArgs (VObj 6 []) VNull VNull 0 VNull true)
          (openBlock false initial) with
  | Some (l, s1) =>
      blockStack s1 = [] ++ [Some 0%nat] /\
      runs (createBlock 0 (VObj 6 []) VNull VNull 0 VNull)
        (openBlock false initial)
        (fun root s' =>
           root = l /\ blockStack s' = [] /\ currentBlock s' = stack_top [])
  | None => False
  end.
Proof.
  cbv zeta. split; [split|].
  - repeat split; reflexivity.
  - apply (proj2 (proj2 (proj2 (proj2 (proj2 C9_block_stack_balance)))));
      repeat split; reflexivity.
  - destruct (createVNode 0 (mkArgs (VObj 6 []) VNull VNull 0 VNull true)
                (openBlock false initial)) as [[l s1]|] eqn:Hrun.
    2:{ vm_compute in Hrun. discriminate Hrun. }
    pose proof Hrun as Hs1. vm_compute in Hs1. injection Hs1 as Hl Hs1.
    assert (blockStack s1 = [] ++ [Some 0%nat]) as Hst
      by (by rewrite <- Hs1).
    split; [exact Hst|].
    apply (proj1 (proj2 (proj2 (proj2 C9_block_stack_balance)))
             0%nat (VObj 6 []) VNull VNull 0 VNull (openBlock false initial)
             l s1 [] (Some 0%nat) Hrun Hst).
    reflexivity.
Defined.

(** ** [isSameVNodeType], [cloneVNode], [cloneIfMounted], [createVNode] *)

(** A vnode keyed [NaN] against itself. *)
Lemma isSameVNodeType_NaN_key_witness :
  let v := Upstream.div_with (VObj 0 [("key", VNaN)]) VNaN 0 VNull VUndef in
  let s := with_heap initial [v] in
  (heap s !! 0%nat = Some v /\ (key v = VNaN \/ key v = VNaN)) /\
  runs (isSameVNodeType 0%nat 0%nat) s (fun same _ => same = false).
Proof.
  cbv zeta. split.
  - split; [reflexivity|left; reflexivity].
  - apply (CloneFacts.isSameVNodeType_NaN_key 0%nat 0%nat _
             (Upstream.div_with (VObj 0 [("key", VNaN)]) VNaN 0 VNull VUndef)
             (Upstream.div_with (VObj 0 [("key", VNaN)]) VNaN 0 VNull VUndef));
      [reflexivity | reflexivity | left; reflexivity].
Defined.

(** Two [div]s with different keys. *)
Lemma isSameVNodeType_compares_witness :
  let v1 := Upstream.div_with (VObj 0 [("key", VNum 1)]) (VNum 1) 0 VNull VUndef in
  let v2 := Upstream.div_with (VObj 1 [("key", VNum 2)]) (VNum 2) 0 VNull VUndef in
  let s := with_heap initial [v1; v2] in
  runs (isSameVNodeType 0%nat 1%nat) s (fun same s' => s' = s /\ same = false).
Proof.
  cbv zeta.
  apply (CloneFacts.isSameVNodeType_compares_type_and_key 0%nat 1%nat _
           (Upstream.div_with (VObj 0 [("key", VNum 1)]) (VNum 1) 0 VNull VUndef)
           (Upstream.div_with (VObj 1 [("key", VNum 2)]) (VNum 2) 0 VNull VUndef));
    reflexivity.
Defined.







(** ** [mergeProps] *)

(** An object with the empty string as a key among the arguments. *)
Lemma mergeProps_no_empty_key_witness :
  isOn "" = false /\
  has "" (fst (mergeProps [VObj 1 [("", VNum 1); ("id", VStr "a")]] 0%nat)) = false.
Proof.
  split; [reflexivity|].
  apply (MergeFacts.mergeProps_no_empty_key
           [VObj 1 [("", VNum 1); ("id", VStr "a")]] 0%nat). reflexivity.
Defined.



(** ** [mount] and [unmount] *)

(** Mounting the first application again. *)
Lemma mount_of_mounted_app_witness :
  exists w',
    mount 0%nat 0%nat 0%nat VUndef VUndef Upstream.two_apps = Some (VUndef, w') /\
    apps w' = apps Upstream.two_apps /\
    containers w' = containers Upstream.two_apps /\
    devtools w' = devtools Upstream.two_apps /\
    heap (vnodes w') = heap (vnodes Upstream.two_apps) /\
    warnings (vnodes w') =
      warnings (vnodes Upstream.two_apps) ++
      (if __DEV__ then [AppAlreadyMounted] else []).
Proof.
  apply (AppFacts.mount_of_mounted_app_only_warns 0%nat 0%nat 0%nat VUndef VUndef
           Upstream.two_apps
           (mkApplication (VObj 20 []) VNull (VObj 21 []) true (Some 0%nat)
              (VObj 24 []))); reflexivity.
Defined.

(** Unmounting the second application, which is not mounted. *)
Lemma unmount_of_unmounted_app_witness :
  exists w',
    unmount 1%nat Upstream.two_apps = Some (tt, w') /\
    apps w' = apps Upstream.two_apps /\
    containers w' = containers Upstream.two_apps /\
    devtools w' = devtools Upstream.two_apps /\
    heap (vnodes w') = heap (vnodes Upstream.two_apps) /\
    warnings (vnodes w') =
      warnings (vnodes Upstream.two_apps) ++
      (if __DEV__ then [CannotUnmountUnmounted] else []).
Proof.
  apply (AppFacts.unmount_of_unmounted_app_only_warns 1%nat Upstream.two_apps
           (mkApplication (VObj 22 []) VNull (VObj 23 []) false None VNull));
    reflexivity.
Defined.

(** Unmounting the first application. *)
Lemma unmount_of_mounted_app_witness :
  exists w',
    unmount 0%nat Upstream.two_apps = Some (tt, w') /\
    containers w' = <[0%nat := None]> (containers Upstream.two_apps) /\
    vnodes w' = vnodes Upstream.two_apps /\
    devtools w' =
      devtools Upstream.two_apps ++
      (if (__DEV__ || __FEATURE_PROD_DEVTOOLS__)%bool
       then [UnmountApp 0] else []) /\
    exists a',
      apps w' !! 0%nat = Some a' /\
      isMounted a' = true /\ _container a' = Some 0%nat /\
      _instance a' = (if (__DEV__ || __FEATURE_PROD_DEVTOOLS__)%bool
                      then VNull else VObj 24 []).
Proof.
  apply (AppFacts.unmount_of_mounted_app 0%nat Upstream.two_apps
           (mkApplication (VObj 20 []) VNull (VObj 21 []) true (Some 0%nat)
              (VObj 24 []))
           0%nat Upstream.two_apps (Some 0%nat)); reflexivity.
Defined.

(** Unmounting the first application and mounting it again. *)
Lemma mount_after_unmount_witness :
  exists w'',
    wbind (unmount 0%nat)
          (fun _ => mount 2%nat 0%nat 0%nat VUndef VUndef) Upstream.two_apps
      = Some (VUndef, w'') /\
    containers w'' = <[0%nat := None]> (containers Upstream.two_apps) /\
    containers w'' !! 0%nat = Some None /\
    heap (vnodes w'') = heap (vnodes Upstream.two_apps) /\
    warnings (vnodes w'') =
      warnings (vnodes Upstream.two_apps) ++
      (if __DEV__ then [AppAlreadyMounted] else []) /\
    exists a', apps w'' !! 0%nat = Some a' /\ isMounted a' = true.
Proof.
  apply (AppFacts.mount_after_unmount_only_warns 2%nat 0%nat Upstream.two_apps
           (mkApplication (VObj 20 []) VNull (VObj 21 []) true (Some 0%nat)
              (VObj 24 []))
           0%nat Upstream.two_apps (Some 0%nat) 0%nat VUndef VUndef);
    reflexivity.
Defined.

(** Mounting the second application in the container of the first: the
    mount goes through after the diagnostic, and the container then refers to
    the second application. *)
Lemma mount_records_the_application_witness :
  match mount 2%nat 1%nat 0%nat VUndef VUndef Upstream.two_apps with
  | Some (r, w') =>
      containers Upstream.two_apps !! 0%nat = Some (Some 0%nat) /\
      containers w' !! 0%nat = Some (Some 1%nat) /\
      exists a',
        apps w' !! 1%nat = Some a' /\ isMounted a' = true /\
        _container a' = Some 0%nat
  | None => False
  end.
Proof.
  destruct (mount 2%nat 1%nat 0%nat VUndef VUndef Upstream.two_apps)
    as [[r w']|] eqn:Hrun.
  - split; [reflexivity|].
    exact (AppFacts.mount_records_the_application 2%nat 1%nat 0%nat VUndef VUndef
             Upstream.two_apps
             (mkApplication (VObj 22 []) VNull (VObj 23 []) false None VNull)
             r w' eq_refl eq_refl Hrun).
  - vm_compute in Hrun. discriminate Hrun.
Defined.

(** ** Classes and styles *)

(** The class object [{active: true, wait: false, big: 1}]. *)
Lemma normalizeClass_joins_keys_witness :
  let fs := [("active", VBool true); ("wait", VBool false); ("big", VNum 1)] in
  unique_keys fs = true /\
  normalizeClass (VObj 0 fs) = "active big".
Proof.
  cbv zeta. split; [reflexivity|].
  apply (SharedFacts.normalizeClass_joins_keys 0%nat
           [("active", VBool true); ("wait", VBool false); ("big", VNum 1)]);
    reflexivity.
Defined.

(** The style text [color: red; font-size : 12px]. *)
Lemma parseStringStyle_trimmed_witness :
  In ("font-size", VStr "12px")
     (fields_of (fst (parseStringStyle "color: red; font-size : 12px" 0%nat))) /\
  ("font-size" = "" \/ clean_name "font-size" = true) /\
  exists s, VStr "12px" = VStr s /\ (s = "" \/ clean_name s = true).
Proof.
  split; [right; left; reflexivity|].
  apply (SharedFacts.parseStringStyle_trimmed "color: red; font-size : 12px"
           0%nat "font-size" (VStr "12px")).
  right. left. reflexivity.
Defined.



(** The class array [["btn", "btn-primary", "active"]]. *)
Lemma normalizeClass_joins_names_witness :
  forallb clean_name ["btn"; "btn-primary"; "active"] = true /\
  normalizeClass (VArr 0 (map VStr ["btn"; "btn-primary"; "active"]))
    = "btn btn-primary active".
Proof.
  split; [reflexivity|].
  apply (SharedFacts.normalizeClass_joins_names 0%nat
           ["btn"; "btn-primary"; "active"]). reflexivity.
Defined.

(** ** Suspended tracking *)


End Examples.

